(** * Lawyer practice optimizer: scan, consolidate, recommend

  A shallow embedding of the analysis pipeline of the repository
  (fs_analyzer.py, cloud_scanner.py, diagnostic_questions.py,
  src/analyzer.py, src/email_scanner.py and src/system_coordinator.py)
  together with the properties the specification states about it and
  further properties of the modelled code.

  Conventions of the embedding.
  - Python [int] is [Z] (sizes, byte counts) or [nat] (results of [len]
    and counters that are only incremented).
  - Python [float] is the field [Q] of exact rationals: every float in
    the modelled code is produced by [/], [*], [+] on integers and decimal
    literals and is only compared against literals; rounding is outside
    the model.
  - A Python exception is the left injection of [Py.Exc]; [try/except]
    is a match on it.
  - A [dict] with a fixed, literal key set is a record; a [dict] or
    [defaultdict] that is filled during a run is an association list in
    insertion order ([Py.dict_get], [Py.dict_set]).
  - An f-string is kept unformatted, as its template and the numbers that
    are interpolated ([Py.FString]); computing an interpolated number can
    raise, and the model keeps that. *)

From Stdlib Require Import List String Ascii ZArith QArith Qabs Bool Lia Lqa
  Permutation Sorted.
Import ListNotations.
Close Scope Q_scope.
Open Scope string_scope.

(* ================================================================== *)
(** * Python primitives used by the modelled code *)
(* ================================================================== *)

Module Py.

Inductive exn : Type :=
| ZeroDivisionError
| OSError
| ServiceError.

(** A computation that either raises or returns. *)
Definition Exc (A : Type) : Type := (exn + A)%type.

Definition ret {A} (a : A) : Exc A := inr a.
Definition raise {A} (e : exn) : Exc A := inl e.
Definition bind {A B} (c : Exc A) (k : A -> Exc B) : Exc B :=
  match c with
  | inl e => inl e
  | inr a => k a
  end.

(** [a / b] on numbers: true division, raising on a zero divisor. *)
Definition truediv (a b : Q) : Exc Q :=
  if Qeq_bool b 0 then raise ZeroDivisionError else ret (a / b)%Q.

(** [a < b] and [a > b] on numbers. *)
Definition lt (a b : Q) : bool := negb (Qle_bool b a).
Definition gt (a b : Q) : bool := lt b a.

Definition of_nat (n : nat) : Q := inject_Z (Z.of_nat n).

(** [sum(xs)]: left fold of [+] from the integer 0. *)
Definition sum (xs : list Q) : Q := fold_left Qplus xs 0%Q.

(** [sorted(l, key=key, reverse=True)] and [l.sort(key=key, reverse=True)]:
    a stable sort into descending key order, where [klt] is [<] on keys.
    An element stays in front of the later elements it does not compare
    below. *)
Section Sorting.
Context {A K : Type} (klt : K -> K -> bool) (key : A -> K).

Fixpoint insert_desc (x : A) (l : list A) : list A :=
  match l with
  | [] => [x]
  | y :: ys =>
      if klt (key x) (key y) then y :: insert_desc x ys
      else x :: y :: ys
  end.

Fixpoint sorted_reverse (l : list A) : list A :=
  match l with
  | [] => []
  | x :: xs => insert_desc x (sorted_reverse xs)
  end.

(** [x] does not compare below [y]. *)
Definition not_below (x y : A) : Prop := klt (key x) (key y) = false.
End Sorting.

(** [<] on tuples [(int, number)]: the first differing component decides. *)
Definition tuple_lt (a b : nat * Q) : bool :=
  if negb (Nat.eqb (fst a) (fst b)) then Nat.ltb (fst a) (fst b)
  else if negb (Qeq_bool (snd a) (snd b)) then lt (snd a) (snd b)
  else false.

(** An f-string before formatting. *)
Record FString : Type := fstr { template : string; args : list Q }.

(** Insertion-ordered dictionaries with string keys. *)
Definition dict (V : Type) : Type := list (string * V).

Fixpoint dict_get {V} (d : dict V) (k : string) : option V :=
  match d with
  | [] => None
  | (k', v) :: d' => if String.eqb k k' then Some v else dict_get d' k
  end.

Fixpoint dict_set {V} (d : dict V) (k : string) (v : V) : dict V :=
  match d with
  | [] => [(k, v)]
  | (k', v') :: d' =>
      if String.eqb k k' then (k', v) :: d' else (k', v') :: dict_set d' k v
  end.

Definition keys {V} (d : dict V) : list string := map fst d.

(** [d.get(k, default)] *)
Definition get_default {V} (d : dict V) (k : string) (default : V) : V :=
  match dict_get d k with
  | Some v => v
  | None => default
  end.

(** Counters: [d[k] += n] on a [defaultdict(int)]. *)
Definition dict_add {V} (plus : V -> V -> V) (zero : V) (d : dict V)
  (k : string) (n : V) : dict V :=
  dict_set d k (plus (get_default d k zero) n).

(** The same for a [defaultdict(int)] keyed by small integers. *)
Fixpoint counter_incr (d : list (nat * nat)) (k : nat) : list (nat * nat) :=
  match d with
  | [] => [(k, 1)]
  | (k', v) :: d' =>
      if Nat.eqb k k' then (k', S v) :: d' else (k', v) :: counter_incr d' k
  end.

(** Strings (ASCII). *)
Definition lower_ascii (c : ascii) : ascii :=
  let n := nat_of_ascii c in
  if ((65 <=? n) && (n <=? 90))%nat then ascii_of_nat (n + 32) else c.

Fixpoint lower (s : string) : string :=
  match s with
  | EmptyString => EmptyString
  | String c s' => String (lower_ascii c) (lower s')
  end.

Definition isdigit (c : ascii) : bool :=
  let n := nat_of_ascii c in ((48 <=? n) && (n <=? 57))%nat.

(** [sub in s] *)
Fixpoint contains (sub s : string) : bool :=
  prefix sub s ||
  match s with
  | EmptyString => false
  | String _ s' => contains sub s'
  end.

Definition startswith (s pre : string) : bool := prefix pre s.

Definition endswith (s suf : string) : bool :=
  let n := String.length s in
  let m := String.length suf in
  (m <=? n)%nat && String.eqb (substring (n - m) m s) suf.

(** [s.count(c)] for a one-character [c]. *)
Fixpoint count_char (c : ascii) (s : string) : nat :=
  match s with
  | EmptyString => 0
  | String c' s' => (if Ascii.eqb c c' then 1 else 0) + count_char c s'
  end.

Fixpoint any_char (p : ascii -> bool) (s : string) : bool :=
  match s with
  | EmptyString => false
  | String c s' => p c || any_char p s'
  end.

(** [s.rfind(c)]: index of the last occurrence, if any. *)
Fixpoint rfind (c : ascii) (s : string) : option nat :=
  match s with
  | EmptyString => None
  | String c' s' =>
      match rfind c s' with
      | Some i => Some (S i)
      | None => if Ascii.eqb c c' then Some 0 else None
      end
  end.

(** [pathlib]: final component, suffix and stem of a path string. *)
Definition path_name (p : string) : string :=
  match rfind "/"%char p with
  | Some i => substring (S i) (String.length p - S i) p
  | None => p
  end.

Definition path_suffix (p : string) : string :=
  let name := path_name p in
  match rfind "."%char name with
  | Some i =>
      if ((0 <? i) && (i <? String.length name - 1))%nat
      then substring i (String.length name - i) name
      else ""
  | None => ""
  end.

Definition path_stem (p : string) : string :=
  let name := path_name p in
  match rfind "."%char name with
  | Some i =>
      if ((0 <? i) && (i <? String.length name - 1))%nat
      then substring 0 i name
      else name
  | None => name
  end.

(** [str(Path(a) / b)] for a relative, separator-free [b]. *)
Definition path_join (a b : string) : string := a ++ "/" ++ b.

Fixpoint join (sep : string) (parts : list string) : string :=
  match parts with
  | [] => ""
  | [p] => p
  | p :: ps => p ++ sep ++ join sep ps
  end.

(** [x in xs] for a list of string literals. *)
Definition str_in (x : string) (xs : list string) : bool :=
  existsb (String.eqb x) xs.

(** A [try] block as a sequence of statements over a state: when a
    statement raises, the state is the one the completed statements left. *)
Fixpoint run_steps {S} (steps : list (S -> Exc S)) (s : S) : S * option exn :=
  match steps with
  | [] => (s, None)
  | f :: fs =>
      match f s with
      | inl e => (s, Some e)
      | inr s' => run_steps fs s'
      end
  end.

End Py.

Notation "x <- c ;; k" := (Py.bind c (fun x => k))
(at level 61, c at next level, right associativity).

(* ================================================================== *)
(** * Shared report entities *)
(* ================================================================== *)

(** One entry of a scanner's ['organization_issues'] list.  Every issue
  literal in the scanners has these four keys. *)
Module Issue.
Record t : Type := mk {
  severity : string;
  issue : string;
  description : Py.FString;
  impact : string
}.
End Issue.

(** One entry of a ['recommendations'] list.  The key ['source'] is absent
  until the coordinator writes it. *)
Module Rec.
Record t : Type := mk {
  priority : string;
  area : string;
  title : Py.FString;
  description : Py.FString;
  estimated_time_savings_hours_per_week : Q;
  implementation_time : string;
  difficulty : string;
  source : option string
}.

Definition set_source (s : string) (r : t) : t :=
  mk (priority r) (area r) (title r) (description r)
     (estimated_time_savings_hours_per_week r)
     (implementation_time r) (difficulty r) (Some s).
End Rec.

(** The keys of a scanner's result dictionary that the coordinator reads.
  ['provider'] is set by the mail and drive scanners only and
  ['organization_issues'] by the file and drive scanners only. *)
Module Report.
Record t : Type := mk {
  provider : option string;
  scan_complete : bool;
  error : option Py.exn;
  organization_issues : option (list Issue.t);
  recommendations : list Rec.t
}.
End Report.


(* ================================================================== *)
(** * system_coordinator.py: [SystemCoordinator] *)
(* ================================================================== *)

Module Coordinator.

(** What a run reads from the outside: the outcome of each authentication,
    whether the documents directory exists, the dictionary each scanner
    returns when it is called (scanners catch their own exceptions and
    always return one), and the reply of the text-generation service
    ([None] when the call raises). *)
Record Env : Type := mkEnv {
  analysis_timestamp : string;
  gmail_auth : bool;
  scan_gmail_result : Report.t;
  docs_path_exists : bool;
  scan_filesystem_result : Report.t;
  drive_auth : bool;
  scan_google_drive_result : Report.t;
  ai_reply : option string
}.

Record LawyerInfo : Type := mkLawyerInfo {
  name : string;
  email : string;
  analysis_date : string
}.

Record ScanSummary : Type := mkScanSummary {
  modules_scanned : list string;
  total_findings : nat;
  total_recommendations : nat;
  total_time_savings_estimate : Q
}.

Module CombinedIssue.
Record t : Type := mk {
  module : string;
  severity : string;
  issue : string;
  description : Py.FString;
  impact : string
}.
End CombinedIssue.

(** The dictionary [_consolidate_findings] builds. *)
Record Consolidated : Type := mkConsolidated {
  critical_issues : list CombinedIssue.t;
  high_priority_issues : list CombinedIssue.t;
  medium_priority_issues : list CombinedIssue.t;
  low_priority_issues : list CombinedIssue.t;
  opportunities : list CombinedIssue.t;
  security_concerns : list CombinedIssue.t
}.

(** The literal keys of that dictionary, and [consolidated.get(k)]. *)
Definition consolidated_keys : list string :=
  ["critical_issues"; "high_priority_issues"; "medium_priority_issues";
   "low_priority_issues"; "opportunities"; "security_concerns"].

Definition consolidated_get (c : Consolidated) (k : string)
  : option (list CombinedIssue.t) :=
  if String.eqb k "critical_issues" then Some (critical_issues c)
  else if String.eqb k "high_priority_issues" then Some (high_priority_issues c)
  else if String.eqb k "medium_priority_issues" then Some (medium_priority_issues c)
  else if String.eqb k "low_priority_issues" then Some (low_priority_issues c)
  else if String.eqb k "opportunities" then Some (opportunities c)
  else if String.eqb k "security_concerns" then Some (security_concerns c)
  else None.

Inductive AiInsights : Type :=
| Parsed (raw_insights : string)
| AnalysisFailed.

(** [self.scan_results] *)
Record ScanResults : Type := mkScanResults {
  lawyer_info : LawyerInfo;
  scan_summary : ScanSummary;
  email_analysis : option Report.t;
  filesystem_analysis : option Report.t;
  cloud_analysis : option Report.t;
  consolidated_findings : option Consolidated;
  ai_insights : option AiInsights;
  prioritized_recommendations : option (list Rec.t)
}.



(** Field updates of [self.scan_results]. *)
Definition with_summary (f : ScanSummary -> ScanSummary) (s : ScanResults) :=
  mkScanResults (lawyer_info s) (f (scan_summary s)) (email_analysis s)
    (filesystem_analysis s) (cloud_analysis s) (consolidated_findings s)
    (ai_insights s) (prioritized_recommendations s).

Definition append_module (m : string) (y : ScanSummary) : ScanSummary :=
  mkScanSummary (modules_scanned y ++ [m]) (total_findings y)
    (total_recommendations y) (total_time_savings_estimate y).

Definition set_total_findings (n : nat) (y : ScanSummary) : ScanSummary :=
  mkScanSummary (modules_scanned y) n (total_recommendations y)
    (total_time_savings_estimate y).

Definition set_recommendation_totals (n : nat) (q : Q) (y : ScanSummary) :=
  mkScanSummary (modules_scanned y) (total_findings y) n q.

Definition set_email (r : Report.t) (s : ScanResults) :=
  mkScanResults (lawyer_info s) (scan_summary s) (Some r)
    (filesystem_analysis s) (cloud_analysis s) (consolidated_findings s)
    (ai_insights s) (prioritized_recommendations s).

Definition set_filesystem (r : Report.t) (s : ScanResults) :=
  mkScanResults (lawyer_info s) (scan_summary s) (email_analysis s)
    (Some r) (cloud_analysis s) (consolidated_findings s)
    (ai_insights s) (prioritized_recommendations s).

Definition set_cloud (r : Report.t) (s : ScanResults) :=
  mkScanResults (lawyer_info s) (scan_summary s) (email_analysis s)
    (filesystem_analysis s) (Some r) (consolidated_findings s)
    (ai_insights s) (prioritized_recommendations s).

Definition set_consolidated (c : Consolidated) (s : ScanResults) :=
  mkScanResults (lawyer_info s) (scan_summary s) (email_analysis s)
    (filesystem_analysis s) (cloud_analysis s) (Some c)
    (ai_insights s) (prioritized_recommendations s).

Definition set_ai (a : AiInsights) (s : ScanResults) :=
  mkScanResults (lawyer_info s) (scan_summary s) (email_analysis s)
    (filesystem_analysis s) (cloud_analysis s) (consolidated_findings s)
    (Some a) (prioritized_recommendations s).

(** The three module slots, in the order both loops visit them. *)
Definition modules (s : ScanResults) : list (option Report.t) :=
  [email_analysis s; filesystem_analysis s; cloud_analysis s].

(** [if module and module.get('scan_complete')] *)
Definition usable (m : option Report.t) : bool :=
  match m with
  | Some r => Report.scan_complete r
  | None => false
  end.

(** [module.get('provider', 'unknown')] *)
Definition provider_of (r : Report.t) : string :=
  match Report.provider r with
  | Some p => p
  | None => "unknown"
  end.

(** [module.get('organization_issues', [])] *)
Definition issues_of (r : Report.t) : list Issue.t :=
  match Report.organization_issues r with
  | Some l => l
  | None => []
  end.

Definition combine_issue (r : Report.t) (i : Issue.t) : CombinedIssue.t :=
  CombinedIssue.mk (provider_of r) (Issue.severity i) (Issue.issue i)
    (Issue.description i) (Issue.impact i).

(** The [if / elif / else] on the severity: one append. *)
Definition add_issue (c : Consolidated) (ci : CombinedIssue.t) : Consolidated :=
  let sev := CombinedIssue.severity ci in
  if String.eqb sev "critical" then
    mkConsolidated (critical_issues c ++ [ci]) (high_priority_issues c)
      (medium_priority_issues c) (low_priority_issues c) (opportunities c)
      (security_concerns c)
  else if String.eqb sev "high" then
    mkConsolidated (critical_issues c) (high_priority_issues c ++ [ci])
      (medium_priority_issues c) (low_priority_issues c) (opportunities c)
      (security_concerns c)
  else if String.eqb sev "medium" then
    mkConsolidated (critical_issues c) (high_priority_issues c)
      (medium_priority_issues c ++ [ci]) (low_priority_issues c)
      (opportunities c) (security_concerns c)
  else
    mkConsolidated (critical_issues c) (high_priority_issues c)
      (medium_priority_issues c) (low_priority_issues c ++ [ci])
      (opportunities c) (security_concerns c).

(** Body of [for module in modules]. *)
Definition consolidate_module (c : Consolidated) (m : option Report.t)
  : Consolidated :=
  match m with
  | Some r =>
      if Report.scan_complete r
      then fold_left add_issue (map (combine_issue r) (issues_of r)) c
      else c
  | None => c
  end.

Definition empty_consolidated : Consolidated :=
  mkConsolidated [] [] [] [] [] [].

Definition _consolidate_findings (s : ScanResults) : Consolidated :=
  fold_left consolidate_module (modules s) empty_consolidated.

(** [_generate_ai_insights]: every exception of the service call is caught
    and replaced by the fixed fallback dictionary. *)
Definition _generate_ai_insights (reply : option string) : AiInsights :=
  match reply with
  | Some insights => Parsed insights
  | None => AnalysisFailed
  end.

(** [priority_order.get(x.get('priority', 'low'), 0)] *)
Definition priority_order (p : string) : nat :=
  if String.eqb p "high" then 3
  else if String.eqb p "medium" then 2
  else if String.eqb p "low" then 1
  else 0.

Definition sort_key (r : Rec.t) : nat * Q :=
  (priority_order (Rec.priority r),
   Rec.estimated_time_savings_hours_per_week r).

(** [rec['source'] = ...; all_recs.append(rec)] for one module.  The
    dictionaries appended are the module's own, so the assignment is
    visible in the module's report as well: [tag_module] is the report
    after the loop. *)
Definition tagged_recs (m : option Report.t) : list Rec.t :=
  match m with
  | Some r =>
      if Report.scan_complete r
      then map (Rec.set_source (provider_of r)) (Report.recommendations r)
      else []
  | None => []
  end.

Definition tag_module (m : option Report.t) : option Report.t :=
  match m with
  | Some r =>
      if Report.scan_complete r
      then Some (Report.mk (Report.provider r) (Report.scan_complete r)
                   (Report.error r) (Report.organization_issues r)
                   (tagged_recs m))
      else m
  | None => None
  end.

Definition all_recs (s : ScanResults) : list Rec.t :=
  flat_map tagged_recs (modules s).

(** Returns the sorted list and the state with the tagged reports. *)
Definition _create_prioritized_recommendations (s : ScanResults)
  : list Rec.t * ScanResults :=
  (Py.sorted_reverse Py.tuple_lt sort_key (all_recs s),
   mkScanResults (lawyer_info s) (scan_summary s)
     (tag_module (email_analysis s)) (tag_module (filesystem_analysis s))
     (tag_module (cloud_analysis s)) (consolidated_findings s)
     (ai_insights s) (prioritized_recommendations s)).

Definition initial_results (lawyer_name lawyer_email : string) (e : Env)
  : ScanResults :=
  mkScanResults
    (mkLawyerInfo lawyer_name lawyer_email (analysis_timestamp e))
    (mkScanSummary [] 0 0 0%Q)
    None None None None None None.

(** Steps 1 to 3: each scanner runs when it is requested and its
    precondition (authentication, directory) holds; its dictionary is
    stored and its name appended whatever the dictionary says. *)
Definition scan_email_step (scan_gmail : bool) (e : Env) (s : ScanResults) :=
  if scan_gmail then
    if gmail_auth e
    then with_summary (append_module "email") (set_email (scan_gmail_result e) s)
    else s
  else s.

Definition scan_files_step (scan_local_files : bool) (e : Env) (s : ScanResults) :=
  if scan_local_files then
    if docs_path_exists e
    then with_summary (append_module "filesystem")
           (set_filesystem (scan_filesystem_result e) s)
    else s
  else s.

Definition scan_drive_step (scan_drive : bool) (e : Env) (s : ScanResults) :=
  if scan_drive then
    if drive_auth e
    then with_summary (append_module "google_drive")
           (set_cloud (scan_google_drive_result e) s)
    else s
  else s.

Definition run_full_analysis (e : Env) (lawyer_name lawyer_email : string)
  (scan_local_files scan_gmail scan_drive : bool) : ScanResults :=
  let s0 := initial_results lawyer_name lawyer_email e in
  let s1 := scan_email_step scan_gmail e s0 in
  let s2 := scan_files_step scan_local_files e s1 in
  let s3 := scan_drive_step scan_drive e s2 in
  (* 4. consolidate findings *)
  let consolidated := _consolidate_findings s3 in
  let s4 := set_consolidated consolidated s3 in
  let s5 :=
    with_summary
      (set_total_findings
         (List.length (match consolidated_get consolidated "issues" with
                  | Some l => l
                  | None => []
                  end))) s4 in
  (* 5. AI insights *)
  let s6 := set_ai (_generate_ai_insights (ai_reply e)) s5 in
  (* 6. prioritized recommendations *)
  let '(recommendations, s7) := _create_prioritized_recommendations s6 in
  let s8 :=
    mkScanResults (lawyer_info s7) (scan_summary s7) (email_analysis s7)
      (filesystem_analysis s7) (cloud_analysis s7) (consolidated_findings s7)
      (ai_insights s7) (Some recommendations) in
  with_summary
    (set_recommendation_totals
       (List.length recommendations)
       (Py.sum (map Rec.estimated_time_savings_hours_per_week recommendations)))
    s8.

(** The severity bucket an issue is appended to. *)
Definition bucket (c : Consolidated) (sev : string) : list CombinedIssue.t :=
  if String.eqb sev "critical" then critical_issues c
  else if String.eqb sev "high" then high_priority_issues c
  else if String.eqb sev "medium" then medium_priority_issues c
  else low_priority_issues c.

(** The recommendations a stored report contributes to the merge. *)
Definition reported_recs (m : option Report.t) : list Rec.t :=
  match m with
  | Some r => if Report.scan_complete r then Report.recommendations r else []
  | None => []
  end.



(** [a] may stand before [b] in a list ranked by priority, then savings. *)
Definition ranks_before (a b : Rec.t) : Prop :=
  priority_order (Rec.priority b) < priority_order (Rec.priority a)
  \/ (priority_order (Rec.priority a) = priority_order (Rec.priority b)
      /\ (Rec.estimated_time_savings_hours_per_week b
          <= Rec.estimated_time_savings_hours_per_week a)%Q).

(** The slots after steps 1 to 3. *)
Definition email_slot (e : Env) (scan_gmail : bool) : option Report.t :=
  if scan_gmail && gmail_auth e then Some (scan_gmail_result e) else None.

Definition filesystem_slot (e : Env) (scan_local_files : bool)
  : option Report.t :=
  if scan_local_files && docs_path_exists e
  then Some (scan_filesystem_result e) else None.

Definition cloud_slot (e : Env) (scan_drive : bool) : option Report.t :=
  if scan_drive && drive_auth e
  then Some (scan_google_drive_result e) else None.

End Coordinator.


(* ================================================================== *)
(** * fs_analyzer.py: [FileAnalyzer] *)
(* ================================================================== *)

Module FsAnalyzer.

(** What [os.walk] and the file system give the scan: per visited
    directory (after the pruning of excluded directories) its path relative
    to the scan root and its files; per file its name, the size [stat]
    reports ([None] when [stat] raises [OSError]) and its bytes ([None]
    when reading raises, which [_get_file_hash] turns into [None]). *)
Record FileEntry : Type := mkFile {
  filename : string;
  st_size : option Z;
  content : option string
}.

Record WalkEntry : Type := mkWalk {
  rel_parts : list string;
  files : list FileEntry
}.

Definition excluded_extensions : list string :=
  [".tmp"; ".temp"; ".cache"; ".lock"].

Module FileInfo.
Record t : Type := mk {
  path : string;
  size : Z;
  category : string;
  extension : string;
  dir : string
}.
End FileInfo.

Module DirInfo.
Record t : Type := mk { file_count : nat; total_size : Z; depth : nat }.
End DirInfo.

Module DirFile.
Record t : Type := mk { filename : string; size : Z; category : string }.
End DirFile.

Module DuplicateGroup.
Record t : Type := mk {
  hash : string;
  file_count : nat;
  total_size_bytes : Z;
  paths : list string
}.
End DuplicateGroup.

Module Folder.
Record t : Type := mk { path : string; depth : nat; file_count : nat }.
End Folder.

Module DepthAnalysis.
Record t : Type := mk {
  avg_depth : Q;
  max_depth : nat;
  deep_folders : list Folder.t;
  shallow_folders : list Folder.t;
  optimal_depth : nat;
  depth_distribution : list (nat * nat)
}.
End DepthAnalysis.

Module NamingPatterns.
Record t : Type := mk {
  date_in_name : Q;
  client_name_in_name : Q;
  case_number_in_name : Q;
  spaces_in_name : Q;
  special_chars_in_name : Q;
  descriptive_names : Q;
  generic_names : Q
}.
End NamingPatterns.

(** The [results] dictionary.  ['depth_analysis'] and ['naming_patterns']
    start as empty dictionaries ([None]); ['scan_complete'] and ['error']
    are absent until the scan is sealed. *)
Record Results : Type := mkResults {
  scan_path : string;
  total_files : nat;
  total_dirs : nat;
  total_size_bytes : Z;
  files_by_type : Py.dict nat;
  files_by_category : Py.dict nat;
  size_by_category : Py.dict Z;
  directories : Py.dict DirInfo.t;
  duplicates : list DuplicateGroup.t;
  organization_issues : list Issue.t;
  file_paths : list FileInfo.t;
  depth_analysis : option DepthAnalysis.t;
  naming_patterns : option NamingPatterns.t;
  recommendations : list Rec.t;
  scan_complete : option bool;
  error : option Py.exn
}.

(** [results] together with the locals of the [try] block.  A bucket of
    [file_hashes] keeps, next to each path, the size the later
    [Path(p).stat()] reports for it: the files are taken not to change
    during a run, so it is the size of the first [stat]. *)
Record State : Type := mkState {
  results : Results;
  file_count : nat;
  file_hashes : Py.dict (list (string * Z));
  dir_structure : Py.dict (list DirFile.t)
}.

Definition _categorize_file (filepath : string) : string :=
  let ext := Py.lower (Py.path_suffix filepath) in
  let path_str := Py.lower filepath in
  if Py.str_in ext [".pdf"; ".doc"; ".docx"; ".rtf"] then
    if Py.contains "contract" path_str || Py.contains "agreement" path_str
    then "legal_contracts"
    else if Py.contains "pleading" path_str || Py.contains "motion" path_str
    then "legal_pleadings"
    else if Py.contains "discovery" path_str then "legal_discovery"
    else if Py.contains "letter" path_str then "legal_correspondence"
    else "documents"
  else if Py.str_in ext [".jpg"; ".jpeg"; ".png"; ".gif"; ".bmp"; ".tiff"]
  then "images"
  else if Py.str_in ext [".xls"; ".xlsx"; ".csv"] then
    if Py.contains "billing" path_str || Py.contains "invoice" path_str
    then "billing"
    else "spreadsheets"
  else if Py.str_in ext [".ppt"; ".pptx"] then "presentations"
  else if Py.str_in ext [".zip"; ".rar"; ".7z"; ".tar"; ".gz"] then "archives"
  else if Py.str_in ext [".exe"; ".msi"; ".app"; ".bat"; ".sh"]
  then "executables"
  else if Py.str_in ext [".py"; ".js"; ".html"; ".css"; ".java"; ".cpp"; ".c"]
  then "code"
  else "other".

(** [current_dir]: [str(rel_path)], or ['root'] for the scan root. *)
Definition current_dir_of (rel_parts : list string) : string :=
  match rel_parts with
  | [] => "root"
  | _ => Py.join "/" rel_parts
  end.

(** [str(Path(root))] for the directory [os.walk] is visiting. *)
Definition root_of (scan_path : string) (rel_parts : list string) : string :=
  fold_left Py.path_join rel_parts scan_path.

(** ** [_analyze_depth] *)

Definition depth_of (dir_path : string) : nat := Py.count_char "/"%char dir_path.

(** First loop: depth histogram and maximum depth. *)
Definition depth_step (acc : nat * list (nat * nat))
  (item : string * list DirFile.t) : nat * list (nat * nat) :=
  let depth := depth_of (fst item) in
  let distribution := Py.counter_incr (snd acc) depth in
  if (fst acc <? depth)%nat then (depth, distribution)
  else (fst acc, distribution).

(** Last loop: the two lists of structural concerns. *)
Definition folder_step (dir_structure : Py.dict (list DirFile.t))
  (acc : list Folder.t * list Folder.t) (dir_path : string)
  : list Folder.t * list Folder.t :=
  let depth := depth_of dir_path in
  let n := List.length (Py.get_default dir_structure dir_path []) in
  if (6 <=? depth)%nat then
    (fst acc ++ [Folder.mk dir_path depth n], snd acc)%list
  else if (depth <=? 1)%nat && (20 <? n)%nat then
    (fst acc, snd acc ++ [Folder.mk dir_path depth n])%list
  else acc.

(** [if dir_structure: ... sum(depths) / len(depths)], else the initial 0. *)
Definition average_depth (dir_structure : Py.dict (list DirFile.t))
  : Py.Exc Q :=
  match dir_structure with
  | [] => Py.ret 0%Q
  | _ =>
      let depths := map depth_of (Py.keys dir_structure) in
      Py.truediv (Py.of_nat (fold_left Nat.add depths 0))
        (Py.of_nat (List.length depths))
  end.

(** The entry the last loop appends for [dir_path]. *)
Definition folder_of (dir_structure : Py.dict (list DirFile.t))
  (dir_path : string) : Folder.t :=
  Folder.mk dir_path (depth_of dir_path)
    (List.length (Py.get_default dir_structure dir_path [])).

Definition _analyze_depth (dir_structure : Py.dict (list DirFile.t))
  : Py.Exc DepthAnalysis.t :=
  let '(max_depth, distribution) :=
    fold_left depth_step dir_structure (0, []) in
  avg_depth <- average_depth dir_structure ;;
  let '(deep_folders, shallow_folders) :=
    fold_left (folder_step dir_structure) (Py.keys dir_structure) ([], []) in
  Py.ret (DepthAnalysis.mk avg_depth max_depth deep_folders shallow_folders 3
            distribution).

(** ** [_analyze_naming_patterns] *)

Module Counts.
Record t : Type := mk {
  date_in_name : nat;
  client_name_in_name : nat;
  case_number_in_name : nat;
  spaces_in_name : nat;
  special_chars_in_name : nat;
  descriptive_names : nat;
  generic_names : nat
}.
End Counts.

Definition incr_if (b : bool) (n : nat) : nat := if b then S n else n.

Definition count_file (c : Counts.t) (file_info : FileInfo.t) : Counts.t :=
  let filename := Py.path_name (FileInfo.path file_info) in
  let filename_lower := Py.lower filename in
  let name_without_ext := Py.path_stem filename in
  let len := String.length name_without_ext in
  Counts.mk
    (incr_if (existsb (fun pattern => Py.contains pattern filename_lower)
                ["202"; "2024"; "2025"]) (Counts.date_in_name c))
    (incr_if (existsb (fun word => Py.contains word filename_lower)
                ["client"; "matter"; "case"]) (Counts.client_name_in_name c))
    (incr_if (Py.any_char Py.isdigit filename && Py.contains "-" filename)
       (Counts.case_number_in_name c))
    (incr_if (Py.contains " " name_without_ext) (Counts.spaces_in_name c))
    (incr_if (existsb (fun char => Py.contains char name_without_ext)
                ["!"; "@"; "#"; "$"; "%"]) (Counts.special_chars_in_name c))
    (incr_if (15 <? len)%nat (Counts.descriptive_names c))
    (incr_if ((len <=? 15)%nat && (len <? 10)%nat) (Counts.generic_names c)).

(** [(patterns[key] / total_sample) * 100] *)
Definition to_percentage (count total_sample : nat) : Py.Exc Q :=
  q <- Py.truediv (Py.of_nat count) (Py.of_nat total_sample) ;;
  Py.ret (q * 100)%Q.

Definition _analyze_naming_patterns (file_paths : list FileInfo.t)
  : Py.Exc NamingPatterns.t :=
  let sample_files := firstn 200 file_paths in
  let c := fold_left count_file sample_files (Counts.mk 0 0 0 0 0 0 0) in
  let total_sample :=
    match sample_files with
    | [] => 1
    | _ => List.length sample_files
    end in
  p1 <- to_percentage (Counts.date_in_name c) total_sample ;;
  p2 <- to_percentage (Counts.client_name_in_name c) total_sample ;;
  p3 <- to_percentage (Counts.case_number_in_name c) total_sample ;;
  p4 <- to_percentage (Counts.spaces_in_name c) total_sample ;;
  p5 <- to_percentage (Counts.special_chars_in_name c) total_sample ;;
  p6 <- to_percentage (Counts.descriptive_names c) total_sample ;;
  p7 <- to_percentage (Counts.generic_names c) total_sample ;;
  Py.ret (NamingPatterns.mk p1 p2 p3 p4 p5 p6 p7).

(** ** [_detect_organization_issues] *)

(** [results['depth_analysis'].get('max_depth', 0)] *)
Definition max_depth_of (r : Results) : nat :=
  match depth_analysis r with
  | Some d => DepthAnalysis.max_depth d
  | None => 0
  end.

Definition shallow_folders_of (r : Results) : list Folder.t :=
  match depth_analysis r with
  | Some d => DepthAnalysis.shallow_folders d
  | None => []
  end.

Definition spaces_in_name_of (r : Results) : Q :=
  match naming_patterns r with
  | Some n => NamingPatterns.spaces_in_name n
  | None => 0%Q
  end.

Definition date_in_name_of (r : Results) : Q :=
  match naming_patterns r with
  | Some n => NamingPatterns.date_in_name n
  | None => 0%Q
  end.

(** [results['directories'].get('root', {}).get('file_count', 0)] *)
Definition root_files_of (r : Results) : nat :=
  match Py.dict_get (directories r) "root" with
  | Some d => DirInfo.file_count d
  | None => 0
  end.

Definition total_duplicate_size_of (r : Results) : Z :=
  fold_left Z.add (map DuplicateGroup.total_size_bytes (duplicates r)) 0%Z.

Definition GiB : Q := inject_Z (1024 ^ 3).

(** An [if cond: issues.append(...)] block. *)
Definition when {A} (cond : bool) (x : A) : list A :=
  if cond then [x] else [].

Definition _detect_organization_issues (r : Results) : list Issue.t :=
  let root_files := root_files_of r in
  let shallow_folders := shallow_folders_of r in
  (when (50 <? root_files)%nat
     (Issue.mk "high" "too_many_root_files"
        (Py.fstr "{root_files} files in root directory (should be < 20)"
           [Py.of_nat root_files])
        "Hard to find files, poor organization")
   ++ when (8 <=? max_depth_of r)%nat
     (Issue.mk "medium" "folder_depth_too_deep"
        (Py.fstr "Max folder depth: {max_depth} levels"
           [Py.of_nat (max_depth_of r)])
        "Difficult navigation, hard to locate files")
   ++ when (5 <? List.length shallow_folders)%nat
     (Issue.mk "medium" "overcrowded_top_level"
        (Py.fstr "{len(shallow_folders)} folders with >20 files at shallow depth"
           [Py.of_nat (List.length shallow_folders)])
        "Cluttered organization, hard to find files")
   ++ when (Py.gt (spaces_in_name_of r) 30)
     (Issue.mk "low" "spaces_in_filenames"
        (Py.fstr "{spaces_in_name:.1f}% of files have spaces"
           [spaces_in_name_of r])
        "Cross-platform compatibility issues")
   ++ when (negb (Nat.eqb (List.length (duplicates r)) 0))
     (Issue.mk "medium" "duplicate_files"
        (Py.fstr "{len(duplicates)} duplicate groups, {total_duplicate_size / (1024**3):.1f}GB wasted"
           [Py.of_nat (List.length (duplicates r));
            (inject_Z (total_duplicate_size_of r) / GiB)%Q])
        "Wasted storage, confusion about which file is current")
   ++ when (Py.lt (date_in_name_of r) 10)
     (Issue.mk "low" "missing_dates_in_filenames"
        (Py.fstr "Only {date_in_name:.1f}% of files have dates"
           [date_in_name_of r])
        "Hard to track file versions and dates"))%list.

(** ** [_generate_file_recommendations] *)

Definition plain (s : string) : Py.FString := Py.fstr s [].

(** [uncategorized / total_files > 0.3 if total_files > 0 else False],
    and, when it holds, the percentage the description interpolates. *)
Definition uncategorized_check (uncategorized total_files : nat)
  : Py.Exc (option Q) :=
  if (0 <? total_files)%nat then
    q <- Py.truediv (Py.of_nat uncategorized) (Py.of_nat total_files) ;;
    if Py.gt q 0.3 then
      q' <- Py.truediv (Py.of_nat uncategorized) (Py.of_nat total_files) ;;
      Py.ret (Some (q' * 100)%Q)
    else Py.ret None
  else Py.ret None.

Definition _generate_file_recommendations (r : Results)
  : Py.Exc (list Rec.t) :=
  let n := List.length (duplicates r) in
  let duplicate_cleanup :=
    when (negb (Nat.eqb n 0))
      (Rec.mk "high" "duplicate_cleanup"
         (Py.fstr "Remove {len(duplicates)} duplicate file groups" [Py.of_nat n])
         (Py.fstr "Found {len(duplicates)} groups of duplicate files wasting {total_duplicate_size / (1024**3):.1f}GB of storage."
            [Py.of_nat n; (inject_Z (total_duplicate_size_of r) / GiB)%Q])
         0.5 "2-4 hours" "easy" None) in
  let folder_structure :=
    when (6 <=? max_depth_of r)%nat
      (Rec.mk "medium" "folder_structure"
         (plain "Simplify folder structure (max depth too high)")
         (Py.fstr "Folder structure is {max_depth} levels deep. Simplifying to 3-4 levels would improve navigation."
            [Py.of_nat (max_depth_of r)])
         1.0 "4-8 hours" "medium" None) in
  let naming_convention :=
    when (Py.gt (spaces_in_name_of r) 30)
      (Rec.mk "low" "naming_convention"
         (plain "Standardize file naming conventions")
         (Py.fstr "{spaces_in_name:.1f}% of files use spaces. Consider using dashes/underscores for better cross-platform compatibility."
            [spaces_in_name_of r])
         0.2 "1-2 hours" "easy" None) in
  let total_files := total_files r in
  let uncategorized := Py.get_default (files_by_category r) "other" 0 in
  pct <- uncategorized_check uncategorized total_files ;;
  let file_categorization :=
    match pct with
    | Some p =>
        [Rec.mk "medium" "file_categorization"
           (plain "Implement better file categorization")
           (Py.fstr "{uncategorized / total_files * 100:.1f}% of files are uncategorized. Organizing by case/client/type would help."
              [p])
           2.0 "4-6 hours" "medium" None]
    | None => []
    end in
  Py.ret (Py.sorted_reverse String.ltb Rec.priority
            (duplicate_cleanup ++ folder_structure ++ naming_convention
             ++ file_categorization)%list).

(** Assignments to keys of [results]. *)
Definition set_duplicates (x : list DuplicateGroup.t) (r : Results) :=
  mkResults (scan_path r) (total_files r) (total_dirs r) (total_size_bytes r)
    (files_by_type r) (files_by_category r) (size_by_category r)
    (directories r) x (organization_issues r) (file_paths r)
    (depth_analysis r) (naming_patterns r) (recommendations r)
    (scan_complete r) (error r).

Definition set_depth_analysis (x : DepthAnalysis.t) (r : Results) :=
  mkResults (scan_path r) (total_files r) (total_dirs r) (total_size_bytes r)
    (files_by_type r) (files_by_category r) (size_by_category r)
    (directories r) (duplicates r) (organization_issues r) (file_paths r)
    (Some x) (naming_patterns r) (recommendations r)
    (scan_complete r) (error r).

Definition set_naming_patterns (x : NamingPatterns.t) (r : Results) :=
  mkResults (scan_path r) (total_files r) (total_dirs r) (total_size_bytes r)
    (files_by_type r) (files_by_category r) (size_by_category r)
    (directories r) (duplicates r) (organization_issues r) (file_paths r)
    (depth_analysis r) (Some x) (recommendations r)
    (scan_complete r) (error r).

Definition set_organization_issues (x : list Issue.t) (r : Results) :=
  mkResults (scan_path r) (total_files r) (total_dirs r) (total_size_bytes r)
    (files_by_type r) (files_by_category r) (size_by_category r)
    (directories r) (duplicates r) x (file_paths r)
    (depth_analysis r) (naming_patterns r) (recommendations r)
    (scan_complete r) (error r).

Definition set_recommendations (x : list Rec.t) (r : Results) :=
  mkResults (scan_path r) (total_files r) (total_dirs r) (total_size_bytes r)
    (files_by_type r) (files_by_category r) (size_by_category r)
    (directories r) (duplicates r) (organization_issues r) (file_paths r)
    (depth_analysis r) (naming_patterns r) x
    (scan_complete r) (error r).

Definition seal (complete : bool) (e : option Py.exn) (r : Results) :=
  mkResults (scan_path r) (total_files r) (total_dirs r) (total_size_bytes r)
    (files_by_type r) (files_by_category r) (size_by_category r)
    (directories r) (duplicates r) (organization_issues r) (file_paths r)
    (depth_analysis r) (naming_patterns r) (recommendations r)
    (Some complete) e.

Definition on_results (f : Results -> Results) (st : State) : State :=
  mkState (f (results st)) (file_count st) (file_hashes st) (dir_structure st).

Definition initial_results (scan_path : string) : Results :=
  mkResults scan_path 0 0 0%Z [] [] [] [] [] [] [] None None [] None None.

(** Path and size of an entry of ['file_paths']. *)
Definition listed (fi : FileInfo.t) : string * Z :=
  (FileInfo.path fi, FileInfo.size fi).

(** ** The entries of a scan

    The files the walk records, in scan order, each with the path and the
    size it is recorded with: the loops of [scan_files] and [walk] again,
    keeping the files instead of updating the state.  [count] is
    [file_count] on entry. *)
Module Entry.
Record t : Type := mk { path : string; size : Z; file : FileEntry }.
End Entry.

Fixpoint recorded_files (max_files : nat) (root : string)
  (fs : list FileEntry) (count : nat) : list Entry.t :=
  match fs with
  | [] => []
  | f :: rest =>
      if (max_files <=? count)%nat then []
      else if existsb (Py.endswith (filename f)) excluded_extensions
      then recorded_files max_files root rest count
      else
        match st_size f with
        | None => recorded_files max_files root rest count
        | Some file_size =>
            Entry.mk (Py.path_join root (filename f)) file_size f
            :: recorded_files max_files root rest (S count)
        end
  end.

Fixpoint recorded (max_files : nat) (scan_path : string)
  (ws : list WalkEntry) (count : nat) : list Entry.t :=
  match ws with
  | [] => []
  | w :: ws' =>
      let es :=
        recorded_files max_files (root_of scan_path (rel_parts w)) (files w)
          count in
      (es ++ recorded max_files scan_path ws' (count + List.length es))%list
  end.

Section WithHash.

(** [hashlib.md5] over the whole byte stream, as a hex digest. *)
Variable md5 : string -> string.

(** [_get_file_hash] *)
Definition _get_file_hash (f : FileEntry) : option string :=
  option_map md5 (content f).

(** The statements of the inner [try] for a file whose [stat] gave
    [file_size]. *)
Definition record_file (current_dir root : string) (f : FileEntry)
  (file_size : Z) (st : State) : State :=
  let r := results st in
  let filepath := Py.path_join root (filename f) in
  let file_ext := Py.lower (Py.path_suffix filepath) in
  let category := _categorize_file filepath in
  let directories' :=
    match Py.dict_get (directories r) current_dir with
    | Some d =>
        Py.dict_set (directories r) current_dir
          (DirInfo.mk (DirInfo.file_count d)
             (DirInfo.total_size d + file_size) (DirInfo.depth d))
    | None => directories r
    end in
  let r' :=
    mkResults (scan_path r) (S (total_files r)) (total_dirs r)
      (total_size_bytes r + file_size)
      (Py.dict_add Nat.add 0 (files_by_type r) file_ext 1)
      (Py.dict_add Nat.add 0 (files_by_category r) category 1)
      (Py.dict_add Z.add 0%Z (size_by_category r) category file_size)
      directories' (duplicates r) (organization_issues r)
      (file_paths r ++ [FileInfo.mk filepath file_size category file_ext
                          current_dir])%list
      (depth_analysis r) (naming_patterns r) (recommendations r)
      (scan_complete r) (error r) in
  let file_hashes' :=
    if (1024 <? file_size)%Z then
      match _get_file_hash f with
      | Some file_hash =>
          if String.eqb file_hash "" then file_hashes st
          else Py.dict_set (file_hashes st) file_hash
                 (Py.get_default (file_hashes st) file_hash []
                    ++ [(filepath, file_size)])%list
      | None => file_hashes st
      end
    else file_hashes st in
  let dir_structure' :=
    Py.dict_set (dir_structure st) current_dir
      (Py.get_default (dir_structure st) current_dir []
         ++ [DirFile.mk (filename f) file_size category])%list in
  mkState r' (S (file_count st)) file_hashes' dir_structure'.

(** [for filename in files]: stops at the file limit, skips excluded
    extensions and files whose [stat] fails. *)
Fixpoint scan_files (max_files : nat) (current_dir root : string)
  (fs : list FileEntry) (st : State) : State :=
  match fs with
  | [] => st
  | f :: rest =>
      if (max_files <=? file_count st)%nat then st
      else if existsb (Py.endswith (filename f)) excluded_extensions
      then scan_files max_files current_dir root rest st
      else
        match st_size f with
        | None => scan_files max_files current_dir root rest st
        | Some file_size =>
            scan_files max_files current_dir root rest
              (record_file current_dir root f file_size st)
        end
  end.

(** [if files: results['directories'][current_dir] = {...}] *)
Definition register_dir (st : State) (w : WalkEntry) : State :=
  let r := results st in
  match files w with
  | [] => st
  | _ =>
      mkState
        (mkResults (scan_path r) (total_files r) (total_dirs r)
           (total_size_bytes r) (files_by_type r) (files_by_category r)
           (size_by_category r)
           (Py.dict_set (directories r) (current_dir_of (rel_parts w))
              (DirInfo.mk (List.length (files w)) 0
                 (List.length (rel_parts w))))
           (duplicates r) (organization_issues r) (file_paths r)
           (depth_analysis r) (naming_patterns r) (recommendations r)
           (scan_complete r) (error r))
        (file_count st) (file_hashes st) (dir_structure st)
  end.

(** Body of [for root, dirs, files in os.walk(...)]. *)
Definition scan_dir (max_files : nat) (st : State) (w : WalkEntry) : State :=
  scan_files max_files (current_dir_of (rel_parts w))
    (root_of (scan_path (results st)) (rel_parts w)) (files w)
    (register_dir st w).

Definition walk (max_files : nat) (ws : list WalkEntry) (st : State) : State :=
  fold_left (scan_dir max_files) ws st.

(** One bucket of [file_hashes] in the duplicate analysis. *)
Definition duplicate_group (bucket : string * list (string * Z))
  : list DuplicateGroup.t :=
  let '(file_hash, paths) := bucket in
  if (1 <? List.length paths)%nat then
    [DuplicateGroup.mk (substring 0 16 file_hash) (List.length paths)
       (fold_left Z.add (map snd (tl paths)) 0%Z)
       (map fst (firstn 5 paths))]
  else [].

Definition analyze_duplicates (file_hashes : Py.dict (list (string * Z)))
  : list DuplicateGroup.t :=
  flat_map duplicate_group file_hashes.

(** ** [scan_filesystem] *)

(** The statements of the [try] block. *)
Definition try_block (max_files : nat) (ws : list WalkEntry)
  : list (State -> Py.Exc State) :=
  [ (fun st => Py.ret (walk max_files ws st));
    (fun st =>
       Py.ret (on_results (set_duplicates (analyze_duplicates (file_hashes st)))
                 st));
    (fun st =>
       d <- _analyze_depth (dir_structure st) ;;
       Py.ret (on_results (set_depth_analysis d) st));
    (fun st =>
       n <- _analyze_naming_patterns (file_paths (results st)) ;;
       Py.ret (on_results (set_naming_patterns n) st));
    (fun st =>
       Py.ret (on_results
                 (set_organization_issues
                    (_detect_organization_issues (results st))) st));
    (fun st =>
       recs <- _generate_file_recommendations (results st) ;;
       Py.ret (on_results (set_recommendations recs) st));
    (fun st => Py.ret (on_results (seal true None) st)) ].

Definition scan_filesystem (scan_path : string) (max_files : nat)
  (ws : list WalkEntry) : Results :=
  let '(st, raised) :=
    Py.run_steps (try_block max_files ws)
      (mkState (initial_results scan_path) 0 [] []) in
  match raised with
  | None => results st
  | Some e => seal false (Some e) (results st)
  end.

(** The key under which an entry is put into [file_hashes], if it is:
    entries of at most 1024 bytes and entries without a digest are not. *)
Definition fingerprint (e : Entry.t) : option string :=
  if (1024 <? Entry.size e)%Z then
    match _get_file_hash (Entry.file e) with
    | Some file_hash => if String.eqb file_hash "" then None else Some file_hash
    | None => None
    end
  else None.

Definition has_fingerprint (h : string) (e : Entry.t) : bool :=
  match fingerprint e with
  | Some h' => String.eqb h' h
  | None => false
  end.

(** The entries with fingerprint [h], in scan order. *)
Definition members (h : string) (es : list Entry.t) : list Entry.t :=
  filter (has_fingerprint h) es.

(** The fingerprints of the entries that have one, in scan order. *)
Definition fingerprints (es : list Entry.t) : list string :=
  flat_map (fun e => match fingerprint e with Some h => [h] | None => [] end)
    es.

(** What a bucket stores for an entry, and the update of [file_hashes] the
    walk makes for it. *)
Definition stored (e : Entry.t) : string * Z := (Entry.path e, Entry.size e).

Definition add_hash (file_hashes : Py.dict (list (string * Z))) (e : Entry.t)
  : Py.dict (list (string * Z)) :=
  match fingerprint e with
  | Some h =>
      Py.dict_set file_hashes h
        (Py.get_default file_hashes h [] ++ [stored e])%list
  | None => file_hashes
  end.

(** What [file_hashes] holds under [h] once the entries [es] are
    recorded. *)
Definition bucket_of (h : string) (es : list Entry.t)
  : option (list (string * Z)) :=
  match members h es with
  | [] => None
  | ms => Some (map stored ms)
  end.

(** [d] is [file_hashes] after the entries [es]: distinct keys, and under
    each key the members of that fingerprint. *)
Definition buckets_hold (d : Py.dict (list (string * Z)))
  (es : list Entry.t) : Prop :=
  NoDup (Py.keys d) /\ forall h, Py.dict_get d h = bucket_of h es.

(** The group emitted for the fingerprint [h] with members [ms]. *)
Definition group_of (h : string) (ms : list Entry.t) : DuplicateGroup.t :=
  DuplicateGroup.mk (substring 0 16 h) (List.length ms)
    (fold_left Z.add (map Entry.size (tl ms)) 0%Z)
    (map Entry.path (firstn 5 ms)).

(** The part of the result the coordinator reads. *)
Definition report_of (r : Results) : Report.t :=
  Report.mk None
    (match scan_complete r with Some b => b | None => false end)
    (error r)
    (Some (organization_issues r)) (recommendations r).

End WithHash.

End FsAnalyzer.


(* ================================================================== *)
(** * cloud_scanner.py: [CloudScanner] *)
(* ================================================================== *)

(** Line 292 of the file reads ['implementation_time": "1-2 hours',] (the
    quotes of the key and of the value are crossed), which Python rejects
    when it loads the module.  The embedding reads the entry as the key
    ['implementation_time'] with the value ['1-2 hours'], like every other
    recommendation literal of the repository, and models the functions as
    they are written otherwise. *)

Module CloudScanner.

(** The reply of [about().get(fields="user, storageQuota")], with the
    numeric strings already read by [int]. *)
Record StorageQuota : Type := mkStorageQuota {
  limit : option Z;
  usage : option Z;
  usageInDrive : option Z
}.

Record About : Type := mkAbout {
  emailAddress : option string;
  displayName : option string;
  storageQuota : option StorageQuota
}.

Record DriveFile : Type := mkDriveFile {
  id : string;
  name : string;
  mimeType : option string;
  size : option Z;
  shared : option bool
}.

(** The paginated listing: a request raises [HttpError] or returns a page
    of files and, unless it is the last page, a token for the next one. *)
Inductive Listing : Type :=
| HttpError
| LastPage (files : list DriveFile)
| Page (files : list DriveFile) (nextPage : Listing).

(** What the drive service gives one scan; [about = None] stands for any
    exception raised while the service is reached. *)
Record Drive : Type := mkDrive {
  about : option About;
  listing : Listing
}.

Module QuotaInfo.
Record t : Type := mk {
  limit_bytes : Z;
  usage_bytes : Z;
  usage_in_drive_bytes : Z;
  usage_percent : Q
}.
End QuotaInfo.

Module SharedFile.
Record t : Type := mk { name : string; id : string; type : string }.
End SharedFile.

Module FileInfo.
Record t : Type := mk {
  path : string;
  size : Z;
  category : string;
  mime_type : string;
  shared : bool
}.
End FileInfo.

Record Results : Type := mkResults {
  provider : string;
  total_files : nat;
  total_folders : nat;
  total_size_bytes : Z;
  files_by_type : Py.dict nat;
  files_by_category : Py.dict nat;
  folders : Py.dict string;
  shared_files : list SharedFile.t;
  organization_issues : list Issue.t;
  file_paths : list FileInfo.t;
  recommendations : list Rec.t;
  quota_info : option QuotaInfo.t;
  user_email : option string;
  user_name : string;
  scan_complete : option bool;
  error : option Py.exn
}.

Definition opt {A} (o : option A) (default : A) : A :=
  match o with
  | Some a => a
  | None => default
  end.

Definition _categorize_drive_file (file_info : DriveFile) : string :=
  let name := Py.lower (name file_info) in
  let mime_type := opt (mimeType file_info) "" in
  if Py.startswith mime_type "application/vnd.google-apps" then
    if Py.contains "document" mime_type then "google_docs"
    else if Py.contains "spreadsheet" mime_type then "google_sheets"
    else if Py.contains "presentation" mime_type then "google_slides"
    else if Py.contains "form" mime_type then "google_forms"
    else "google_files"
  else if String.eqb mime_type "application/pdf" then
    if Py.contains "contract" name || Py.contains "agreement" name
    then "legal_contracts"
    else if Py.contains "pleading" name || Py.contains "motion" name
    then "legal_pleadings"
    else if Py.contains "discovery" name then "legal_discovery"
    else "documents"
  else if Py.str_in mime_type
            ["application/msword";
             "application/vnd.openxmlformats-officedocument.wordprocessingml.document"]
  then "documents"
  else if Py.str_in mime_type
            ["application/vnd.ms-excel";
             "application/vnd.openxmlformats-officedocument.spreadsheetml.sheet"]
  then
    if Py.contains "billing" name || Py.contains "invoice" name
    then "billing"
    else "spreadsheets"
  else if Py.str_in mime_type
            ["application/vnd.ms-powerpoint";
             "application/vnd.openxmlformats-officedocument.presentationml.presentation"]
  then "presentations"
  else if Py.startswith mime_type "image/" then "images"
  else if Py.str_in mime_type
            ["application/zip"; "application/x-zip-compressed";
             "application/x-rar-compressed"; "application/x-7z-compressed"]
  then "archives"
  else "other".

(** ** [_detect_drive_issues] *)

(** [quota.get('usage_percent', 0)] on [results.get('quota_info', {})] *)
Definition usage_percent_of (r : Results) : Q :=
  match quota_info r with
  | Some q => QuotaInfo.usage_percent q
  | None => 0%Q
  end.

Definition usage_bytes_of (r : Results) : Z :=
  match quota_info r with
  | Some q => QuotaInfo.usage_bytes q
  | None => 0%Z
  end.

Definition limit_bytes_of (r : Results) : Z :=
  match quota_info r with
  | Some q => QuotaInfo.limit_bytes q
  | None => 0%Z
  end.

Definition GiB : Q := inject_Z (1024 ^ 3).

Definition when {A} (cond : bool) (x : A) : list A :=
  if cond then [x] else [].

Definition storage_issue (r : Results) : list Issue.t :=
  let usage_percent := usage_percent_of r in
  when (Py.gt usage_percent 80)
    (Issue.mk "high" "high_storage_usage"
       (Py.fstr "Google Drive is {usage_percent:.1f}% full ({usage_bytes / (1024**3):.1f}GB of {limit_bytes / (1024**3):.1f}GB)"
          [usage_percent; (inject_Z (usage_bytes_of r) / GiB)%Q;
           (inject_Z (limit_bytes_of r) / GiB)%Q])
       "Risk of running out of space, possible need to upgrade plan").

(** The rule on uncategorized files; its description divides by
    [results["total_files"]] itself. *)
Definition uncategorized_issue (r : Results) : Py.Exc (list Issue.t) :=
  let uncategorized := Py.get_default (files_by_category r) "other" 0 in
  q <- Py.truediv (Py.of_nat uncategorized)
         (Py.of_nat (Nat.max (total_files r) 1)) ;;
  if Py.gt q 0.2 then
    q' <- Py.truediv (Py.of_nat uncategorized) (Py.of_nat (total_files r)) ;;
    Py.ret [Issue.mk "medium" "many_uncategorized_files"
              (Py.fstr "{uncategorized} files uncategorized ({uncategorized / total_files * 100:.1f}%)"
                 [Py.of_nat uncategorized; (q' * 100)%Q])
              "Difficult to find files, poor organization"]
  else Py.ret [].

Definition shared_issue (r : Results) : list Issue.t :=
  let n := List.length (shared_files r) in
  when (50 <? n)%nat
    (Issue.mk "medium" "excessive_shared_files"
       (Py.fstr "{len(shared_files)} files are shared externally" [Py.of_nat n])
       "Potential security/privacy concerns").

Definition _detect_drive_issues (r : Results) : Py.Exc (list Issue.t) :=
  let storage := storage_issue r in
  uncategorized <- uncategorized_issue r ;;
  Py.ret (storage ++ uncategorized ++ shared_issue r)%list.

(** ** [_generate_drive_recommendations] *)

Definition plain (s : string) : Py.FString := Py.fstr s [].

Definition _generate_drive_recommendations (r : Results) : list Rec.t :=
  let n_shared := List.length (shared_files r) in
  Py.sorted_reverse String.ltb Rec.priority
    (when (Py.gt (usage_percent_of r) 70)
       (Rec.mk "high" "storage_optimization"
          (plain "Optimize Google Drive storage")
          (Py.fstr "Drive is {usage_percent:.1f}% full. Remove duplicates and unnecessary files."
             [usage_percent_of r])
          0.5 "2-4 hours" "easy" None)
     ++ when (50 <? total_folders r)%nat
       (Rec.mk "medium" "folder_organization"
          (plain "Organize Drive folders")
          (Py.fstr "{total_folders} folders is excessive. Consolidate to 5-10 main folders with subfolders."
             [Py.of_nat (total_folders r)])
          0.5 "2-4 hours" "medium" None)
     ++ when (20 <? n_shared)%nat
       (Rec.mk "low" "security"
          (plain "Review external sharing permissions")
          (Py.fstr "{len(shared_files)} files are shared externally. Review and revoke unnecessary shares."
             [Py.of_nat n_shared])
          0 "1-2 hours" "easy" None)
     ++ when (0 <? Py.get_default (files_by_category r) "other" 0)%nat
       (Rec.mk "low" "naming_convention"
          (plain "Implement file naming conventions")
          (plain "Use consistent naming with dates, case numbers, or client names for easier searching.")
          1.0 "1-2 hours" "easy" None))%list.

(** ** [scan_google_drive] *)

(** The [while file_count < max_files] loop over the pages. *)
Fixpoint list_files (max_files file_count : nat) (l : Listing)
  (all_files : list DriveFile) : list DriveFile :=
  if (file_count <? max_files)%nat then
    match l with
    | HttpError => all_files
    | LastPage files => (all_files ++ files)%list
    | Page files nextPage =>
        list_files max_files (file_count + List.length files) nextPage
          (all_files ++ files)%list
    end
  else all_files.

(** Body of [for file_info in all_files]. *)
Definition analyze_file (r : Results) (file_info : DriveFile) : Results :=
  let mime_type := opt (mimeType file_info) "" in
  if String.eqb mime_type "application/vnd.google-apps.folder" then
    mkResults (provider r) (total_files r) (S (total_folders r))
      (total_size_bytes r) (files_by_type r) (files_by_category r)
      (Py.dict_set (folders r) (id file_info) (name file_info))
      (shared_files r) (organization_issues r) (file_paths r)
      (recommendations r) (quota_info r) (user_email r) (user_name r)
      (scan_complete r) (error r)
  else
    let size := opt (size file_info) 0%Z in
    let category := _categorize_drive_file file_info in
    let is_shared := opt (shared file_info) false in
    mkResults (provider r) (S (total_files r)) (total_folders r)
      (total_size_bytes r + size)
      (Py.dict_add Nat.add 0 (files_by_type r) mime_type 1)
      (Py.dict_add Nat.add 0 (files_by_category r) category 1)
      (folders r)
      (if is_shared
       then (shared_files r
             ++ [SharedFile.mk (name file_info) (id file_info) mime_type])%list
       else shared_files r)
      (organization_issues r)
      (file_paths r
       ++ [FileInfo.mk (name file_info) size category mime_type is_shared])%list
      (recommendations r) (quota_info r) (user_email r) (user_name r)
      (scan_complete r) (error r).

(** The ['quota_info'] literal; the percentage divides by
    [int(quota.get('limit', 1))]. *)
Definition quota_info_of (quota : StorageQuota) : Py.Exc QuotaInfo.t :=
  q <- Py.truediv (inject_Z (opt (usage quota) 0%Z))
         (inject_Z (opt (limit quota) 1%Z)) ;;
  Py.ret (QuotaInfo.mk (opt (limit quota) 0%Z) (opt (usage quota) 0%Z)
            (opt (usageInDrive quota) 0%Z) (q * 100)%Q).

Definition set_user (a : About) (r : Results) : Results :=
  mkResults (provider r) (total_files r) (total_folders r)
    (total_size_bytes r) (files_by_type r) (files_by_category r) (folders r)
    (shared_files r) (organization_issues r) (file_paths r)
    (recommendations r) (quota_info r) (emailAddress a)
    (opt (displayName a) "") (scan_complete r) (error r).

Definition set_quota_info (q : QuotaInfo.t) (r : Results) : Results :=
  mkResults (provider r) (total_files r) (total_folders r)
    (total_size_bytes r) (files_by_type r) (files_by_category r) (folders r)
    (shared_files r) (organization_issues r) (file_paths r)
    (recommendations r) (Some q) (user_email r) (user_name r)
    (scan_complete r) (error r).

Definition set_organization_issues (x : list Issue.t) (r : Results) :=
  mkResults (provider r) (total_files r) (total_folders r)
    (total_size_bytes r) (files_by_type r) (files_by_category r) (folders r)
    (shared_files r) x (file_paths r) (recommendations r) (quota_info r)
    (user_email r) (user_name r) (scan_complete r) (error r).

Definition set_recommendations (x : list Rec.t) (r : Results) :=
  mkResults (provider r) (total_files r) (total_folders r)
    (total_size_bytes r) (files_by_type r) (files_by_category r) (folders r)
    (shared_files r) (organization_issues r) (file_paths r) x (quota_info r)
    (user_email r) (user_name r) (scan_complete r) (error r).

Definition seal (complete : bool) (e : option Py.exn) (r : Results) :=
  mkResults (provider r) (total_files r) (total_folders r)
    (total_size_bytes r) (files_by_type r) (files_by_category r) (folders r)
    (shared_files r) (organization_issues r) (file_paths r)
    (recommendations r) (quota_info r) (user_email r) (user_name r)
    (Some complete) e.

Definition initial_results : Results :=
  mkResults "google_drive" 0 0 0%Z [] [] [] [] [] [] [] None None "" None None.

(** The statements of the [try] block. *)
Definition try_block (max_files : nat) (d : Drive)
  : list (Results -> Py.Exc Results) :=
  [ (fun r =>
       match about d with
       | None => Py.raise Py.ServiceError
       | Some a => Py.ret (set_user a r)
       end);
    (fun r =>
       let quota :=
         opt (match about d with Some a => storageQuota a | None => None end)
           (mkStorageQuota None None None) in
       q <- quota_info_of quota ;;
       Py.ret (set_quota_info q r));
    (fun r =>
       Py.ret (fold_left analyze_file (list_files max_files 0 (listing d) []) r));
    (fun r =>
       issues <- _detect_drive_issues r ;;
       Py.ret (set_organization_issues issues r));
    (fun r => Py.ret (set_recommendations (_generate_drive_recommendations r) r));
    (fun r => Py.ret (seal true None r)) ].

Definition scan_google_drive (max_files : nat) (d : Drive) : Results :=
  let '(r, raised) := Py.run_steps (try_block max_files d) initial_results in
  match raised with
  | None => r
  | Some e => seal false (Some e) r
  end.

(** The part of the result the coordinator reads. *)
Definition report_of (r : Results) : Report.t :=
  Report.mk (Some (provider r))
    (match scan_complete r with Some b => b | None => false end)
    (error r) (Some (organization_issues r)) (recommendations r).

End CloudScanner.


(* ================================================================== *)
(** * analyzer.py: [PracticeAnalyzer._calculate_time_savings] *)
(* ================================================================== *)

Module Analyzer.

Record TimeSavingRecommendation : Type := mkTimeSavingRecommendation {
  area : string;
  current_time_weekly : Q;
  optimized_time_weekly : Q;
  time_savings : Q;
  implementation_time : string;
  estimated_cost : string;
  priority : string;
  description : string;
  specific_actions : list string
}.

(** [diagnostic_questionnaire.categories] *)
Definition categories : Py.dict string :=
  [("intake", "Client Intake & Management");
   ("documents", "Document Drafting & Templates");
   ("case_management", "Case & Deadline Management");
   ("billing", "Billing & Time Tracking");
   ("admin", "Administrative Tasks");
   ("pain_points", "Pain Points & Bottlenecks")].

Record Allocation : Type := mkAllocation {
  weekly : Q;
  allocation_description : string
}.

Definition time_allocations : Py.dict Allocation :=
  [("intake", mkAllocation 8 "hours spent on intake");
   ("documents", mkAllocation 12 "hours on document drafting");
   ("case_management", mkAllocation 6 "hours on case/deadline tracking");
   ("billing", mkAllocation 4 "hours on billing/time tracking");
   ("admin", mkAllocation 10 "hours on administrative tasks")].

Definition _get_specific_actions (category : string) (percentage : Q)
  : list string :=
  Py.get_default
    [("intake",
      ["Implement online intake forms";
       "Create automated conflict checking";
       "Set up client portal for document sharing"]);
     ("documents",
      ["Create document templates for common pleadings";
       "Implement document automation software";
       "Build clause library for frequently used language"]);
     ("case_management",
      ["Implement practice management software";
       "Set up automatic deadline calculations";
       "Create task templates for case phases"]);
     ("billing",
      ["Use time tracking software";
       "Automate invoice generation";
       "Implement online payment processing"]);
     ("admin",
      ["Delegate routine tasks to support staff";
       "Use email templates";
       "Implement scheduling software"])]
    category
    ["Evaluate current processes"; "Research automation options";
     "Implement improvements"].

(** The [if / elif / else] on the score: waste factor and optimization
    factor. *)
Definition factors (percentage : Q) : Q * Q :=
  if Py.lt percentage 40 then (0.7, 0.6)%Q
  else if Py.lt percentage 70 then (0.4, 0.5)%Q
  else (0.15, 0.4)%Q.

Definition waste_factor (percentage : Q) : Q := fst (factors percentage).
Definition optimization_factor (percentage : Q) : Q := snd (factors percentage).

Definition potential_savings (data : Allocation) (percentage : Q) : Q :=
  let current_waste := (weekly data * waste_factor percentage)%Q in
  (current_waste * optimization_factor percentage)%Q.

Definition difficulty_and_cost (percentage : Q) : string * string :=
  if Py.lt percentage 30 then ("Hard", "$500-2000")
  else if Py.lt percentage 50 then ("Medium", "$200-500")
  else ("Easy", "$0-200").

(** [score_results["category_percentages"].get(category, 0)] *)
Definition percentage_of (category_percentages : Py.dict Q) (category : string)
  : Q :=
  Py.get_default category_percentages category 0%Q.

(** Body of [for category, data in time_allocations.items()]. *)
Definition recommend (category_percentages : Py.dict Q)
  (item : string * Allocation) : list TimeSavingRecommendation :=
  let '(category, data) := item in
  let percentage := percentage_of category_percentages category in
  let savings := potential_savings data percentage in
  if Py.gt savings 0.5 then
    [mkTimeSavingRecommendation
       (Py.get_default categories category "")
       (weekly data)
       (weekly data - savings)%Q
       savings
       (fst (difficulty_and_cost percentage))
       (snd (difficulty_and_cost percentage))
       (if Py.gt savings 2 then "High" else "Medium")
       ("Optimize " ++ allocation_description data
        ++ " through automation and better systems")
       (_get_specific_actions category percentage)]
  else [].

Definition _calculate_time_savings (category_percentages : Py.dict Q)
  : list TimeSavingRecommendation :=
  Py.sorted_reverse Py.lt time_savings
    (flat_map (recommend category_percentages) time_allocations).

End Analyzer.


(* ================================================================== *)
(** * Reading a report *)
(* ================================================================== *)

Module ReportSpec.

(** The ['issue'] keys of a list of findings and the ['area'] keys of a
    list of recommendations. *)
Definition issue_kinds (l : list Issue.t) : list string := map Issue.issue l.
Definition rec_areas (l : list Rec.t) : list string := map Rec.area l.

End ReportSpec.


(* ================================================================== *)
(** * system_coordinator.py: what consolidation and the summary read *)
(* ================================================================== *)

Module CoordinatorSpec.
Import Coordinator.

(** The findings the loop of [_consolidate_findings] visits for one module
    slot, in the order it visits them. *)
Definition combined_of (m : option Report.t) : list CombinedIssue.t :=
  match m with
  | Some r =>
      if Report.scan_complete r then map (combine_issue r) (issues_of r)
      else []
  | None => []
  end.

Definition all_combined (ms : list (option Report.t)) : list CombinedIssue.t :=
  flat_map combined_of ms.

(** The four branches of the [if / elif / else] on the severity. *)
Definition is_critical (ci : CombinedIssue.t) : bool :=
  String.eqb (CombinedIssue.severity ci) "critical".

Definition is_high (ci : CombinedIssue.t) : bool :=
  String.eqb (CombinedIssue.severity ci) "high".

Definition is_medium (ci : CombinedIssue.t) : bool :=
  String.eqb (CombinedIssue.severity ci) "medium".

Definition is_low (ci : CombinedIssue.t) : bool :=
  negb (is_critical ci || is_high ci || is_medium ci).

Definition present (m : option Report.t) : bool :=
  match m with
  | Some _ => true
  | None => false
  end.

(** [get_summary]: the condition under which the status line reads
    Complete, [all(m and m.get('scan_complete') for m in [...] if m)]. *)
Definition status_complete (s : ScanResults) : bool :=
  forallb usable (filter present (modules s)).

End CoordinatorSpec.


(* ================================================================== *)
(** * fs_analyzer.py: what the counters of a scan count *)
(* ================================================================== *)

Module FsSpec.
Import FsAnalyzer.



(** [distribution[depth]] read back, 0 for a depth without entry. *)
Fixpoint counter_get (d : list (nat * nat)) (k : nat) : nat :=
  match d with
  | [] => 0
  | (k', v) :: d' => if Nat.eqb k k' then v else counter_get d' k
  end.

Definition in_category (c : string) (fi : FileInfo.t) : bool :=
  String.eqb (FileInfo.category fi) c.

Definition total_size (fis : list FileInfo.t) : Z :=
  fold_left Z.add (map FileInfo.size fis) 0%Z.


(** The labels [_categorize_file] can return. *)
Definition category_labels : list string :=
  ["legal_contracts"; "legal_pleadings"; "legal_discovery";
   "legal_correspondence"; "documents"; "images"; "billing"; "spreadsheets";
   "presentations"; "archives"; "executables"; "code"; "other"].

(** No counter of the naming analysis exceeds [n]. *)
Definition counts_below (c : Counts.t) (n : nat) : Prop :=
  Counts.date_in_name c <= n /\ Counts.client_name_in_name c <= n
  /\ Counts.case_number_in_name c <= n /\ Counts.spaces_in_name c <= n
  /\ Counts.special_chars_in_name c <= n
  /\ Counts.descriptive_names c + Counts.generic_names c <= n.

(** A number between 0 and 100. *)
Definition percentage (q : Q) : Prop := (0 <= q)%Q /\ (q <= 100)%Q.

End FsSpec.


(* ================================================================== *)
(** * cloud_scanner.py: what a drive scan reads and counts *)
(* ================================================================== *)

Module CloudSpec.
Import CloudScanner.

(** [about.get('storageQuota', {})] *)
Definition quota_of (a : About) : StorageQuota :=
  opt (storageQuota a) (mkStorageQuota None None None).


(** The items the listing loop collects. *)
Definition listed (max_files : nat) (d : Drive) : list DriveFile :=
  list_files max_files 0 (listing d) [].

Definition is_folder (x : DriveFile) : bool :=
  String.eqb (opt (mimeType x) "") "application/vnd.google-apps.folder".

Definition is_file (x : DriveFile) : bool := negb (is_folder x).

(** The entry of ['file_paths'] and of ['shared_files'] for one item. *)
Definition file_info_of (x : DriveFile) : FileInfo.t :=
  FileInfo.mk (name x) (opt (size x) 0%Z) (_categorize_drive_file x)
    (opt (mimeType x) "") (opt (shared x) false).

Definition shared_file_of (x : DriveFile) : SharedFile.t :=
  SharedFile.mk (name x) (id x) (opt (mimeType x) "").

Definition is_shared (x : DriveFile) : bool := opt (shared x) false.

Definition total_size (fis : list FileInfo.t) : Z :=
  fold_left Z.add (map FileInfo.size fis) 0%Z.

Definition in_category (c : string) (fi : FileInfo.t) : bool :=
  String.eqb (FileInfo.category fi) c.

Definition of_type (t : string) (fi : FileInfo.t) : bool :=
  String.eqb (FileInfo.mime_type fi) t.

(** Every page holds at most the [pageSize] its request asks for,
    [min(1000, max_files - file_count)]. *)
Fixpoint honours_page_size (max_files file_count : nat) (l : Listing)
  : Prop :=
  match l with
  | HttpError => True
  | LastPage files =>
      List.length files <= Nat.min 1000 (max_files - file_count)
  | Page files nextPage =>
      List.length files <= Nat.min 1000 (max_files - file_count)
      /\ honours_page_size max_files (file_count + List.length files)
           nextPage
  end.


(** The labels [_categorize_drive_file] can return. *)
Definition category_labels : list string :=
  ["google_docs"; "google_sheets"; "google_slides"; "google_forms";
   "google_files"; "legal_contracts"; "legal_pleadings"; "legal_discovery";
   "documents"; "billing"; "spreadsheets"; "presentations"; "images";
   "archives"; "other"].

End CloudSpec.



(* ================================================================== *)
(** * diagnostic_questions.py: [DiagnosticQuestionnaire] *)
(* ================================================================== *)

Module Questionnaire.

Module QuestionOption.
Record t : Type := mk {
  id : string;
  text : string;
  value : Z;
  custom_input : bool
}.
End QuestionOption.

Module DiagnosticQuestion.
Record t : Type := mk {
  id : string;
  category : string;
  question_text : string;
  options : list QuestionOption.t
}.
End DiagnosticQuestion.

(** The exceptions of this module: [get_question_by_id] raises
    [ValueError], [next] on an exhausted generator [StopIteration], a
    subscript on a missing key [KeyError]. *)
Inductive exn : Type :=
| ValueError
| StopIteration
| KeyError
| ZeroDivisionError.

Definition Exc (A : Type) : Type := (exn + A)%type.

Definition ret {A} (a : A) : Exc A := inr a.
Definition raise {A} (e : exn) : Exc A := inl e.
Definition bind {A B} (c : Exc A) (k : A -> Exc B) : Exc B :=
  match c with
  | inl e => inl e
  | inr a => k a
  end.

(** [d[k]] and [d[k] += n] on a plain [dict]. *)
Definition getitem {V} (d : Py.dict V) (k : string) : Exc V :=
  match Py.dict_get d k with
  | Some v => ret v
  | None => raise KeyError
  end.

Definition iadd (d : Py.dict Z) (k : string) (n : Z) : Exc (Py.dict Z) :=
  bind (getitem d k) (fun v => ret (Py.dict_set d k (v + n)%Z)).

(** [a / b] on integers. *)
Definition truediv (a b : Z) : Exc Q :=
  match Py.truediv (inject_Z a) (inject_Z b) with
  | inl _ => raise ZeroDivisionError
  | inr q => ret q
  end.

(** [a >= b] on numbers. *)
Definition ge (a b : Q) : bool := Qle_bool b a.

(** [_load_questions] *)
Definition questions : list DiagnosticQuestion.t :=
  [
    DiagnosticQuestion.mk "intake_1" "intake"
      "How do you currently handle new client inquiries and intake?"
      [
       QuestionOption.mk "intake_1_a"
         "I respond to emails/calls individually and manually track everything in a notebook or basic spreadsheet"
         1 false;
       QuestionOption.mk "intake_1_b"
         "I have some templates but still do most intake manually with email and calendar"
         2 false;
       QuestionOption.mk "intake_1_c"
         "I use a practice management system with automated intake forms and conflict checking"
         4 false;
       QuestionOption.mk "intake_1_d"
         ""
         3 true ];
    DiagnosticQuestion.mk "intake_2" "intake"
      "What happens when a potential conflict of interest needs to be checked?"
      [
       QuestionOption.mk "intake_2_a"
         "I manually search through files, emails, and my memory"
         1 false;
       QuestionOption.mk "intake_2_b"
         "I have a basic list but it's not comprehensive"
         2 false;
       QuestionOption.mk "intake_2_c"
         "I use software that automatically checks conflicts across all matters"
         4 false;
       QuestionOption.mk "intake_2_d"
         ""
         3 true ];
    DiagnosticQuestion.mk "intake_3" "intake"
      "How do you track communications with clients (emails, calls, meetings)?"
      [
       QuestionOption.mk "intake_3_a"
         "I rely on memory and occasionally write notes"
         1 false;
       QuestionOption.mk "intake_3_b"
         "I manually log important communications in a Word doc or spreadsheet"
         2 false;
       QuestionOption.mk "intake_3_c"
         "All communications are automatically logged and linked to case files"
         4 false;
       QuestionOption.mk "intake_3_d"
         ""
         3 true ];
    DiagnosticQuestion.mk "intake_4" "intake"
      "How many hours per week do you spend on the phone with clients answering basic questions about their case status?"
      [
       QuestionOption.mk "intake_4_a"
         "Less than 1 hour"
         4 false;
       QuestionOption.mk "intake_4_b"
         "1-3 hours"
         3 false;
       QuestionOption.mk "intake_4_c"
         "3-5 hours"
         2 false;
       QuestionOption.mk "intake_4_d"
         "More than 5 hours"
         1 false ];
    DiagnosticQuestion.mk "docs_1" "documents"
      "How do you currently draft routine legal documents (motions, pleadings, discovery requests)?"
      [
       QuestionOption.mk "docs_1_a"
         "I start from scratch or copy-paste from old documents each time"
         1 false;
       QuestionOption.mk "docs_1_b"
         "I have some templates but customize them heavily each time"
         2 false;
       QuestionOption.mk "docs_1_c"
         "I use document automation software with smart templates that auto-fill case details"
         4 false;
       QuestionOption.mk "docs_1_d"
         ""
         3 true ];
    DiagnosticQuestion.mk "docs_2" "documents"
      "When you need to find a specific clause or language you've used before, how do you locate it?"
      [
       QuestionOption.mk "docs_2_a"
         "I search through old documents manually or try to remember which case it was in"
         1 false;
       QuestionOption.mk "docs_2_b"
         "I have some favorite documents I keep referring back to"
         2 false;
       QuestionOption.mk "docs_2_c"
         "I use a clause library or document management system with full-text search"
         4 false;
       QuestionOption.mk "docs_2_d"
         ""
         3 true ];
    DiagnosticQuestion.mk "docs_3" "documents"
      "How much time do you spend formatting documents to meet court requirements?"
      [
       QuestionOption.mk "docs_3_a"
         "I manually format each document and check court rules frequently"
         1 false;
       QuestionOption.mk "docs_3_b"
         "I have some basic templates but still spend time on formatting"
         2 false;
       QuestionOption.mk "docs_3_c"
         "Templates automatically apply correct formatting and court rules"
         4 false;
       QuestionOption.mk "docs_3_d"
         ""
         3 true ];
    DiagnosticQuestion.mk "docs_4" "documents"
      "How do you handle document assembly for cases with multiple similar pleadings (e.g., multiple defendants)?"
      [
       QuestionOption.mk "docs_4_a"
         "I manually customize each document individually"
         1 false;
       QuestionOption.mk "docs_4_b"
         "I use find-and-replace across documents"
         2 false;
       QuestionOption.mk "docs_4_c"
         "I use document automation that auto-generates variations"
         4 false;
       QuestionOption.mk "docs_4_d"
         ""
         3 true ];
    DiagnosticQuestion.mk "case_1" "case_management"
      "How do you track court deadlines, filing dates, and statute of limitations?"
      [
       QuestionOption.mk "case_1_a"
         "I use a paper calendar and manually calculate deadlines"
         1 false;
       QuestionOption.mk "case_1_b"
         "I use Outlook/Google Calendar with manual entries"
         2 false;
       QuestionOption.mk "case_1_c"
         "I use practice management software with automatic deadline calculation and alerts"
         4 false;
       QuestionOption.mk "case_1_d"
         ""
         3 true ];
    DiagnosticQuestion.mk "case_2" "case_management"
      "What happens when a court date gets continued or changed?"
      [
       QuestionOption.mk "case_2_a"
         "I manually update my calendar and try to remember to notify everyone"
         1 false;
       QuestionOption.mk "case_2_b"
         "I update my calendar but sometimes forget to notify all parties"
         2 false;
       QuestionOption.mk "case_2_c"
         "My system automatically updates and notifies relevant parties"
         4 false;
       QuestionOption.mk "case_2_d"
         ""
         3 true ];
    DiagnosticQuestion.mk "case_3" "case_management"
      "How do you track tasks and to-dos across all your active cases?"
      [
       QuestionOption.mk "case_3_a"
         "I keep separate lists or rely on memory"
         1 false;
       QuestionOption.mk "case_3_b"
         "I have a master to-do list but it's not linked to specific cases"
         2 false;
       QuestionOption.mk "case_3_c"
         "All tasks are tracked in a case management system with automatic reminders"
         4 false;
       QuestionOption.mk "case_3_d"
         ""
         3 true ];
    DiagnosticQuestion.mk "case_4" "case_management"
      "When you need to find a specific document or piece of information for a case, how quickly can you locate it?"
      [
       QuestionOption.mk "case_4_a"
         "It often takes 15+ minutes of searching through emails, files, and notes"
         1 false;
       QuestionOption.mk "case_4_b"
         "Usually 5-10 minutes - I have some organization but it's inconsistent"
         2 false;
       QuestionOption.mk "case_4_c"
         "I can find almost anything in under 2 minutes with my case management system"
         4 false;
       QuestionOption.mk "case_4_d"
         ""
         3 true ];
    DiagnosticQuestion.mk "billing_1" "billing"
      "How do you track billable time?"
      [
       QuestionOption.mk "billing_1_a"
         "I try to reconstruct it at the end of the day or week from memory"
         1 false;
       QuestionOption.mk "billing_1_b"
         "I manually log time in a spreadsheet throughout the day"
         2 false;
       QuestionOption.mk "billing_1_c"
         "I use time-tracking software that integrates with my billing system"
         4 false;
       QuestionOption.mk "billing_1_d"
         ""
         3 true ];
    DiagnosticQuestion.mk "billing_2" "billing"
      "How long does it take you to prepare and send invoices each month?"
      [
       QuestionOption.mk "billing_2_a"
         "Less than 1 hour"
         4 false;
       QuestionOption.mk "billing_2_b"
         "1-2 hours"
         3 false;
       QuestionOption.mk "billing_2_c"
         "2-5 hours"
         2 false;
       QuestionOption.mk "billing_2_d"
         "More than 5 hours"
         1 false ];
    DiagnosticQuestion.mk "billing_3" "billing"
      "How often do you miss billable time because you forget to record it?"
      [
       QuestionOption.mk "billing_3_a"
         "Frequently - I probably lose several hours per week"
         1 false;
       QuestionOption.mk "billing_3_b"
         "Sometimes - maybe 1-2 hours per week"
         2 false;
       QuestionOption.mk "billing_3_c"
         "Rarely - I track almost everything"
         4 false;
       QuestionOption.mk "billing_3_d"
         ""
         3 true ];
    DiagnosticQuestion.mk "admin_1" "admin"
      "How much time do you spend on administrative tasks (scheduling, emails, filing, etc.) each week?"
      [
       QuestionOption.mk "admin_1_a"
         "Less than 5 hours"
         4 false;
       QuestionOption.mk "admin_1_b"
         "5-10 hours"
         3 false;
       QuestionOption.mk "admin_1_c"
         "10-15 hours"
         2 false;
       QuestionOption.mk "admin_1_d"
         "More than 15 hours"
         1 false ];
    DiagnosticQuestion.mk "admin_2" "admin"
      "Do you have support staff (paralegal, assistant) to help with administrative work?"
      [
       QuestionOption.mk "admin_2_a"
         "No, I handle everything myself"
         1 false;
       QuestionOption.mk "admin_2_b"
         "Yes, but they're overloaded and I still do a lot myself"
         2 false;
       QuestionOption.mk "admin_2_c"
         "Yes, and we have efficient systems for delegation"
         4 false;
       QuestionOption.mk "admin_2_d"
         ""
         3 true ];
    DiagnosticQuestion.mk "admin_3" "admin"
      "How much time do you spend after hours or on weekends catching up on work?"
      [
       QuestionOption.mk "admin_3_a"
         "Rarely - I mostly work during business hours"
         4 false;
       QuestionOption.mk "admin_3_b"
         "1-3 hours per week"
         3 false;
       QuestionOption.mk "admin_3_c"
         "3-7 hours per week"
         2 false;
       QuestionOption.mk "admin_3_d"
         "More than 7 hours per week"
         1 false ];
    DiagnosticQuestion.mk "pain_1" "pain_points"
      "What is your biggest frustration or time-waster in your practice?"
      [
       QuestionOption.mk "pain_1_a"
         "Constant interruptions from clients asking for status updates"
         1 false;
       QuestionOption.mk "pain_1_b"
         "Spending too much time on administrative tasks instead of billable work"
         2 false;
       QuestionOption.mk "pain_1_c"
         "Document drafting and customization takes forever"
         3 false;
       QuestionOption.mk "pain_1_d"
         ""
         4 true ];
    DiagnosticQuestion.mk "pain_2" "pain_points"
      "How often do you miss deadlines or have close calls?"
      [
       QuestionOption.mk "pain_2_a"
         "Never - I have a reliable system"
         4 false;
       QuestionOption.mk "pain_2_b"
         "Rarely - maybe once or twice per year"
         3 false;
       QuestionOption.mk "pain_2_c"
         "Occasionally - a few times per year"
         2 false;
       QuestionOption.mk "pain_2_d"
         "More often than I'd like to admit"
         1 false ];
    DiagnosticQuestion.mk "pain_3" "pain_points"
      "What would you do with an extra 5-10 hours per week?"
      [
       QuestionOption.mk "pain_3_a"
         "Take on more cases/clients to grow my practice"
         1 false;
       QuestionOption.mk "pain_3_b"
         "Focus on higher-value work and case strategy"
         2 false;
       QuestionOption.mk "pain_3_c"
         "Improve work-life balance and reduce stress"
         3 false;
       QuestionOption.mk "pain_3_d"
         ""
         4 true ];
    DiagnosticQuestion.mk "pain_4" "pain_points"
      "If you could automate one task in your practice, what would it be?"
      [
       QuestionOption.mk "pain_4_a"
         "Client intake and initial document gathering"
         1 false;
       QuestionOption.mk "pain_4_b"
         "Document drafting and assembly"
         2 false;
       QuestionOption.mk "pain_4_c"
         "Billing and time tracking"
         3 false;
       QuestionOption.mk "pain_4_d"
         ""
         4 true ]
  ].

(** [self.categories] *)
Definition categories : Py.dict string := Analyzer.categories.

Definition get_all_questions : list DiagnosticQuestion.t := questions.

Definition get_questions_by_category (category : string)
  : list DiagnosticQuestion.t :=
  filter (fun q => String.eqb (DiagnosticQuestion.category q) category)
    questions.

Definition get_question_by_id (question_id : string)
  : Exc DiagnosticQuestion.t :=
  match find (fun question =>
                String.eqb (DiagnosticQuestion.id question) question_id)
          questions with
  | Some question => ret question
  | None => raise ValueError
  end.

(** [next(opt for opt in question.options if opt.id == option_id)] *)
Definition next_option (question : DiagnosticQuestion.t) (option_id : string)
  : Exc QuestionOption.t :=
  match find (fun opt => String.eqb (QuestionOption.id opt) option_id)
          (DiagnosticQuestion.options question) with
  | Some opt => ret opt
  | None => raise StopIteration
  end.

(** The four accumulators of [calculate_score]. *)
Record Tally : Type := mkTally {
  scores : Py.dict Z;
  counts : Py.dict Z;
  total : Z;
  possible : Z
}.

(** [{cat: 0 for cat in self.categories.keys()}] *)
Definition zeros : Py.dict Z := map (fun cat => (cat, 0%Z)) (Py.keys categories).

Definition initial_tally : Tally := mkTally zeros zeros 0 0.

(** The statements of the [try] block for one response.  The two lookups
    come first, so an exception the [except] clause catches leaves the
    accumulators untouched. *)
Definition try_body (t : Tally) (question_id option_id : string)
  : Exc Tally :=
  bind (get_question_by_id question_id) (fun question =>
  bind (next_option question option_id) (fun selected_option =>
  bind (iadd (scores t) (DiagnosticQuestion.category question)
          (QuestionOption.value selected_option)) (fun scores' =>
  bind (iadd (counts t) (DiagnosticQuestion.category question) 1)
    (fun counts' =>
  ret (mkTally scores' counts'
         (total t + QuestionOption.value selected_option)%Z
         (possible t + 4)%Z))))).

(** [except (ValueError, StopIteration): continue] *)
Definition tally_response (t : Tally) (item : string * string) : Exc Tally :=
  match try_body t (fst item) (snd item) with
  | inl ValueError => ret t
  | inl StopIteration => ret t
  | inl e => raise e
  | inr t' => ret t'
  end.

Fixpoint tally_responses (items : list (string * string)) (t : Tally)
  : Exc Tally :=
  match items with
  | [] => ret t
  | item :: items' =>
      bind (tally_response t item) (tally_responses items')
  end.

(** Body of the loop that fills [category_percentages]. *)
Definition percentage_step (t : Tally) (pcts : Py.dict Q) (cat : string)
  : Exc (Py.dict Q) :=
  bind (getitem (counts t) cat) (fun count =>
  if (0 <? count)%Z then
    bind (getitem (scores t) cat) (fun score =>
    bind (getitem (counts t) cat) (fun count' =>
    bind (truediv score (count' * 4)) (fun q =>
    ret (Py.dict_set pcts cat (q * 100)%Q))))
  else ret (Py.dict_set pcts cat 0%Q)).

Fixpoint percentages (t : Tally) (cats : list string) (pcts : Py.dict Q)
  : Exc (Py.dict Q) :=
  match cats with
  | [] => ret pcts
  | cat :: cats' =>
      bind (percentage_step t pcts cat) (percentages t cats')
  end.

(** [(total_score / max_possible * 100) if max_possible > 0 else 0] *)
Definition overall (t : Tally) : Exc Q :=
  if (0 <? possible t)%Z then
    bind (truediv (total t) (possible t)) (fun q => ret (q * 100)%Q)
  else ret 0%Q.

Record ScoreResults : Type := mkScoreResults {
  category_scores : Py.dict Z;
  category_counts : Py.dict Z;
  category_percentages : Py.dict Q;
  total_score : Z;
  max_possible : Z;
  overall_percentage : Q
}.

Definition calculate_score (responses : Py.dict string) : Exc ScoreResults :=
  bind (tally_responses responses initial_tally) (fun t =>
  bind (percentages t (Py.keys categories) []) (fun category_percentages =>
  bind (overall t) (fun overall_percentage =>
  ret (mkScoreResults (scores t) (counts t) category_percentages
         (total t) (possible t) overall_percentage)))).

Definition get_optimization_grade (percentage : Q) : string :=
  if ge percentage 85 then "A - Highly Optimized"
  else if ge percentage 70 then "B - Well Organized"
  else if ge percentage 55 then "C - Needs Improvement"
  else if ge percentage 40 then "D - Inefficient"
  else "F - Critical Issues".

End Questionnaire.


(* ================================================================== *)
(** * analyzer.py: the rest of [PracticeAnalyzer] *)
(* ================================================================== *)

Module PracticeAnalyzer.
Import Questionnaire.

Module LowScoring.
Record t : Type := mk { question : string; issue : string }.
End LowScoring.

Module CategoryAnalysis.
Record t : Type := mk {
  severity : string;
  priority : string;
  percentage : Q;
  question_count : Z;
  low_scoring_areas : list LowScoring.t
}.
End CategoryAnalysis.

Definition _identify_issue (question : DiagnosticQuestion.t) : string :=
  Py.get_default
    [("intake", "Inefficient client intake process");
     ("documents", "Manual document creation");
     ("case_management", "Poor deadline/case tracking");
     ("billing", "Inefficient billing practices");
     ("admin", "Excessive administrative burden");
     ("pain_points", "Identified workflow bottleneck")]
    (DiagnosticQuestion.category question)
    "Workflow inefficiency".

(** The [if / elif / else] on the percentage: severity and priority. *)
Definition severity_and_priority (percentage : Q) : string * string :=
  if ge percentage 70 then ("Good", "Low")
  else if ge percentage 50 then ("Needs Improvement", "Medium")
  else ("Critical", "High").

(** Body of [for question in questions_in_cat]. *)
Definition low_scoring_of (responses : Py.dict string)
  (question : DiagnosticQuestion.t) : list LowScoring.t :=
  match Py.dict_get responses (DiagnosticQuestion.id question) with
  | None => []
  | Some option_id =>
      match next_option question option_id with
      | inr option =>
          if (QuestionOption.value option <=? 2)%Z
          then [LowScoring.mk (DiagnosticQuestion.question_text question)
                  (_identify_issue question)]
          else []
      | inl _ => []
      end
  end.

(** Body of [for category in self.questionnaire.categories.keys()]. *)
Definition analyze_category (responses : Py.dict string)
  (score_results : ScoreResults)
  (category_analysis : Py.dict CategoryAnalysis.t) (category : string)
  : Exc (Py.dict CategoryAnalysis.t) :=
  bind (getitem (category_percentages score_results) category)
    (fun percentage =>
  bind (getitem (category_counts score_results) category) (fun count =>
  if (count =? 0)%Z then ret category_analysis
  else
    ret (Py.dict_set category_analysis category
           (CategoryAnalysis.mk
              (fst (severity_and_priority percentage))
              (snd (severity_and_priority percentage))
              percentage count
              (flat_map (low_scoring_of responses)
                 (get_questions_by_category category)))))).

Fixpoint analyze_categories (responses : Py.dict string)
  (score_results : ScoreResults) (cats : list string)
  (category_analysis : Py.dict CategoryAnalysis.t)
  : Exc (Py.dict CategoryAnalysis.t) :=
  match cats with
  | [] => ret category_analysis
  | category :: cats' =>
      bind (analyze_category responses score_results category_analysis
              category)
        (analyze_categories responses score_results cats')
  end.

Definition _analyze_categories (responses : Py.dict string)
  (score_results : ScoreResults) : Exc (Py.dict CategoryAnalysis.t) :=
  analyze_categories responses score_results (Py.keys categories) [].

Record Recommendations : Type := mkRecommendations {
  quick_wins : list Analyzer.TimeSavingRecommendation;
  short_term : list Analyzer.TimeSavingRecommendation;
  long_term : list Analyzer.TimeSavingRecommendation;
  total_weekly_savings : Q
}.

(** [[r for r in time_savings if r.implementation_time == label]] *)
Definition with_implementation_time (label : string)
  (time_savings : list Analyzer.TimeSavingRecommendation)
  : list Analyzer.TimeSavingRecommendation :=
  filter (fun r => String.eqb (Analyzer.implementation_time r) label)
    time_savings.

Definition _generate_recommendations (responses : Py.dict string)
  (time_savings : list Analyzer.TimeSavingRecommendation)
  : Recommendations :=
  match time_savings with
  | [] => mkRecommendations [] [] [] 0
  | _ :: _ =>
      mkRecommendations
        (firstn 3 (with_implementation_time "Easy" time_savings))
        (firstn 3 (with_implementation_time "Medium" time_savings))
        (firstn 2 (with_implementation_time "Hard" time_savings))
        (Py.sum (map Analyzer.time_savings time_savings))
  end.

Record Benchmark : Type := mkBenchmark {
  relative_performance : string;
  benchmark_avg : Q;
  your_score : Q;
  comparison : string
}.

Definition _compare_to_benchmarks (score_results : ScoreResults)
  : Benchmark :=
  let overall_score := overall_percentage score_results in
  mkBenchmark
    (if ge overall_score 75 then "Excellent"
     else if ge overall_score 60 then "Good"
     else if ge overall_score 45 then "Average"
     else "Below Average")
    45 overall_score
    "Compared to similar practices (solo litigation, minimal tech use)".

Record Analysis : Type := mkAnalysis {
  score_results : ScoreResults;
  category_analysis : Py.dict CategoryAnalysis.t;
  time_savings : list Analyzer.TimeSavingRecommendation;
  recommendations : Recommendations;
  benchmark : Benchmark;
  analysis_timestamp : string
}.

(** [now] is the value of [datetime.now().isoformat()]. *)
Definition analyze_responses_detailed (now : string)
  (responses : Py.dict string) : Exc Analysis :=
  bind (calculate_score responses) (fun score_results =>
  bind (_analyze_categories responses score_results)
    (fun category_analysis =>
  let time_savings :=
    Analyzer._calculate_time_savings (category_percentages score_results) in
  let recommendations := _generate_recommendations responses time_savings in
  let benchmark := _compare_to_benchmarks score_results in
  ret (mkAnalysis score_results category_analysis time_savings
         recommendations benchmark now))).

End PracticeAnalyzer.


(* ================================================================== *)
(** * diagnostic_questions.py and analyzer.py: what the scores count *)
(* ================================================================== *)

Module QuestionnaireSpec.
Import Questionnaire.

(** The question and the option a response selects, when both exist. *)
Definition answer (item : string * string)
  : list (DiagnosticQuestion.t * QuestionOption.t) :=
  match get_question_by_id (fst item) with
  | inr question =>
      match next_option question (snd item) with
      | inr opt => [(question, opt)]
      | inl _ => []
      end
  | inl _ => []
  end.

(** The valid responses: those that select an option of a question. *)
Definition answers (responses : Py.dict string)
  : list (DiagnosticQuestion.t * QuestionOption.t) :=
  flat_map answer responses.

Definition in_category (c : string)
  (a : DiagnosticQuestion.t * QuestionOption.t) : bool :=
  String.eqb (DiagnosticQuestion.category (fst a)) c.

Definition points (l : list (DiagnosticQuestion.t * QuestionOption.t)) : Z :=
  fold_right Z.add 0%Z (map (fun a => QuestionOption.value (snd a)) l).

Definition number (l : list (DiagnosticQuestion.t * QuestionOption.t)) : Z :=
  Z.of_nat (List.length l).

(** The percentage of [score] points out of [count] answers worth at most
    4 points each, 0 without answers. *)
Definition ratio (score count : Z) : Q :=
  if (0 <? count)%Z
  then (inject_Z score / inject_Z (count * 4) * 100)%Q
  else 0%Q.

(** Both accumulator dictionaries have the keys of [categories]. *)
Definition covers (t : Tally) : Prop :=
  Py.keys (scores t) = Py.keys categories
  /\ Py.keys (counts t) = Py.keys categories.

(** 0, or a number between 25 and 100. *)
Definition score_range (q : Q) : Prop :=
  (q == 0)%Q \/ ((25 <= q)%Q /\ (q <= 100)%Q).

End QuestionnaireSpec.


(* ================================================================== *)
(** * analyzer.py: reading the time savings *)
(* ================================================================== *)

Module AnalyzerSpec.
Import Analyzer.

(** [a] saves no less than [b]. *)
Definition saves_no_less (a b : TimeSavingRecommendation) : Prop :=
  (time_savings b <= time_savings a)%Q.


(** The three pairs of implementation difficulty and cost. *)
Definition effort_levels : list (string * string) :=
  [("Hard", "$500-2000"); ("Medium", "$200-500"); ("Easy", "$0-200")].

End AnalyzerSpec.


(* ================================================================== *)
(** * email_scanner.py: [EmailScanner], the Gmail scan *)
(* ================================================================== *)

Module EmailScanner.

(** ** String operations of the sender parsing *)

(** The text after the first [sep] of [s], when [sep] occurs. *)
Fixpoint after_first (sep : ascii) (s : string) : option string :=
  match s with
  | EmptyString => None
  | String c s' => if Ascii.eqb c sep then Some s' else after_first sep s'
  end.

(** The text before the first [sep] of [s], all of [s] without [sep]. *)
Fixpoint before_first (sep : ascii) (s : string) : string :=
  match s with
  | EmptyString => EmptyString
  | String c s' =>
      if Ascii.eqb c sep then EmptyString
      else String c (before_first sep s')
  end.

Fixpoint lstrip (c : ascii) (s : string) : string :=
  match s with
  | EmptyString => EmptyString
  | String c' s' => if Ascii.eqb c' c then lstrip c s' else s
  end.

Fixpoint rstrip (c : ascii) (s : string) : string :=
  match s with
  | EmptyString => EmptyString
  | String c' s' =>
      match rstrip c s' with
      | EmptyString =>
          if Ascii.eqb c' c then EmptyString else String c' EmptyString
      | rest => String c' rest
      end
  end.

(** [s.strip(c)] for a one-character [c]. *)
Definition strip (c : ascii) (s : string) : string := rstrip c (lstrip c s).

(** ** What the Gmail service replies *)

Module Profile.
Record t : Type := mk {
  emailAddress : option string;
  messagesTotal : option Z
}.
End Profile.

Module LabelInfo.
Record t : Type := mk {
  messagesTotal : option Z;
  threadsTotal : option Z
}.
End LabelInfo.

(** An entry of the label list; [info = None] when the request for the
    label's details raises. *)
Module Label.
Record t : Type := mk {
  id : string;
  name : string;
  info : option LabelInfo.t
}.
End Label.

(** The headers of a message as (name, value) pairs, [None] when the
    request for the message raises. *)
Definition Message : Type := option (list (string * string)).

(** A conversation: for each of its messages the time of its [Date]
    header in hours, [None] for a message without a date that parses;
    [None] for the thread when the request for it raises. *)
Definition Thread : Type := option (list (option Q)).

(** The replies one scan gets; [None] stands for a request that raises. *)
Record Gmail : Type := mkGmail {
  profile : option Profile.t;
  labels : option (list Label.t);
  messages : option (list Message);
  threads : option (list Thread)
}.

(** ** The result dictionaries *)

Module Folder.
Record t : Type := mk {
  id : string;
  message_count : Z;
  threads_count : Z
}.
End Folder.

Module Candidate.
Record t : Type := mk {
  subject : string;
  count : nat;
  confidence : string
}.
End Candidate.

Module Workflow.
Record t : Type := mk {
  type : string;
  volume : nat;
  percentage : Q
}.
End Workflow.

(** [patterns]; the key ['follow_up_patterns'] is never written and is
    left out. *)
Record Patterns : Type := mkPatterns {
  total_analyzed : nat;
  common_senders : Py.dict nat;
  common_subjects : Py.dict nat;
  email_categories : Py.dict nat;
  template_candidates : list Candidate.t;
  workflows : list Workflow.t
}.

(** [response_analysis]; the keys ['slow_responses'] and
    ['unanswered_count'] are never written and are left out. *)
Record ResponseAnalysis : Type := mkResponseAnalysis {
  avg_response_time_hours : Q;
  response_time_distribution : Py.dict nat
}.

(** [results]; the keys ['patterns'], ['workflows'] and
    ['inefficiencies'] are never written and are left out. *)
Record Results : Type := mkResults {
  provider : string;
  total_emails_analyzed : nat;
  folders : Py.dict Folder.t;
  recommendations : list Rec.t;
  email_address : option string;
  total_emails_in_account : option Z;
  folder_count : option nat;
  email_patterns : option Patterns;
  response_analysis : option ResponseAnalysis;
  scan_complete : option bool;
  error : option Py.exn
}.

Definition opt {A} (o : option A) (default : A) : A :=
  match o with
  | Some a => a
  | None => default
  end.

(** ** [_categorize_email] *)

(** [any(word in subject_lower for word in words)] *)
Definition any_word (words : list string) (subject_lower : string) : bool :=
  existsb (fun word => Py.contains word subject_lower) words.

Definition _categorize_email (subject sender : string) : string :=
  let subject_lower := Py.lower subject in
  if any_word ["re:"; "fw:"; "fw:"; "update"; "status"] subject_lower
  then "client_communication"
  else if any_word ["hearing"; "motion"; "deadline"; "filing"; "court"]
            subject_lower
  then "court_deadline"
  else if any_word ["invoice"; "payment"; "billing"; "hours"] subject_lower
  then "billing"
  else if any_word ["referral"; "lead"; "inquiry"; "consultation"]
            subject_lower
  then "marketing"
  else if any_word ["staff"; "meeting"; "calendar"; "internal"]
            subject_lower
  then "admin"
  else "other".

(** ** [_identify_template_candidates] *)

(** [subjects.most_common(n)]: descending counts, ties in insertion
    order. *)
Definition most_common (n : nat) (counter : Py.dict nat)
  : list (string * nat) :=
  firstn n (Py.sorted_reverse Nat.ltb snd counter).

(** Body of the loop: at most one candidate per subject. *)
Definition candidate_of (item : string * nat) : list Candidate.t :=
  if (3 <? snd item)%nat
  then [Candidate.mk (fst item) (snd item) "high"]
  else if (1 <? snd item)%nat
  then [Candidate.mk (fst item) (snd item) "medium"]
  else [].

Definition _identify_template_candidates (subjects : Py.dict nat)
  : list Candidate.t :=
  flat_map candidate_of (most_common 50 subjects).

(** ** [_identify_workflows] *)

(** Body of the loop over the categories. *)
Definition workflow_of (total : nat) (item : string * nat)
  : Py.Exc (list Workflow.t) :=
  if Py.gt (Py.of_nat (snd item)) (Py.of_nat total * 0.1)%Q then
    q <- Py.truediv (Py.of_nat (snd item)) (Py.of_nat total) ;;
    Py.ret [Workflow.mk (fst item) (snd item) (q * 100)%Q]
  else Py.ret [].

Fixpoint workflows_of (total : nat) (items : list (string * nat))
  : Py.Exc (list Workflow.t) :=
  match items with
  | [] => Py.ret []
  | item :: items' =>
      w <- workflow_of total item ;;
      ws <- workflows_of total items' ;;
      Py.ret (w ++ ws)%list
  end.

Definition _identify_workflows (categories : Py.dict nat)
  : Py.Exc (list Workflow.t) :=
  let total := list_sum (map snd categories) in
  ws <- workflows_of total categories ;;
  Py.ret (Py.sorted_reverse Nat.ltb Workflow.volume ws).

(** ** [_analyze_gmail_emails] *)

(** [{h['name']: h['value'] for h in headers}] *)
Definition headers_dict (headers : list (string * string)) : Py.dict string :=
  fold_left (fun d h => Py.dict_set d (fst h) (snd h)) headers [].

(** The address of a [From] header: between the first ['<'] and the next
    one, stripped of ['>'], when there is a ['<']. *)
Definition sender_email_of (sender : string) : string :=
  match after_first "<" sender with
  | Some rest => strip ">" (before_first "<" rest)
  | None => sender
  end.

(** Body of the loop over the messages: a message whose request raises
    changes nothing. *)
Definition analyze_message (p : Patterns) (m : Message) : Patterns :=
  match m with
  | None => p
  | Some hs =>
      let headers := headers_dict hs in
      let sender := Py.get_default headers "From" "" in
      let sender_email := sender_email_of sender in
      let subject := Py.get_default headers "Subject" "" in
      let category := _categorize_email subject sender_email in
      mkPatterns (total_analyzed p)
        (Py.dict_add Nat.add 0 (common_senders p) sender_email 1)
        (Py.dict_add Nat.add 0 (common_subjects p)
           (substring 0 60 subject) 1)
        (Py.dict_add Nat.add 0 (email_categories p) category 1)
        (template_candidates p) (workflows p)
  end.

Definition initial_patterns : Patterns := mkPatterns 0 [] [] [] [] [].

Definition set_total_analyzed (n : nat) (p : Patterns) : Patterns :=
  mkPatterns n (common_senders p) (common_subjects p) (email_categories p)
    (template_candidates p) (workflows p).

Definition set_template_candidates (c : list Candidate.t) (p : Patterns) :=
  mkPatterns (total_analyzed p) (common_senders p) (common_subjects p)
    (email_categories p) c (workflows p).

Definition set_workflows (w : list Workflow.t) (p : Patterns) :=
  mkPatterns (total_analyzed p) (common_senders p) (common_subjects p)
    (email_categories p) (template_candidates p) w.

(** The statements of the [try] block once the message list is there. *)
Definition patterns_steps (ms : list Message)
  : list (Patterns -> Py.Exc Patterns) :=
  [ (fun p => Py.ret (set_total_analyzed (List.length ms) p));
    (fun p => Py.ret (fold_left analyze_message (firstn 100 ms) p));
    (fun p =>
       Py.ret (set_template_candidates
                 (_identify_template_candidates (common_subjects p)) p));
    (fun p =>
       w <- _identify_workflows (email_categories p) ;;
       Py.ret (set_workflows w p)) ].

(** Every exception is caught and the patterns filled so far returned. *)
Definition _analyze_gmail_emails (g : Gmail) : Patterns :=
  match messages g with
  | None => initial_patterns
  | Some ms => fst (Py.run_steps (patterns_steps ms) initial_patterns)
  end.

(** ** [_analyze_response_times] *)

(** The dates of a thread that parse. *)
Definition timestamps_of (msgs : list (option Q)) : list Q :=
  flat_map (fun d => match d with Some t => [t] | None => [] end) msgs.

(** [timestamps[i] - timestamps[i-1]] for [i] from 1. *)
Fixpoint gaps (timestamps : list Q) : list Q :=
  match timestamps with
  | [] => []
  | a :: rest =>
      match rest with
      | [] => []
      | b :: _ => (b - a)%Q :: gaps rest
      end
  end.

(** [0.1 < time_diff < 720] *)
Definition plausible (time_diff : Q) : bool :=
  Py.lt 0.1 time_diff && Py.lt time_diff 720.

Definition thread_response_times (t : Thread) : list Q :=
  match t with
  | Some msgs => filter plausible (gaps (timestamps_of msgs))
  | None => []
  end.

Definition bucket_of (rt : Q) : string :=
  if Py.lt rt 1 then "< 1 hour"
  else if Py.lt rt 4 then "1-4 hours"
  else if Py.lt rt 24 then "4-24 hours"
  else if Py.lt rt 72 then "1-3 days"
  else "> 3 days".

Definition count_bucket (d : Py.dict nat) (rt : Q) : Py.dict nat :=
  Py.dict_add Nat.add 0 d (bucket_of rt) 1.

Definition initial_response_analysis : ResponseAnalysis :=
  mkResponseAnalysis 0 [].

(** The statistics, [if response_times:]. *)
Definition response_statistics (response_times : list Q)
  : Py.Exc ResponseAnalysis :=
  match response_times with
  | [] => Py.ret initial_response_analysis
  | _ :: _ =>
      avg <- Py.truediv (Py.sum response_times)
               (Py.of_nat (List.length response_times)) ;;
      Py.ret (mkResponseAnalysis avg
                (fold_left count_bucket response_times []))
  end.

Definition response_times_of (ths : list Thread) : list Q :=
  flat_map thread_response_times (firstn 100 ths).

Definition _analyze_response_times (g : Gmail) : ResponseAnalysis :=
  match threads g with
  | None => initial_response_analysis
  | Some ths =>
      match response_statistics (response_times_of ths) with
      | inr a => a
      | inl _ => initial_response_analysis
      end
  end.

(** ** [_generate_email_recommendations] *)

Definition when {A} (cond : bool) (x : A) : list A :=
  if cond then [x] else [].

Definition plain (s : string) : Py.FString := Py.fstr s [].

(** [results.get('email_patterns', {}).get('template_candidates', [])] *)
Definition templates_of (r : Results) : list Candidate.t :=
  match email_patterns r with
  | Some p => template_candidates p
  | None => []
  end.

Definition high_confidence_of (r : Results) : list Candidate.t :=
  filter (fun t => String.eqb (Candidate.confidence t) "high")
    (templates_of r).

(** [results.get('response_analysis', {}).get('avg_response_time_hours', 0)] *)
Definition response_time_of (r : Results) : Q :=
  match response_analysis r with
  | Some a => avg_response_time_hours a
  | None => 0%Q
  end.

Definition _generate_email_recommendations (r : Results) : list Rec.t :=
  let n := List.length (high_confidence_of r) in
  Py.sorted_reverse String.ltb Rec.priority
    (when (negb (Nat.eqb n 0))
       (Rec.mk "high" "email_templates"
          (Py.fstr "Create {len(high_confidence)} email templates"
             [Py.of_nat n])
          (Py.fstr "You repeatedly send {len(high_confidence)} similar emails. Creating templates could save 2-3 hours/week."
             [Py.of_nat n])
          (Py.of_nat n * 0.5)%Q "2-3 hours" "easy" None)
     ++ when (Py.gt (response_time_of r) 24)
       (Rec.mk "medium" "response_time"
          (plain "Improve email response workflow")
          (Py.fstr "Your average response time is {response_time:.1f} hours. Creating canned responses and setting up notifications could improve this."
             [response_time_of r])
          1.0 "1-2 hours" "easy" None)
     ++ when (20 <? List.length (folders r))%nat
       (Rec.mk "medium" "organization"
          (plain "Simplify email folder structure")
          (Py.fstr "You have {len(results['folders'])} folders. Simplifying to 5-10 key folders with better labels could save time."
             [Py.of_nat (List.length (folders r))])
          0.5 "1 hour" "easy" None))%list.

(** ** [scan_gmail] *)

Definition set_profile (p : Profile.t) (r : Results) : Results :=
  mkResults (provider r) (total_emails_analyzed r) (folders r)
    (recommendations r) (Profile.emailAddress p)
    (Some (opt (Profile.messagesTotal p) 0%Z)) (folder_count r)
    (email_patterns r) (response_analysis r) (scan_complete r) (error r).

Definition set_folder_count (n : nat) (r : Results) : Results :=
  mkResults (provider r) (total_emails_analyzed r) (folders r)
    (recommendations r) (email_address r) (total_emails_in_account r)
    (Some n) (email_patterns r) (response_analysis r) (scan_complete r)
    (error r).

Definition set_folders (f : Py.dict Folder.t) (r : Results) : Results :=
  mkResults (provider r) (total_emails_analyzed r) f
    (recommendations r) (email_address r) (total_emails_in_account r)
    (folder_count r) (email_patterns r) (response_analysis r)
    (scan_complete r) (error r).

Definition set_email_patterns (p : Patterns) (r : Results) : Results :=
  mkResults (provider r) (total_emails_analyzed r) (folders r)
    (recommendations r) (email_address r) (total_emails_in_account r)
    (folder_count r) (Some p) (response_analysis r) (scan_complete r)
    (error r).

Definition set_response_analysis (a : ResponseAnalysis) (r : Results) :=
  mkResults (provider r) (total_emails_analyzed r) (folders r)
    (recommendations r) (email_address r) (total_emails_in_account r)
    (folder_count r) (email_patterns r) (Some a) (scan_complete r)
    (error r).

Definition set_recommendations (x : list Rec.t) (r : Results) : Results :=
  mkResults (provider r) (total_emails_analyzed r) (folders r) x
    (email_address r) (total_emails_in_account r) (folder_count r)
    (email_patterns r) (response_analysis r) (scan_complete r) (error r).

Definition seal (complete : bool) (e : option Py.exn) (r : Results) :=
  mkResults (provider r) (total_emails_analyzed r) (folders r)
    (recommendations r) (email_address r) (total_emails_in_account r)
    (folder_count r) (email_patterns r) (response_analysis r)
    (Some complete) e.

(** Body of the loop over the first twenty labels: a label whose request
    raises, or with ten messages or fewer, changes nothing. *)
Definition analyze_label (fs : Py.dict Folder.t) (label : Label.t)
  : Py.dict Folder.t :=
  match Label.info label with
  | None => fs
  | Some label_info =>
      let message_count := opt (LabelInfo.messagesTotal label_info) 0%Z in
      if (10 <? message_count)%Z
      then Py.dict_set fs (Label.name label)
             (Folder.mk (Label.id label) message_count
                (opt (LabelInfo.threadsTotal label_info) 0%Z))
      else fs
  end.

Definition initial_results : Results :=
  mkResults "gmail" 0 [] [] None None None None None None None.

(** The statements of the [try] block. *)
Definition try_block (g : Gmail) : list (Results -> Py.Exc Results) :=
  [ (fun r =>
       match profile g with
       | None => Py.raise Py.ServiceError
       | Some p => Py.ret (set_profile p r)
       end);
    (fun r =>
       match labels g with
       | None => Py.raise Py.ServiceError
       | Some ls =>
           Py.ret (set_folders
                     (fold_left analyze_label (firstn 20 ls) (folders r))
                     (set_folder_count (List.length ls) r))
       end);
    (fun r => Py.ret (set_email_patterns (_analyze_gmail_emails g) r));
    (fun r => Py.ret (set_response_analysis (_analyze_response_times g) r));
    (fun r =>
       Py.ret (set_recommendations (_generate_email_recommendations r) r));
    (fun r => Py.ret (seal true None r)) ].

Definition scan_gmail (g : Gmail) : Results :=
  let '(r, raised) := Py.run_steps (try_block g) initial_results in
  match raised with
  | None => r
  | Some e => seal false (Some e) r
  end.

(** The part of the result the coordinator reads: the dictionary has no
    key ['organization_issues']. *)
Definition report_of (r : Results) : Report.t :=
  Report.mk (Some (provider r))
    (match scan_complete r with Some b => b | None => false end)
    (error r) None (recommendations r).

End EmailScanner.


(* ================================================================== *)
(** * email_scanner.py: reading a Gmail scan *)
(* ================================================================== *)

Module EmailSpec.
Import EmailScanner.

(** Descending order of counts and of volumes. *)
Definition counts_no_less (a b : Candidate.t) : Prop :=
  Candidate.count b <= Candidate.count a.

Definition volume_no_less (a b : Workflow.t) : Prop :=
  Workflow.volume b <= Workflow.volume a.

(** A share strictly above 10 and at most 100 percent. *)
Definition share (q : Q) : Prop := (10 < q)%Q /\ (q <= 100)%Q.

(** What the coordinator and a report need of a recommendation. *)
Definition headline (rec : Rec.t) : string * string * Q :=
  (Rec.priority rec, Rec.area rec,
   Rec.estimated_time_savings_hours_per_week rec).

(** The response times a scan measures. *)
Definition measured (g : Gmail) : list Q :=
  match threads g with
  | Some ths => response_times_of ths
  | None => []
  end.

(** A response time between 0.1 and 720 hours, exclusive. *)
Definition in_window (rt : Q) : Prop := (0.1 < rt)%Q /\ (rt < 720)%Q.

(** [rt] is counted under [label]. *)
Definition in_bucket (label : string) (rt : Q) : bool :=
  String.eqb (bucket_of rt) label.

Definition is_high (t : Candidate.t) : bool :=
  String.eqb (Candidate.confidence t) "high".

End EmailSpec.



(* ================================================================== *)
(** * The coordinator on the reports of the modelled scanners *)
(* ================================================================== *)

Module Pipeline.
Import Coordinator.

(** What one run reads when the three scanners are the modelled ones. *)
Record Sources : Type := mkSources {
  timestamp : string;
  mail_authenticated : bool;
  mail : EmailScanner.Gmail;
  documents_exist : bool;
  scan_path : string;
  max_files : nat;
  tree : list FsAnalyzer.WalkEntry;
  drive_authenticated : bool;
  max_drive_files : nat;
  drive : CloudScanner.Drive;
  reply : option string
}.

Definition mail_report (s : Sources) : Report.t :=
  EmailScanner.report_of (EmailScanner.scan_gmail (mail s)).

Definition file_report (md5 : string -> string) (s : Sources) : Report.t :=
  FsAnalyzer.report_of
    (FsAnalyzer.scan_filesystem md5 (scan_path s) (max_files s) (tree s)).

Definition drive_report (s : Sources) : Report.t :=
  CloudScanner.report_of
    (CloudScanner.scan_google_drive (max_drive_files s) (drive s)).

Definition env (md5 : string -> string) (s : Sources) : Env :=
  mkEnv (timestamp s) (mail_authenticated s) (mail_report s)
    (documents_exist s) (file_report md5 s)
    (drive_authenticated s) (drive_report s) (reply s).

(** A finding of the file scan: no provider to name, one of three
    severities. *)
Definition from_file_scan (ci : CombinedIssue.t) : Prop :=
  CombinedIssue.module ci = "unknown"
  /\ In (CombinedIssue.severity ci) ["high"; "medium"; "low"].

(** A finding of the drive scan. *)
Definition from_drive_scan (ci : CombinedIssue.t) : Prop :=
  CombinedIssue.module ci = "google_drive"
  /\ In (CombinedIssue.severity ci) ["high"; "medium"].

End Pipeline.


(* ================================================================== *)
(** * Concrete inputs used by the examples *)
(* ================================================================== *)

Module Examples.
Import FsAnalyzer.

(** A digest function for the examples: injective and never empty. *)
Definition digest (bytes : string) : string := "md5:" ++ bytes.

Definition file (n : string) (sz : Z) (bytes : string) : FileEntry :=
  mkFile n (Some sz) (Some bytes).

(** A directory six separators below the root holding two copies of one
    2000-byte file, and a small note at the root. *)
Definition deep_tree : list WalkEntry :=
  [ mkWalk [] [file "notes.txt" 100 "n"];
    mkWalk ["a"; "b"; "c"; "d"; "e"; "f"; "g"]
      [file "brief v1.pdf" 2000 "B"; file "brief v2.pdf" 2000 "B"] ].

Definition deep_tree_scan : FsAnalyzer.Results :=
  scan_filesystem digest "/home/u/Documents" 1000 deep_tree.

(** A mail scan that could not reach its source. *)
Definition failed_gmail : Report.t :=
  Report.mk (Some "gmail") false (Some Py.ServiceError) None [].

(** Mail scan failed, file scan succeeded, drive not authenticated. *)
Definition partial_env : Coordinator.Env :=
  Coordinator.mkEnv "2025-01-01T00:00:00" true failed_gmail true
    (report_of deep_tree_scan) false failed_gmail None.

Definition partial_run : Coordinator.ScanResults :=
  Coordinator.run_full_analysis partial_env "A. Lawyer" "a@law.example"
    true true true.

End Examples.


Module FsExamples.
Import FsAnalyzer.

(** What [os.walk] yields for an empty directory: the root, without
    files. *)
Definition empty_source : list WalkEntry := [mkWalk [] []].

(** The finding the scan of a source without files reports. *)
Definition missing_dates_finding : Issue.t :=
  Issue.mk "low" "missing_dates_in_filenames"
    (Py.fstr "Only {date_in_name:.1f}% of files have dates" [0%Q])
    "Hard to track file versions and dates".

(** A [dir_structure]: the root with one file, a folder six separators
    down with two. *)
Definition two_folders : Py.dict (list DirFile.t) :=
  [ ("root", [DirFile.mk "notes.txt" 100 "other"]);
    ("a/b/c/d/e/f/g",
     [DirFile.mk "brief v1.pdf" 2000 "documents";
      DirFile.mk "brief v2.pdf" 2000 "documents"]) ].

End FsExamples.


Module CloudExamples.
Import CloudScanner.

Definition about_with (q : StorageQuota) : About :=
  mkAbout (Some "a@law.example") (Some "A. Lawyer") (Some q).

Definition pdf (n : string) : DriveFile :=
  mkDriveFile n n (Some "application/pdf") (Some 2048%Z) None.

(** A drive with two files and a quota of which [used] of [limit] bytes
    are taken. *)
Definition drive (used limit : Z) : Drive :=
  mkDrive (Some (about_with (mkStorageQuota (Some limit) (Some used) None)))
    (LastPage [pdf "contract.pdf"; pdf "motion.pdf"]).

(** The same drive for an account whose quota reply has no limit. *)
Definition unlimited_drive (used : Z) : Drive :=
  mkDrive (Some (about_with (mkStorageQuota None (Some used) None)))
    (LastPage [pdf "contract.pdf"; pdf "motion.pdf"]).

Definition has_issue (kind : string) (issues : list Issue.t) : bool :=
  existsb (fun i => String.eqb (Issue.issue i) kind) issues.

End CloudExamples.


Module AnalyzerExamples.

(** Scores of one questionnaire: documents weak, billing healthy. *)
Definition scores : Py.dict Q :=
  [("intake", 50%Q); ("documents", 35%Q); ("case_management", 62.5%Q);
   ("billing", 80%Q); ("admin", 70%Q)].

End AnalyzerExamples.


Module DuplicateExamples.
Import FsAnalyzer.

(** Six copies of one 2000-byte file in the scan root. *)
Definition six_copies : list WalkEntry :=
  [ mkWalk []
      [ Examples.file "copy1.pdf" 2000 "same bytes";
        Examples.file "copy2.pdf" 2000 "same bytes";
        Examples.file "copy3.pdf" 2000 "same bytes";
        Examples.file "copy4.pdf" 2000 "same bytes";
        Examples.file "copy5.pdf" 2000 "same bytes";
        Examples.file "copy6.pdf" 2000 "same bytes" ] ].

Definition six_copies_scan : Results :=
  scan_filesystem Examples.digest "/home/u/Documents" 1000 six_copies.

End DuplicateExamples.


Module PipelineExamples.

(** A mailbox with two labels, five messages (four with one subject) and
    one thread answered after 30 hours. *)
Definition mailbox : EmailScanner.Gmail :=
  EmailScanner.mkGmail
    (Some (EmailScanner.Profile.mk (Some "a@law.example") (Some 1200%Z)))
    (Some [EmailScanner.Label.mk "L1" "Clients"
             (Some (EmailScanner.LabelInfo.mk (Some 40%Z) (Some 12%Z)));
           EmailScanner.Label.mk "L2" "Drafts" None])
    (Some [Some [("From", "Client <c@example.org>");
                 ("Subject", "Re: status of my case")];
           Some [("From", "Client <c@example.org>");
                 ("Subject", "Re: status of my case")];
           Some [("From", "d@example.org");
                 ("Subject", "Re: status of my case")];
           Some [("From", "d@example.org");
                 ("Subject", "Re: status of my case")];
           None;
           Some [("Subject", "Hearing moved")]])
    (Some [Some [Some 10%Q; None; Some 40%Q]; None]).

(** That mailbox, the deep tree of [Examples] and a drive at 90% of its
    quota. *)
Definition sources : Pipeline.Sources :=
  Pipeline.mkSources "2025-01-01T00:00:00" true mailbox
    true "/home/u/Documents" 1000 Examples.deep_tree
    true 1000 (CloudExamples.drive 90 100) None.

End PipelineExamples.



Module QuestionnaireExamples.

(** One answer on intake, the weakest option, and one on documents, the
    strongest; billing is not answered.  The third response names no
    question. *)
Definition responses : Py.dict string :=
  [("intake_1", "intake_1_a"); ("docs_1", "docs_1_c");
   ("no_such_question", "x")].

End QuestionnaireExamples.



(* ================================================================== *)
(** * Properties *)
(* ================================================================== *)

(** ** Facts about the Python primitives *)

Module PyFacts.

Lemma lt_iff (a b : Q) : Py.lt a b = true <-> (a < b)%Q.
Proof.
  unfold Py.lt. rewrite negb_true_iff, <- not_true_iff_false, Qle_bool_iff.
  split; [apply Qnot_le_lt | apply Qlt_not_le].
Qed.

Lemma lt_false_iff (a b : Q) : Py.lt a b = false <-> (b <= a)%Q.
Proof.
  unfold Py.lt. rewrite negb_false_iff. apply Qle_bool_iff.
Qed.

Lemma gt_iff (a b : Q) : Py.gt a b = true <-> (b < a)%Q.
Proof. apply lt_iff. Qed.

Lemma gt_false_iff (a b : Q) : Py.gt a b = false <-> (a <= b)%Q.
Proof. apply lt_false_iff. Qed.

Lemma truediv_returns (a b : Q) :
  ~ (b == 0)%Q -> Py.truediv a b = inr (a / b)%Q.
Proof.
  intros Hb. unfold Py.truediv.
  destruct (Qeq_bool b 0) eqn:E; [|reflexivity].
  apply Qeq_bool_iff in E. contradiction.
Qed.

Lemma truediv_zero (a b : Q) :
  (b == 0)%Q -> Py.truediv a b = inl Py.ZeroDivisionError.
Proof.
  intros Hb. unfold Py.truediv.
  apply Qeq_bool_iff in Hb. now rewrite Hb.
Qed.

Lemma of_nat_nonzero (n : nat) : n <> 0 -> ~ (Py.of_nat n == 0)%Q.
Proof.
  intros Hn H. unfold Py.of_nat, Qeq in H. simpl in H. lia.
Qed.

Section SortingFacts.
Context {A K : Type} (klt : K -> K -> bool) (key : A -> K).

Lemma insert_desc_perm (x : A) (l : list A) :
  Permutation (x :: l) (Py.insert_desc klt key x l).
Proof.
  induction l as [|y ys IH]; simpl.
  - apply Permutation_refl.
  - destruct (klt (key x) (key y)).
    + eapply perm_trans; [apply perm_swap | apply perm_skip, IH].
    + apply Permutation_refl.
Qed.

Lemma sorted_reverse_perm (l : list A) :
  Permutation l (Py.sorted_reverse klt key l).
Proof.
  induction l as [|x xs IH]; simpl.
  - apply perm_nil.
  - eapply perm_trans; [apply perm_skip, IH | apply insert_desc_perm].
Qed.

Lemma sorted_reverse_In (l : list A) (x : A) :
  In x (Py.sorted_reverse klt key l) <-> In x l.
Proof.
  split; apply Permutation_in;
    [apply Permutation_sym|]; apply sorted_reverse_perm.
Qed.

Lemma sorted_reverse_length (l : list A) :
  List.length (Py.sorted_reverse klt key l) = List.length l.
Proof.
  symmetry. apply Permutation_length, sorted_reverse_perm.
Qed.

(** With a [<] that is asymmetric and whose negation is transitive, the
    result is in descending order: no element is below a later one. *)
Hypothesis klt_asym : forall a b, klt a b = true -> klt b a = false.
Hypothesis nlt_trans :
  forall a b c, klt a b = false -> klt b c = false -> klt a c = false.

Lemma insert_desc_sorted (x : A) (l : list A) :
  StronglySorted (Py.not_below klt key) l ->
  StronglySorted (Py.not_below klt key) (Py.insert_desc klt key x l).
Proof.
  induction l as [|y ys IH]; intros Hs; simpl.
  - constructor; constructor.
  - inversion Hs as [|? ? Hys Hy]; subst.
    destruct (klt (key x) (key y)) eqn:E.
    + constructor; [now apply IH|].
      apply Forall_forall. intros z Hz.
      apply (Permutation_in z (Permutation_sym (insert_desc_perm x ys))) in Hz.
      destruct Hz as [<- | Hz].
      * now apply klt_asym.
      * rewrite Forall_forall in Hy. now apply Hy.
    + constructor; [assumption|].
      constructor; [exact E|].
      apply Forall_forall. intros z Hz.
      rewrite Forall_forall in Hy.
      apply nlt_trans with (b := key y); [exact E | now apply Hy].
Qed.

Lemma sorted_reverse_sorted (l : list A) :
  StronglySorted (Py.not_below klt key) (Py.sorted_reverse klt key l).
Proof.
  induction l as [|x xs IH]; simpl.
  - constructor.
  - now apply insert_desc_sorted.
Qed.

End SortingFacts.

(** A slice [l[:n]] holds elements of [l]. *)
Lemma In_firstn {A} (n : nat) (l : list A) (x : A) :
  In x (firstn n l) -> In x l.
Proof.
  intros H. rewrite <- (firstn_skipn n l). apply in_or_app. now left.
Qed.

(** Reading a dictionary after an assignment. *)
Lemma dict_get_set {V} (d : Py.dict V) (k k' : string) (v : V) :
  Py.dict_get (Py.dict_set d k v) k'
  = if String.eqb k' k then Some v else Py.dict_get d k'.
Proof.
  induction d as [|[k0 v0] d IH]; simpl.
  - reflexivity.
  - destruct (String.eqb k k0) eqn:E; simpl.
    + apply String.eqb_eq in E. subst k0.
      destruct (String.eqb k' k); reflexivity.
    + rewrite IH. destruct (String.eqb k' k0) eqn:E0; [|reflexivity].
      apply String.eqb_eq in E0. subst k0.
      rewrite String.eqb_sym in E. now rewrite E.
Qed.

Lemma dict_get_None_iff {V} (d : Py.dict V) (k : string) :
  Py.dict_get d k = None <-> ~ In k (Py.keys d).
Proof.
  induction d as [|[k0 v0] d IH]; simpl.
  - tauto.
  - destruct (String.eqb k k0) eqn:E.
    + apply String.eqb_eq in E. subst k0. split; [discriminate|].
      intros H. exfalso. apply H. now left.
    + apply String.eqb_neq in E. rewrite IH. split.
      * intros H [H' | H']; [congruence | contradiction].
      * intros H H'. apply H. now right.
Qed.

Lemma dict_set_keys {V} (d : Py.dict V) (k : string) (v : V) :
  (In k (Py.keys d) -> Py.keys (Py.dict_set d k v) = Py.keys d)
  /\ (~ In k (Py.keys d) -> Py.keys (Py.dict_set d k v) = (Py.keys d ++ [k])%list).
Proof.
  induction d as [|[k0 v0] d [IH1 IH2]]; simpl.
  - split; [intros [] | reflexivity].
  - destruct (String.eqb k k0) eqn:E; simpl.
    + apply String.eqb_eq in E. subst k0. split; [reflexivity|].
      intros H. exfalso. apply H. now left.
    + apply String.eqb_neq in E. split.
      * intros [H | H]; [congruence|]. now rewrite IH1.
      * intros H. rewrite IH2; [reflexivity|]. intros H'. apply H. now right.
Qed.

Lemma dict_set_NoDup {V} (d : Py.dict V) (k : string) (v : V) :
  NoDup (Py.keys d) -> NoDup (Py.keys (Py.dict_set d k v)).
Proof.
  intros H. destruct (in_dec string_dec k (Py.keys d)) as [Hin | Hin].
  - now rewrite (proj1 (dict_set_keys d k v) Hin).
  - rewrite (proj2 (dict_set_keys d k v) Hin).
    apply NoDup_app; [exact H | repeat constructor; intros [] |].
    intros x Hx [<- | []]. contradiction.
Qed.

Lemma dict_get_In {V} (d : Py.dict V) (k : string) (v : V) :
  NoDup (Py.keys d) -> In (k, v) d -> Py.dict_get d k = Some v.
Proof.
  induction d as [|[k0 v0] d IH]; simpl; intros Hnd Hin; [easy|].
  inversion Hnd as [|? ? Hk0 Hnd']; subst.
  destruct Hin as [Heq | Hin].
  - injection Heq as -> ->. now rewrite String.eqb_refl.
  - destruct (String.eqb k k0) eqn:E; [|now apply IH].
    apply String.eqb_eq in E. subst k0. exfalso. apply Hk0.
    change k with (fst (k, v)). now apply in_map.
Qed.

Lemma get_default_add (d : Py.dict nat) (k k' : string) (n : nat) :
  Py.get_default (Py.dict_add Nat.add 0 d k n) k' 0
  = if String.eqb k' k then Py.get_default d k 0 + n
    else Py.get_default d k' 0.
Proof.
  unfold Py.dict_add, Py.get_default at 1. rewrite dict_get_set.
  destruct (String.eqb k' k); reflexivity.
Qed.

(** [<] on [(int, number)] keys, spelled out. *)
Lemma tuple_lt_false_iff (a b : nat * Q) :
  Py.tuple_lt a b = false
  <-> fst b < fst a \/ (fst a = fst b /\ (snd b <= snd a)%Q).
Proof.
  unfold Py.tuple_lt.
  destruct (Nat.eqb (fst a) (fst b)) eqn:E1; simpl.
  - apply Nat.eqb_eq in E1.
    destruct (Qeq_bool (snd a) (snd b)) eqn:E2; simpl.
    + apply Qeq_bool_iff in E2. split; [|reflexivity].
      intros _. right. split; [assumption|]. rewrite E2. apply Qle_refl.
    + rewrite lt_false_iff. split.
      * intros H. right. now split.
      * intros [H | [_ H]]; [lia | assumption].
  - apply Nat.eqb_neq in E1. rewrite Nat.ltb_ge. split.
    + intros H. left. lia.
    + intros [H | [H _]]; [lia | contradiction].
Qed.

Lemma tuple_lt_true_iff (a b : nat * Q) :
  Py.tuple_lt a b = true
  <-> fst a < fst b \/ (fst a = fst b /\ (snd a < snd b)%Q).
Proof.
  unfold Py.tuple_lt.
  destruct (Nat.eqb (fst a) (fst b)) eqn:E1; simpl.
  - apply Nat.eqb_eq in E1.
    destruct (Qeq_bool (snd a) (snd b)) eqn:E2; simpl.
    + apply Qeq_bool_iff in E2. split; [discriminate|].
      intros [H | [_ H]]; [lia|]. rewrite E2 in H.
      now apply Qlt_irrefl in H.
    + rewrite lt_iff. split.
      * intros H. right. now split.
      * intros [H | [_ H]]; [lia | assumption].
  - apply Nat.eqb_neq in E1. rewrite Nat.ltb_lt. split.
    + intros H. now left.
    + intros [H | [H _]]; [assumption | contradiction].
Qed.

Lemma tuple_lt_asym (a b : nat * Q) :
  Py.tuple_lt a b = true -> Py.tuple_lt b a = false.
Proof.
  rewrite tuple_lt_true_iff, tuple_lt_false_iff.
  intros [H | [H1 H2]]; [now left|].
  right. split; [now symmetry|]. now apply Qlt_le_weak.
Qed.

Lemma tuple_nlt_trans (a b c : nat * Q) :
  Py.tuple_lt a b = false -> Py.tuple_lt b c = false ->
  Py.tuple_lt a c = false.
Proof.
  rewrite !tuple_lt_false_iff.
  intros [H1 | [H1 H1']] [H2 | [H2 H2']]; try (left; lia).
  right. split; [congruence|]. now apply Qle_trans with (y := snd b).
Qed.

(** [sum] agrees with the mathematical sum of the list. *)
Lemma fold_left_Qplus (xs : list Q) (a : Q) :
  (fold_left Qplus xs a == a + fold_right Qplus 0 xs)%Q.
Proof.
  revert a. induction xs as [|x xs IH]; intros a; simpl.
  - ring.
  - rewrite IH. ring.
Qed.

Lemma sum_fold_right (xs : list Q) :
  (Py.sum xs == fold_right Qplus 0 xs)%Q.
Proof.
  unfold Py.sum. rewrite fold_left_Qplus. ring.
Qed.

End PyFacts.

(** ** The coordinator *)

Module CoordinatorFacts.
Import Coordinator.








Lemma tagged_recs_tag_module (m : option Report.t) :
  reported_recs (tag_module m) = tagged_recs m.
Proof.
  destruct m as [r|]; simpl; [|reflexivity].
  destruct (Report.scan_complete r) eqn:E; simpl; try rewrite E; reflexivity.
Qed.

(** The state after the three scan steps. *)
Lemma modules_after_scans (e : Env) (ln le : string) (f g d : bool) :
  modules (scan_drive_step d e (scan_files_step f e
             (scan_email_step g e (initial_results ln le e))))
  = [email_slot e g; filesystem_slot e f; cloud_slot e d].
Proof.
  unfold scan_drive_step, scan_files_step, scan_email_step, email_slot,
    filesystem_slot, cloud_slot.
  destruct g, (gmail_auth e), f, (docs_path_exists e), d, (drive_auth e);
    reflexivity.
Qed.

Lemma modules_scanned_after_scans (e : Env) (ln le : string) (f g d : bool) :
  modules_scanned (scan_summary (scan_drive_step d e (scan_files_step f e
             (scan_email_step g e (initial_results ln le e)))))
  = ((if g && gmail_auth e then ["email"] else [])
     ++ (if f && docs_path_exists e then ["filesystem"] else [])
     ++ (if d && drive_auth e then ["google_drive"] else []))%list.
Proof.
  unfold scan_drive_step, scan_files_step, scan_email_step.
  destruct g, (gmail_auth e), f, (docs_path_exists e), d, (drive_auth e);
    reflexivity.
Qed.

(** What a run returns, field by field, from the three slots. *)
Lemma run_modules (e : Env) (ln le : string) (f g d : bool) :
  modules (run_full_analysis e ln le f g d)
  = map tag_module [email_slot e g; filesystem_slot e f; cloud_slot e d].
Proof.
  rewrite <- modules_after_scans with (ln := ln) (le := le).
  reflexivity.
Qed.

Lemma run_consolidated (e : Env) (ln le : string) (f g d : bool) :
  consolidated_findings (run_full_analysis e ln le f g d)
  = Some (fold_left consolidate_module
            [email_slot e g; filesystem_slot e f; cloud_slot e d]
            empty_consolidated).
Proof.
  rewrite <- modules_after_scans with (ln := ln) (le := le).
  reflexivity.
Qed.

Lemma run_prioritized (e : Env) (ln le : string) (f g d : bool) :
  prioritized_recommendations (run_full_analysis e ln le f g d)
  = Some (Py.sorted_reverse Py.tuple_lt sort_key
            (flat_map tagged_recs
               [email_slot e g; filesystem_slot e f; cloud_slot e d])).
Proof.
  rewrite <- modules_after_scans with (ln := ln) (le := le).
  reflexivity.
Qed.

Lemma run_modules_scanned (e : Env) (ln le : string) (f g d : bool) :
  modules_scanned (scan_summary (run_full_analysis e ln le f g d))
  = ((if g && gmail_auth e then ["email"] else [])
     ++ (if f && docs_path_exists e then ["filesystem"] else [])
     ++ (if d && drive_auth e then ["google_drive"] else []))%list.
Proof.
  rewrite <- modules_scanned_after_scans with (ln := ln) (le := le).
  reflexivity.
Qed.

Lemma run_totals (e : Env) (ln le : string) (f g d : bool) :
  forall recs,
    prioritized_recommendations (run_full_analysis e ln le f g d) = Some recs ->
    total_time_savings_estimate (scan_summary (run_full_analysis e ln le f g d))
    = Py.sum (map Rec.estimated_time_savings_hours_per_week recs)
    /\ total_recommendations (scan_summary (run_full_analysis e ln le f g d))
       = List.length recs.
Proof.
  intros recs H. injection H as <-. split; reflexivity.
Qed.

End CoordinatorFacts.

Module CoordinatorProps.
Import Coordinator CoordinatorFacts.





(** C2.  The aggregate estimate of a run is [sum] over the whole merged,
    re-ranked list: the list whose length is [total_recommendations] and
    which holds the recommendations of every complete report.  It differs
    from the mathematical sum of the items by less than 1e-6 (by nothing,
    in exact arithmetic). *)
Theorem aggregate_savings_is_full_sum (e : Env) (ln le : string)
  (f g d : bool) :
  let r := run_full_analysis e ln le f g d in
  exists recs,
    prioritized_recommendations r = Some recs
    /\ Permutation recs (flat_map reported_recs (modules r))
    /\ total_recommendations (scan_summary r) = List.length recs
    /\ total_time_savings_estimate (scan_summary r)
       = Py.sum (map Rec.estimated_time_savings_hours_per_week recs)
    /\ (Qabs (total_time_savings_estimate (scan_summary r)
              - fold_right Qplus 0
                  (map Rec.estimated_time_savings_hours_per_week recs))
        < 1 # 1000000)%Q.
Proof.
  intros r. subst r. eexists.
  split; [apply run_prioritized|].
  split; [|split; [|split]].
  - rewrite run_modules. apply Permutation_sym.
    eapply perm_trans; [|apply PyFacts.sorted_reverse_perm].
    simpl. rewrite !tagged_recs_tag_module. apply Permutation_refl.
  - apply (run_totals e ln le f g d), run_prioritized.
  - apply (run_totals e ln le f g d), run_prioritized.
  - destruct (run_totals e ln le f g d _ (run_prioritized e ln le f g d))
      as [-> _].
    rewrite PyFacts.sum_fold_right.
    setoid_replace (fold_right Qplus 0
                      (map Rec.estimated_time_savings_hours_per_week
                         (Py.sorted_reverse Py.tuple_lt sort_key
                            (flat_map tagged_recs
                               [email_slot e g; filesystem_slot e f;
                                cloud_slot e d])))
                    - fold_right Qplus 0
                        (map Rec.estimated_time_savings_hours_per_week
                           (Py.sorted_reverse Py.tuple_lt sort_key
                              (flat_map tagged_recs
                                 [email_slot e g; filesystem_slot e f;
                                  cloud_slot e d]))))%Q
      with 0%Q by ring.
    reflexivity.
Qed.

(** C10.  Whatever consolidation collected, [total_findings] is 0: it is the
    length of [consolidated.get('issues', [])], and the dictionary of
    consolidated findings has the six bucket keys only. *)
Theorem total_findings_always_zero (e : Env) (ln le : string) (f g d : bool) :
  total_findings (scan_summary (run_full_analysis e ln le f g d)) = 0
  /\ (forall c, consolidated_get c "issues" = None)
  /\ ~ In "issues" consolidated_keys.
Proof.
  split; [reflexivity|]. split; [reflexivity|].
  simpl. intros H.
  repeat (destruct H as [H|H]; [discriminate|]). exact H.
Qed.

(** On [Examples.partial_run] three findings were consolidated and the
    counter is 0. *)
Example total_findings_zero_with_findings :
  total_findings (scan_summary Examples.partial_run) = 0
  /\ option_map (fun c => List.length (medium_priority_issues c)
                          + List.length (low_priority_issues c))
       (consolidated_findings Examples.partial_run) = Some 3.
Proof. split; vm_compute; reflexivity. Qed.

End CoordinatorProps.

Module CoordinatorOrder.
Import Coordinator CoordinatorFacts.

Lemma not_below_ranks_before (a b : Rec.t) :
  Py.not_below Py.tuple_lt sort_key a b -> ranks_before a b.
Proof.
  unfold Py.not_below, ranks_before, sort_key.
  rewrite PyFacts.tuple_lt_false_iff. simpl. tauto.
Qed.

Lemma StronglySorted_weaken {A} (R S : A -> A -> Prop) (l : list A) :
  (forall a b, R a b -> S a b) -> StronglySorted R l -> StronglySorted S l.
Proof.
  intros HRS Hs. induction Hs as [|x l Hl IH Hx]; constructor.
  - exact IH.
  - eapply Forall_impl; [|exact Hx]. intros b. apply HRS.
Qed.

(** The merged list of a run is ranked: priority descending (high, medium,
    low, then anything else), ties by weekly savings descending. *)
Theorem merged_recommendations_ranked (e : Env) (ln le : string)
  (f g d : bool) :
  exists recs,
    prioritized_recommendations (run_full_analysis e ln le f g d) = Some recs
    /\ StronglySorted ranks_before recs.
Proof.
  eexists. split; [apply run_prioritized|].
  eapply StronglySorted_weaken; [apply not_below_ranks_before|].
  apply PyFacts.sorted_reverse_sorted.
  - intros a b. apply PyFacts.tuple_lt_asym.
  - intros a b c. apply PyFacts.tuple_nlt_trans.
Qed.

End CoordinatorOrder.

(** ** The file system scanner *)

Module FsProps.
Import FsAnalyzer.

Section WithHash.
Variable md5 : string -> string.

Lemma walk_without_files (max_files : nat) (ws : list WalkEntry) (st : State) :
  Forall (fun w => files w = []) ws -> walk md5 max_files ws st = st.
Proof.
  unfold walk. intros H. revert st.
  induction H as [|w ws Hw _ IH]; intros st; simpl; [reflexivity|].
  rewrite <- (IH st) at 2. f_equal.
  unfold scan_dir, register_dir. rewrite Hw. reflexivity.
Qed.

(** C4 on the code.  A source without a single file is sealed complete,
    without error and without recommendations, and with one finding:
    [missing_dates_in_filenames], computed from the 0% of an empty
    sample. *)
Theorem empty_source_reports_missing_dates (scan_path : string)
  (max_files : nat) (ws : list WalkEntry) :
  Forall (fun w => files w = []) ws ->
  let r := scan_filesystem md5 scan_path max_files ws in
  scan_complete r = Some true
  /\ error r = None
  /\ total_files r = 0
  /\ recommendations r = []
  /\ organization_issues r = [FsExamples.missing_dates_finding].
Proof.
  intros H r. subst r. unfold scan_filesystem, try_block.
  cbn [Py.run_steps Py.ret]. rewrite (walk_without_files _ _ _ H).
  repeat split; reflexivity.
Qed.

End WithHash.

Lemma empty_source_reports_missing_dates_witness :
  Forall (fun w => files w = []) FsExamples.empty_source
  /\ organization_issues
       (scan_filesystem Examples.digest "/home/u/Documents" 1000
          FsExamples.empty_source)
     = [FsExamples.missing_dates_finding].
Proof.
  assert (H : Forall (fun w => files w = []) FsExamples.empty_source)
    by (repeat constructor).
  split; [exact H|].
  exact (proj2 (proj2 (proj2 (proj2
    (empty_source_reports_missing_dates Examples.digest "/home/u/Documents"
       1000 FsExamples.empty_source H))))).
Defined.

(** C3 on the code.  The scan of [Examples.deep_tree] yields four
    recommendations; [sorted(..., key=lambda x: x['priority'],
    reverse=True)] orders them by the priority string, so both medium ones
    come first, in the order they were generated (1.0 h before 2.0 h), then
    the low one, and the high one last. *)
Theorem per_source_order_is_alphabetical :
  map (fun r => (Rec.area r, Rec.priority r,
                 Rec.estimated_time_savings_hours_per_week r))
      (recommendations Examples.deep_tree_scan)
  = [ ("folder_structure", "medium", 1.0%Q);
      ("file_categorization", "medium", 2.0%Q);
      ("naming_convention", "low", 0.2%Q);
      ("duplicate_cleanup", "high", 0.5%Q) ].
Proof. vm_compute. reflexivity. Qed.

(** *** Structure analysis *)

Lemma count_char_app (c : ascii) (a b : string) :
  Py.count_char c (a ++ b) = Py.count_char c a + Py.count_char c b.
Proof.
  induction a as [|c' a IH]; simpl; [reflexivity|].
  rewrite IH. lia.
Qed.

Lemma depth_of_join (parts : list string) :
  Forall (fun p => Py.count_char "/"%char p = 0) parts ->
  depth_of (Py.join "/" parts) = pred (List.length parts).
Proof.
  unfold depth_of. induction 1 as [|p ps Hp Hps IH]; [reflexivity|].
  destruct ps as [|q ps]; [simpl; exact Hp|].
  change (Py.join "/" (p :: q :: ps)) with (p ++ "/" ++ Py.join "/" (q :: ps)).
  rewrite !count_char_app, Hp, IH. reflexivity.
Qed.

Lemma depth_fold_max (ds : Py.dict (list DirFile.t)) (acc : nat * list (nat * nat)) :
  let m := fst (fold_left depth_step ds acc) in
  fst acc <= m
  /\ (forall p, In p (Py.keys ds) -> depth_of p <= m)
  /\ (m = fst acc \/ exists p, In p (Py.keys ds) /\ depth_of p = m).
Proof.
  revert acc. induction ds as [|[k v] ds IH]; intros acc; simpl.
  - split; [lia|]. split; [intros p []|now left].
  - specialize (IH (depth_step acc (k, v))).
    destruct IH as [H1 [H2 H3]].
    assert (Hstep : fst (depth_step acc (k, v)) = Nat.max (fst acc) (depth_of k)).
    { unfold depth_step. simpl.
      destruct (fst acc <? depth_of k)%nat eqn:E; simpl.
      - apply Nat.ltb_lt in E. lia.
      - apply Nat.ltb_ge in E. lia. }
    rewrite Hstep in H1, H3.
    split; [lia|]. split.
    + intros p [<- | Hp]; [lia | now apply H2].
    + destruct H3 as [H3 | [p [Hp Hd]]].
      * destruct (Nat.max_spec (fst acc) (depth_of k)) as [[_ E] | [_ E]];
          rewrite E in H3.
        -- right. exists k. split; [now left | now symmetry].
        -- now left.
      * right. exists p. split; [now right | assumption].
Qed.

Lemma folder_step_spec (ds : Py.dict (list DirFile.t))
  (acc : list Folder.t * list Folder.t) (k : string) (x : Folder.t) :
  (In x (fst (folder_step ds acc k)) <->
   In x (fst acc) \/ (6 <= depth_of k /\ x = folder_of ds k))
  /\ (In x (snd (folder_step ds acc k)) <->
      In x (snd acc)
      \/ (depth_of k <= 1 /\ 20 < List.length (Py.get_default ds k [])
          /\ x = folder_of ds k)).
Proof.
  unfold folder_step, folder_of.
  destruct (6 <=? depth_of k)%nat eqn:E6.
  - apply Nat.leb_le in E6. cbn [fst snd]. split.
    + rewrite in_app_iff. cbn [In]. split.
      * intros [H | [<- | []]]; [now left | right; now split].
      * intros [H | [_ ->]]; [now left | right; now left].
    + split; [now left | intros [H | [Hd _]]; [exact H | lia]].
  - apply Nat.leb_gt in E6.
    destruct ((depth_of k <=? 1)%nat
              && (20 <? List.length (Py.get_default ds k []))%nat) eqn:E1.
    + apply andb_true_iff in E1. destruct E1 as [E1 E20].
      apply Nat.leb_le in E1. apply Nat.ltb_lt in E20. cbn [fst snd]. split.
      * split; [now left | intros [H | [Hd _]]; [exact H | lia]].
      * rewrite in_app_iff. cbn [In]. split.
        -- intros [H | [<- | []]]; [now left | right; now repeat split].
        -- intros [H | [_ [_ ->]]]; [now left | right; now left].
    + apply andb_false_iff in E1. split.
      * split; [now left | intros [H | [Hd _]]; [exact H | lia]].
      * split; [now left|]. intros [H | [Hd [Hn _]]]; [exact H|].
        destruct E1 as [E1 | E1];
          [apply Nat.leb_gt in E1 | apply Nat.ltb_ge in E1]; lia.
Qed.

Lemma folder_fold (ds : Py.dict (list DirFile.t)) (ks : list string)
  (acc : list Folder.t * list Folder.t) (x : Folder.t) :
  (In x (fst (fold_left (folder_step ds) ks acc)) <->
   In x (fst acc)
   \/ exists p, In p ks /\ 6 <= depth_of p /\ x = folder_of ds p)
  /\ (In x (snd (fold_left (folder_step ds) ks acc)) <->
      In x (snd acc)
      \/ exists p, In p ks /\ depth_of p <= 1
                   /\ 20 < List.length (Py.get_default ds p [])
                   /\ x = folder_of ds p).
Proof.
  revert acc. induction ks as [|k ks IH]; intros acc; cbn [fold_left].
  - split; (split; [now left | intros [H | [p [[] _]]]; exact H]).
  - destruct (IH (folder_step ds acc k)) as [IH1 IH2].
    destruct (folder_step_spec ds acc k x) as [S1 S2].
    rewrite IH1, IH2, S1, S2. clear IH IH1 IH2 S1 S2.
    split; split.
    + intros [[H | H] | [p [Hp Hr]]].
      * now left.
      * right. exists k. split; [now left | exact H].
      * right. exists p. split; [now right | exact Hr].
    + intros [H | [p [[<- | Hp] Hr]]].
      * left. now left.
      * left. now right.
      * right. exists p. now split.
    + intros [[H | H] | [p [Hp Hr]]].
      * now left.
      * right. exists k. split; [now left | exact H].
      * right. exists p. split; [now right | exact Hr].
    + intros [H | [p [[<- | Hp] Hr]]].
      * left. now left.
      * left. now right.
      * right. exists p. now split.
Qed.

Lemma average_returns (ds : Py.dict (list DirFile.t)) :
  exists q, average_depth ds = inr q.
Proof.
  unfold average_depth. destruct ds as [|kv ds]; [now exists 0%Q|].
  eexists. apply PyFacts.truediv_returns, PyFacts.of_nat_nonzero.
  simpl. discriminate.
Qed.

Lemma analyze_depth_returns (ds : Py.dict (list DirFile.t)) :
  exists a, _analyze_depth ds = inr a.
Proof.
  unfold _analyze_depth.
  destruct (fold_left depth_step ds (0, [])) as [m dist].
  destruct (average_returns ds) as [q ->]. cbn [Py.bind].
  destruct (fold_left (folder_step ds) (Py.keys ds) ([], [])).
  eexists. reflexivity.
Qed.

(** C9.  [_analyze_depth] returns; the depth of a location is the number
    of ['/'] in its path relative to the scan root, so the root and the
    directories directly in it have depth 0; a location is in
    [deep_folders] exactly when its depth is at least 6 and in
    [shallow_folders] exactly when its depth is at most 1 and it holds more
    than 20 entries; [max_depth] is the greatest depth, and 0 over an empty
    structure. *)
Theorem structure_analysis (ds : Py.dict (list DirFile.t)) :
  exists a,
    _analyze_depth ds = inr a
    /\ (forall x, In x (DepthAnalysis.deep_folders a) <->
          exists p, In p (Py.keys ds) /\ 6 <= depth_of p
                    /\ x = Folder.mk p (depth_of p)
                             (List.length (Py.get_default ds p [])))
    /\ (forall x, In x (DepthAnalysis.shallow_folders a) <->
          exists p, In p (Py.keys ds) /\ depth_of p <= 1
                    /\ 20 < List.length (Py.get_default ds p [])
                    /\ x = Folder.mk p (depth_of p)
                             (List.length (Py.get_default ds p [])))
    /\ (forall p, In p (Py.keys ds) -> depth_of p <= DepthAnalysis.max_depth a)
    /\ (DepthAnalysis.max_depth a = 0
        \/ exists p, In p (Py.keys ds)
                     /\ depth_of p = DepthAnalysis.max_depth a)
    /\ (ds = [] -> DepthAnalysis.max_depth a = 0)
    /\ depth_of (current_dir_of []) = 0
    /\ (forall parts,
          Forall (fun p => Py.count_char "/"%char p = 0) parts ->
          depth_of (current_dir_of parts) = pred (List.length parts)).
Proof.
  unfold _analyze_depth.
  pose proof (depth_fold_max ds (0, [])) as Hmax.
  destruct (fold_left depth_step ds (0, [])) as [m dist] eqn:Efold.
  destruct (average_returns ds) as [q Hq]. rewrite Hq.
  pose proof (fun x => folder_fold ds (Py.keys ds) ([], []) x) as Hf.
  destruct (fold_left (folder_step ds) (Py.keys ds) ([], []))
    as [deep shallow] eqn:Efolders.
  eexists. split; [reflexivity|]. simpl in *.
  destruct Hmax as [_ [Hub Hwit]].
  split; [|split; [|split; [|split; [|split; [|split]]]]].
  - intros x. rewrite (proj1 (Hf x)). unfold folder_of. split.
    + intros [[] | H]; exact H.
    + intros H. now right.
  - intros x. rewrite (proj2 (Hf x)). unfold folder_of. split.
    + intros [[] | H]; exact H.
    + intros H. now right.
  - exact Hub.
  - exact Hwit.
  - intros ->. simpl in Efold. now injection Efold as <- _.
  - reflexivity.
  - intros [|p ps] H; [reflexivity|].
    change (current_dir_of (p :: ps)) with (Py.join "/" (p :: ps)).
    now apply depth_of_join.
Qed.

(** On [FsExamples.two_folders] the folder six separators down is too
    deep. *)
Lemma structure_analysis_witness :
  exists a,
    _analyze_depth FsExamples.two_folders = inr a
    /\ In (Folder.mk "a/b/c/d/e/f/g" 6 2) (DepthAnalysis.deep_folders a).
Proof.
  destruct (structure_analysis FsExamples.two_folders) as [a [Ha [Hdeep _]]].
  exists a. split; [exact Ha|].
  apply Hdeep. exists "a/b/c/d/e/f/g".
  split; [right; left; reflexivity|].
  split; [vm_compute; repeat constructor | reflexivity].
Defined.

(** The table [results['directories']] counts path components instead:
    on [Examples.deep_tree] it stores depth 7 for the folder the structure
    analysis puts at depth 6. *)
Example directories_depth_counts_components :
  option_map DirInfo.depth
    (Py.dict_get (directories Examples.deep_tree_scan) "a/b/c/d/e/f/g")
  = Some 7
  /\ option_map (fun a => map Folder.depth (DepthAnalysis.deep_folders a))
       (depth_analysis Examples.deep_tree_scan)
     = Some [6].
Proof. split; vm_compute; reflexivity. Qed.

End FsProps.

(** ** The drive scanner *)

Module CloudProps.
Import CloudScanner.

(** No category counts more files than there are. *)
Lemma analyze_file_count (r : Results) (x : DriveFile) (k : string) :
  Py.get_default (files_by_category r) k 0 <= total_files r ->
  Py.get_default (files_by_category (analyze_file r x)) k 0
  <= total_files (analyze_file r x).
Proof.
  intros H. unfold analyze_file.
  destruct (String.eqb (opt (mimeType x) "")
              "application/vnd.google-apps.folder"); simpl.
  - exact H.
  - rewrite PyFacts.get_default_add.
    destruct (String.eqb k (_categorize_drive_file x)) eqn:E.
    + apply String.eqb_eq in E. subst k. lia.
    + lia.
Qed.

Lemma analyze_files_count (xs : list DriveFile) (r : Results) (k : string) :
  Py.get_default (files_by_category r) k 0 <= total_files r ->
  Py.get_default (files_by_category (fold_left analyze_file xs r)) k 0
  <= total_files (fold_left analyze_file xs r).
Proof.
  revert r. induction xs as [|x xs IH]; intros r H; simpl; [exact H|].
  now apply IH, analyze_file_count.
Qed.

Lemma analyze_files_quota (xs : list DriveFile) (r : Results) :
  quota_info (fold_left analyze_file xs r) = quota_info r.
Proof.
  revert r. induction xs as [|x xs IH]; intros r; simpl; [reflexivity|].
  rewrite IH. unfold analyze_file.
  destruct (String.eqb (opt (mimeType x) "")
              "application/vnd.google-apps.folder"); reflexivity.
Qed.

(** The uncategorized-files rule does not raise on the counters a scan
    builds, and names its finding [many_uncategorized_files]. *)
Lemma uncategorized_issue_returns (r : Results) :
  Py.get_default (files_by_category r) "other" 0 <= total_files r ->
  exists l, uncategorized_issue r = inr l
            /\ (forall i, In i l ->
                          Issue.issue i = "many_uncategorized_files")
            /\ (total_files r = 0 -> l = []).
Proof.
  intros H. unfold uncategorized_issue.
  rewrite PyFacts.truediv_returns
    by (apply PyFacts.of_nat_nonzero;
        pose proof (Nat.le_max_r (total_files r) 1); lia).
  cbn [Py.bind].
  destruct (total_files r) as [|n] eqn:Et.
  - assert (E : Py.get_default (files_by_category r) "other" 0 = 0) by lia.
    rewrite E. exists []. repeat split; [intros i []].
  - destruct (Py.gt _ _).
    + rewrite PyFacts.truediv_returns
        by (apply PyFacts.of_nat_nonzero; lia).
      eexists. split; [reflexivity|]. split; [|discriminate].
      intros i [<- | []]. reflexivity.
    + exists []. split; [reflexivity|]. split; [intros i []|discriminate].
Qed.

Lemma in_when {A} (b : bool) (x y : A) : In y (when b x) <-> b = true /\ y = x.
Proof.
  destruct b; simpl; split.
  - intros [<- | []]. now split.
  - intros [_ ->]. now left.
  - intros [].
  - intros [H _]. discriminate.
Qed.

(** The findings of a scan that reached the service with a non-zero
    divisor for the quota percentage. *)
Lemma scan_with_quota (max_files : nat) (a : About) (l : Listing)
  (quota : StorageQuota) :
  storageQuota a = Some quota ->
  opt (limit quota) 1%Z <> 0%Z ->
  let pct := (inject_Z (opt (usage quota) 0%Z)
              / inject_Z (opt (limit quota) 1%Z) * 100)%Q in
  let r := scan_google_drive max_files (mkDrive (Some a) l) in
  exists unc,
    scan_complete r = Some true
    /\ error r = None
    /\ usage_percent_of r = pct
    /\ organization_issues r = (storage_issue r ++ unc ++ shared_issue r)%list
    /\ (forall i, In i unc -> Issue.issue i = "many_uncategorized_files")
    /\ (total_files r = 0 -> unc = []).
Proof.
  intros Hq Hl pct r. subst r pct.
  unfold scan_google_drive, try_block. cbn [Py.run_steps about listing].
  rewrite Hq. cbn [opt]. unfold quota_info_of.
  rewrite PyFacts.truediv_returns.
  2:{ intros H. apply Hl. unfold Qeq in H. simpl in H. lia. }
  cbn [Py.bind Py.ret Py.run_steps].
  set (r3 := fold_left analyze_file (list_files max_files 0 l []) _).
  assert (Hcount : Py.get_default (files_by_category r3) "other" 0
                   <= total_files r3).
  { apply analyze_files_count. apply Nat.le_refl. }
  assert (Hquota : usage_percent_of r3
                   = (inject_Z (opt (usage quota) 0%Z)
                      / inject_Z (opt (limit quota) 1%Z) * 100)%Q).
  { unfold usage_percent_of, r3. rewrite analyze_files_quota. reflexivity. }
  destruct (uncategorized_issue_returns r3 Hcount) as [unc [Hu [Hn Hz]]].
  unfold _detect_drive_issues. rewrite Hu. cbn [Py.bind Py.ret Py.run_steps].
  exists unc. repeat split; assumption.
Qed.



(** At exactly 80.0% it is not, and at 80.1% its severity is [high]. *)
Example storage_boundary :
  CloudExamples.has_issue "high_storage_usage"
    (organization_issues (scan_google_drive 1000 (CloudExamples.drive 80 100)))
  = false
  /\ map Issue.severity
       (organization_issues
          (scan_google_drive 1000 (CloudExamples.drive 801 1000)))
     = ["high"].
Proof. split; vm_compute; reflexivity. Qed.

(** C7 on the code.  When the quota reply carries the limit 0, computing
    the usage percentage raises [ZeroDivisionError]: the default divisor 1
    of [quota.get('limit', 1)] covers a missing limit only.  The scan is
    sealed as failed with that error and no rule is evaluated. *)
Theorem zero_quota_limit_raises (max_files : nat) (a : About) (l : Listing)
  (used used_in_drive : option Z) :
  storageQuota a = Some (mkStorageQuota (Some 0%Z) used used_in_drive) ->
  let r := scan_google_drive max_files (mkDrive (Some a) l) in
  error r = Some Py.ZeroDivisionError
  /\ scan_complete r = Some false
  /\ organization_issues r = []
  /\ quota_info r = None.
Proof.
  intros Hq r. subst r.
  unfold scan_google_drive, try_block. cbn [Py.run_steps about listing].
  rewrite Hq. repeat split; reflexivity.
Qed.

Lemma zero_quota_limit_raises_witness :
  error (scan_google_drive 1000 (CloudExamples.drive 0 0))
  = Some Py.ZeroDivisionError.
Proof.
  exact (proj1 (zero_quota_limit_raises 1000
           (CloudExamples.about_with
              (mkStorageQuota (Some 0%Z) (Some 0%Z) None))
           (LastPage [CloudExamples.pdf "contract.pdf";
                      CloudExamples.pdf "motion.pdf"])
           (Some 0%Z) None eq_refl)).
Defined.

(** A quota reply without a limit is recorded with [limit_bytes = 0],
    divided by the default 1, and reported as [high_storage_usage] from the
    first byte used. *)
Example missing_quota_limit_reports_usage :
  let r := scan_google_drive 1000 (CloudExamples.unlimited_drive 1) in
  option_map QuotaInfo.limit_bytes (quota_info r) = Some 0%Z
  /\ CloudExamples.has_issue "high_storage_usage" (organization_issues r)
     = true.
Proof. split; vm_compute; reflexivity. Qed.

(** With no file at all the uncategorized-files rule divides by
    [max(total_files, 1)] and reports nothing. *)
Lemma no_files_no_uncategorized_finding (max_files : nat) (a : About)
  (l : Listing) (quota : StorageQuota) :
  storageQuota a = Some quota ->
  opt (limit quota) 1%Z <> 0%Z ->
  let r := scan_google_drive max_files (mkDrive (Some a) l) in
  total_files r = 0 ->
  scan_complete r = Some true
  /\ forall i, In i (organization_issues r) ->
               Issue.issue i <> "many_uncategorized_files".
Proof.
  intros Hq Hl r Hz.
  destruct (scan_with_quota max_files a l quota Hq Hl) as [unc H].
  fold r in H. destruct H as [Hc [_ [_ [Hi [_ Hu]]]]].
  split; [exact Hc|]. rewrite Hi, (Hu Hz). simpl.
  intros i Hin. apply in_app_or in Hin. destruct Hin as [Hin | Hin].
  - unfold storage_issue in Hin. apply in_when in Hin.
    destruct Hin as [_ ->]. discriminate.
  - unfold shared_issue in Hin. apply in_when in Hin.
    destruct Hin as [_ ->]. discriminate.
Qed.

End CloudProps.

(** ** The questionnaire analyzer *)

Module AnalyzerProps.
Import Analyzer.

(** The step function of the score. *)
Lemma factors_spec (p : Q) :
  ((p < 40)%Q /\ factors p = (0.7, 0.6)%Q)
  \/ ((40 <= p)%Q /\ (p < 70)%Q /\ factors p = (0.4, 0.5)%Q)
  \/ ((70 <= p)%Q /\ factors p = (0.15, 0.4)%Q).
Proof.
  unfold factors.
  destruct (Py.lt p 40) eqn:E40.
  - left. apply PyFacts.lt_iff in E40. now split.
  - apply PyFacts.lt_false_iff in E40.
    destruct (Py.lt p 70) eqn:E70.
    + right. left. apply PyFacts.lt_iff in E70. now repeat split.
    + right. right. apply PyFacts.lt_false_iff in E70. now split.
Qed.

Lemma recommend_In (cp : Py.dict Q) (category : string) (data : Allocation)
  (r : TimeSavingRecommendation) :
  In r (recommend cp (category, data)) <->
  (0.5 < potential_savings data (percentage_of cp category))%Q
  /\ r = mkTimeSavingRecommendation
           (Py.get_default categories category "")
           (weekly data)
           (weekly data
            - potential_savings data (percentage_of cp category))%Q
           (potential_savings data (percentage_of cp category))
           (fst (difficulty_and_cost (percentage_of cp category)))
           (snd (difficulty_and_cost (percentage_of cp category)))
           (if Py.gt (potential_savings data (percentage_of cp category)) 2
            then "High" else "Medium")
           ("Optimize " ++ allocation_description data
            ++ " through automation and better systems")
           (_get_specific_actions category (percentage_of cp category)).
Proof.
  unfold recommend.
  destruct (Py.gt (potential_savings data (percentage_of cp category)) 0.5)
    eqn:E.
  - apply PyFacts.gt_iff in E. simpl. split.
    + intros [<- | []]. now split.
    + intros [_ ->]. now left.
  - apply PyFacts.gt_false_iff in E. simpl. split; [intros []|].
    intros [H _]. apply Qlt_not_le in H. contradiction.
Qed.



(** The whole output for those scores, savings in lowest terms: billing
    (score 80, 4 x 0.15 x 0.4 = 0.24 hours) is dropped. *)
Example time_savings_of_scores :
  map (fun r => (area r, Qred (time_savings r)))
      (_calculate_time_savings AnalyzerExamples.scores)
  = [ ("Document Drafting & Templates", (126 # 25)%Q);
      ("Client Intake & Management", (8 # 5)%Q);
      ("Case & Deadline Management", (6 # 5)%Q);
      ("Administrative Tasks", (3 # 5)%Q) ].
Proof. vm_compute. reflexivity. Qed.

End AnalyzerProps.

(** ** The file scan never raises *)

Module FsTotality.
Import FsAnalyzer.

Lemma to_percentage_returns (count total_sample : nat) :
  total_sample <> 0 ->
  to_percentage count total_sample
  = inr (Py.of_nat count / Py.of_nat total_sample * 100)%Q.
Proof.
  intros H. unfold to_percentage.
  rewrite PyFacts.truediv_returns by now apply PyFacts.of_nat_nonzero.
  reflexivity.
Qed.

(** The sample size the percentages are divided by is never 0. *)
Lemma naming_patterns_return (file_paths : list FileInfo.t) :
  exists n, _analyze_naming_patterns file_paths = inr n.
Proof.
  unfold _analyze_naming_patterns.
  set (sample := firstn 200 file_paths).
  assert (H : match sample with
              | [] => 1
              | _ :: _ => List.length sample
              end <> 0) by (destruct sample; simpl; discriminate).
  rewrite !(to_percentage_returns _ _ H). cbn [Py.bind Py.ret].
  eexists. reflexivity.
Qed.

Lemma uncategorized_check_returns (uncategorized total_files : nat) :
  exists o, uncategorized_check uncategorized total_files = inr o.
Proof.
  unfold uncategorized_check.
  destruct (0 <? total_files)%nat eqn:E; [|eexists; reflexivity].
  apply Nat.ltb_lt in E.
  rewrite !PyFacts.truediv_returns by (apply PyFacts.of_nat_nonzero; lia).
  cbn [Py.bind]. destruct (Py.gt _ _); eexists; reflexivity.
Qed.

Lemma recommendations_return (r : Results) :
  exists recs, _generate_file_recommendations r = inr recs.
Proof.
  unfold _generate_file_recommendations.
  destruct (uncategorized_check_returns
              (Py.get_default (files_by_category r) "other" 0)
              (total_files r)) as [o ->].
  eexists. reflexivity.
Qed.

(** The [try] block of [scan_filesystem] runs to its end on every walk:
    the report is sealed complete, and its duplicate groups and entries are
    those of the state the walk leaves. *)
Theorem scan_filesystem_completes (md5 : string -> string)
  (scan_path : string) (max_files : nat) (ws : list WalkEntry) :
  let stw := walk md5 max_files ws (mkState (initial_results scan_path) 0 [] []) in
  let r := scan_filesystem md5 scan_path max_files ws in
  scan_complete r = Some true
  /\ error r = None
  /\ duplicates r = analyze_duplicates (file_hashes stw)
  /\ file_paths r = file_paths (results stw).
Proof.
  intros stw r. subst r. unfold scan_filesystem, try_block.
  cbn [Py.run_steps Py.ret]. fold stw.
  cbn [on_results dir_structure file_hashes results file_count].
  destruct (FsProps.analyze_depth_returns (dir_structure stw)) as [d ->].
  cbn [Py.run_steps Py.ret Py.bind on_results dir_structure file_hashes
       results file_count].
  destruct (naming_patterns_return
              (file_paths (set_depth_analysis d
                 (set_duplicates (analyze_duplicates (file_hashes stw))
                    (results stw))))) as [n ->].
  cbn [Py.run_steps Py.ret Py.bind on_results dir_structure file_hashes
       results file_count].
  match goal with
  | |- context [_generate_file_recommendations ?x] =>
      destruct (recommendations_return x) as [recs ->]
  end.
  cbn [Py.run_steps Py.ret Py.bind on_results dir_structure file_hashes
       results file_count].
  repeat split.
Qed.

End FsTotality.

(** ** Duplicate detection *)

Module DuplicateProps.
Import FsAnalyzer.

Section WithHash.
Variable md5 : string -> string.

Lemma record_file_hashes (cd root : string) (f : FileEntry) (sz : Z)
  (st : State) :
  file_hashes (record_file md5 cd root f sz st)
  = add_hash md5 (file_hashes st)
      (Entry.mk (Py.path_join root (filename f)) sz f).
Proof.
  unfold record_file, add_hash, fingerprint, stored.
  cbn [file_hashes Entry.size Entry.file Entry.path].
  destruct (1024 <? sz)%Z; [|reflexivity].
  destruct (_get_file_hash md5 f) as [h|]; [|reflexivity].
  destruct (String.eqb h ""); reflexivity.
Qed.

Lemma scan_files_spec (max_files : nat) (cd root : string)
  (fs : list FileEntry) (st : State) :
  let es := recorded_files max_files root fs (file_count st) in
  let st' := scan_files md5 max_files cd root fs st in
  file_count st' = file_count st + List.length es
  /\ file_hashes st' = fold_left (add_hash md5) es (file_hashes st)
  /\ map listed (file_paths (results st'))
     = (map listed (file_paths (results st)) ++ map stored es)%list.
Proof.
  revert st. induction fs as [|f rest IH]; intros st; cbn [scan_files recorded_files].
  - cbn [List.length map fold_left]. rewrite app_nil_r. repeat split. lia.
  - destruct (max_files <=? file_count st)%nat.
    + cbn [List.length map fold_left]. rewrite app_nil_r. repeat split. lia.
    + destruct (existsb (Py.endswith (filename f)) excluded_extensions);
        [apply IH|].
      destruct (st_size f) as [sz|]; [|apply IH].
      specialize (IH (record_file md5 cd root f sz st)).
      cbn zeta in IH.
      replace (file_count (record_file md5 cd root f sz st))
        with (S (file_count st)) in IH by reflexivity.
      destruct IH as [IH1 [IH2 IH3]].
      cbn [List.length map fold_left]. split; [lia|]. split.
      * rewrite IH2, record_file_hashes. reflexivity.
      * rewrite IH3.
        replace (file_paths (results (record_file md5 cd root f sz st)))
          with (file_paths (results st)
                ++ [FileInfo.mk (Py.path_join root (filename f)) sz
                      (_categorize_file (Py.path_join root (filename f)))
                      (Py.lower (Py.path_suffix
                                   (Py.path_join root (filename f))))
                      cd])%list by reflexivity.
        rewrite map_app, <- app_assoc. reflexivity.
Qed.

Lemma scan_files_scan_path (max_files : nat) (cd root : string)
  (fs : list FileEntry) (st : State) :
  FsAnalyzer.scan_path (results (scan_files md5 max_files cd root fs st))
  = FsAnalyzer.scan_path (results st).
Proof.
  revert st. induction fs as [|f fs IH]; intros st; cbn [scan_files];
    [reflexivity|].
  destruct (max_files <=? file_count st)%nat; [reflexivity|].
  destruct (existsb _ _); [apply IH|].
  destruct (st_size f); [|apply IH]. rewrite IH. reflexivity.
Qed.

Lemma register_dir_keeps (st : State) (w : WalkEntry) :
  file_count (register_dir st w) = file_count st
  /\ file_hashes (register_dir st w) = file_hashes st
  /\ file_paths (results (register_dir st w)) = file_paths (results st)
  /\ FsAnalyzer.scan_path (results (register_dir st w))
     = FsAnalyzer.scan_path (results st).
Proof.
  unfold register_dir. destruct (files w); repeat split.
Qed.

Lemma walk_spec (max_files : nat) (scan_path : string)
  (ws : list WalkEntry) (st : State) :
  scan_path = FsAnalyzer.scan_path (results st) ->
  let es := recorded max_files scan_path ws (file_count st) in
  let st' := walk md5 max_files ws st in
  file_hashes st' = fold_left (add_hash md5) es (file_hashes st)
  /\ map listed (file_paths (results st'))
     = (map listed (file_paths (results st)) ++ map stored es)%list.
Proof.
  unfold walk. revert st. induction ws as [|w ws IH]; intros st Hp;
    cbn [fold_left recorded].
  - cbn [map fold_left]. now rewrite app_nil_r.
  - destruct (register_dir_keeps st w) as [Hc [Hh [Hf Hs]]].
    pose proof (scan_files_spec max_files (current_dir_of (rel_parts w))
                  (root_of (FsAnalyzer.scan_path (results st)) (rel_parts w))
                  (files w) (register_dir st w)) as Hfiles.
    cbn zeta in Hfiles. rewrite Hc, Hh, Hf in Hfiles.
    destruct Hfiles as [F1 [F2 F3]].
    fold (scan_dir md5 max_files st w) in F1, F2, F3.
    assert (Hsp : scan_path
                  = FsAnalyzer.scan_path (results (scan_dir md5 max_files st w))).
    { unfold scan_dir. rewrite scan_files_scan_path, Hs. exact Hp. }
    specialize (IH (scan_dir md5 max_files st w) Hsp).
    cbn zeta in IH. destruct IH as [IH1 IH2].
    rewrite F1 in IH1, IH2. rewrite <- Hp in *.
    split.
    + rewrite IH1, F2, fold_left_app. reflexivity.
    + rewrite IH2, F3, map_app, app_assoc. reflexivity.
Qed.

(** *** The buckets of [file_hashes] *)

Lemma members_app (h : string) (a b : list Entry.t) :
  members md5 h (a ++ b) = (members md5 h a ++ members md5 h b)%list.
Proof. apply filter_app. Qed.

Lemma bucket_of_default (h : string) (es : list Entry.t) :
  match bucket_of md5 h es with
  | Some b => b
  | None => []
  end = map stored (members md5 h es).
Proof.
  unfold bucket_of. now destruct (members md5 h es).
Qed.

Lemma add_hash_holds (d : Py.dict (list (string * Z))) (pre : list Entry.t)
  (e : Entry.t) :
  buckets_hold md5 d pre -> buckets_hold md5 (add_hash md5 d e) (pre ++ [e]).
Proof.
  intros [Hnd Hget]. unfold add_hash.
  destruct (fingerprint md5 e) as [h0|] eqn:Ef.
  - split; [now apply PyFacts.dict_set_NoDup|].
    intros h. rewrite PyFacts.dict_get_set.
    unfold bucket_of at 1. rewrite members_app.
    cbn [members filter]. unfold has_fingerprint. rewrite Ef.
    rewrite (String.eqb_sym h0 h).
    destruct (String.eqb h h0) eqn:E.
    + apply String.eqb_eq in E. subst h0.
      unfold Py.get_default. rewrite Hget, bucket_of_default.
      destruct (members md5 h pre); cbn [app map];
        [reflexivity|]. now rewrite map_app.
    + rewrite app_nil_r. apply Hget.
  - split; [exact Hnd|]. intros h. rewrite Hget.
    unfold bucket_of. rewrite members_app.
    cbn [members filter]. unfold has_fingerprint. rewrite Ef.
    now rewrite app_nil_r.
Qed.

Lemma fold_add_hash_holds (es pre : list Entry.t)
  (d : Py.dict (list (string * Z))) :
  buckets_hold md5 d pre ->
  buckets_hold md5 (fold_left (add_hash md5) es d) (pre ++ es).
Proof.
  revert pre d. induction es as [|e es IH]; intros pre d H; cbn [fold_left].
  - now rewrite app_nil_r.
  - replace (pre ++ e :: es)%list with ((pre ++ [e]) ++ es)%list
      by (now rewrite <- app_assoc).
    now apply IH, add_hash_holds.
Qed.

Lemma buckets_of_entries (es : list Entry.t) :
  buckets_hold md5 (fold_left (add_hash md5) es []) es.
Proof.
  apply (fold_add_hash_holds es [] []). split; [constructor | reflexivity].
Qed.

(** The groups emitted for a dictionary whose buckets are the members. *)
Lemma groups_of_buckets (es : list Entry.t)
  (d : Py.dict (list (string * Z))) :
  (forall h b, In (h, b) d -> b = map stored (members md5 h es)) ->
  flat_map duplicate_group d
  = map (fun h => group_of h (members md5 h es))
      (filter (fun h => (1 <? List.length (members md5 h es))%nat)
         (Py.keys d)).
Proof.
  induction d as [|[h b] d IH]; intros H; [reflexivity|].
  cbn [flat_map Py.keys map filter fst].
  rewrite IH by (intros h' b' Hin; apply H; now right).
  rewrite (H h b (or_introl eq_refl)).
  unfold duplicate_group. rewrite length_map.
  destruct (1 <? List.length (members md5 h es))%nat; [|reflexivity].
  cbn [app map]. f_equal. unfold group_of. f_equal.
  - f_equal. destruct (members md5 h es); [reflexivity|].
    cbn [map tl]. rewrite map_map. reflexivity.
  - rewrite firstn_map, map_map. reflexivity.
Qed.

(** The groups of the entries [es]: one for every fingerprint with at least
    two members, and no other. *)
Lemma analyze_duplicates_spec (es : list Entry.t) :
  exists hs,
    NoDup hs
    /\ (forall h, In h hs <-> 2 <= List.length (members md5 h es))
    /\ analyze_duplicates (fold_left (add_hash md5) es [])
       = map (fun h => group_of h (members md5 h es)) hs.
Proof.
  destruct (buckets_of_entries es) as [Hnd Hget].
  set (d := fold_left (add_hash md5) es []) in *.
  exists (filter (fun h => (1 <? List.length (members md5 h es))%nat)
            (Py.keys d)).
  split; [now apply NoDup_filter|]. split.
  - intros h. rewrite filter_In, Nat.ltb_lt. split; [intros [_ H]; lia|].
    intros H. split; [|lia].
    destruct (in_dec string_dec h (Py.keys d)) as [Hin | Hin]; [exact Hin|].
    apply PyFacts.dict_get_None_iff in Hin. rewrite Hget in Hin.
    unfold bucket_of in Hin.
    destruct (members md5 h es); [simpl in H; lia | discriminate].
  - unfold analyze_duplicates. apply groups_of_buckets.
    intros h b Hin. apply (PyFacts.dict_get_In d h b Hnd) in Hin.
    rewrite Hget in Hin. rewrite <- bucket_of_default. now rewrite Hin.
Qed.

(** *** Members *)

Lemma fingerprint_size (e : Entry.t) (h : string) :
  fingerprint md5 e = Some h -> (1024 < Entry.size e)%Z.
Proof.
  unfold fingerprint. destruct (1024 <? Entry.size e)%Z eqn:E; [|discriminate].
  intros _. now apply Z.ltb_lt.
Qed.

Lemma members_In (h : string) (es : list Entry.t) (e : Entry.t) :
  In e (members md5 h es) <-> In e es /\ fingerprint md5 e = Some h.
Proof.
  unfold members. rewrite filter_In. unfold has_fingerprint.
  destruct (fingerprint md5 e) as [h'|]; split; intros [H1 H2];
    (split; [exact H1|]); try discriminate.
  - apply String.eqb_eq in H2. now subst.
  - injection H2 as ->. apply String.eqb_refl.
Qed.

Lemma members_count (h : string) (es : list Entry.t) :
  List.length (members md5 h es) = count_occ string_dec (fingerprints md5 es) h.
Proof.
  unfold members, fingerprints, has_fingerprint.
  induction es as [|e es IH]; [reflexivity|].
  cbn [filter flat_map]. rewrite count_occ_app, <- IH.
  destruct (fingerprint md5 e) as [h'|]; [|reflexivity].
  cbn [count_occ]. destruct (string_dec h' h) as [-> | Hne].
  - now rewrite String.eqb_refl.
  - apply String.eqb_neq in Hne. now rewrite Hne.
Qed.

(** C8 (as amended).  With [es] the entries of the scan, in scan order:
    the groups are, one to one, the fingerprints that at least two entries
    have; the group of a fingerprint counts all its members, lists the
    paths of the first five, and gives as wasted bytes the sizes of all its
    members but the first.  So every group counts and lists at least two
    entries; a listed path is the path of an entry above 1024 bytes, and an
    entry of at most 1024 bytes is a member of no group; two entries above
    1024 bytes with the same readable content are members of the same
    fingerprint; and when no two entries share a fingerprint there is no
    group. *)
Theorem duplicate_groups (scan_path : string) (max_files : nat)
  (ws : list WalkEntry) :
  let r := scan_filesystem md5 scan_path max_files ws in
  let es := recorded max_files scan_path ws 0 in
  map listed (file_paths r) = map stored es
  /\ (exists hs,
         NoDup hs
         /\ (forall h, In h hs <-> 2 <= List.length (members md5 h es))
         /\ duplicates r = map (fun h => group_of h (members md5 h es)) hs)
  /\ (forall g, In g (duplicates r) ->
                2 <= DuplicateGroup.file_count g
                /\ 2 <= List.length (DuplicateGroup.paths g) <= 5)
  /\ (forall g p, In g (duplicates r) -> In p (DuplicateGroup.paths g) ->
                  exists e, In e es /\ Entry.path e = p
                            /\ (1024 < Entry.size e)%Z)
  /\ (forall e h, In e es -> (Entry.size e <= 1024)%Z ->
                  ~ In e (members md5 h es))
  /\ (forall e1 e2 c,
         In e1 es -> In e2 es ->
         content (Entry.file e1) = Some c ->
         content (Entry.file e2) = Some c ->
         (1024 < Entry.size e1)%Z -> (1024 < Entry.size e2)%Z ->
         md5 c <> "" ->
         In e1 (members md5 (md5 c) es) /\ In e2 (members md5 (md5 c) es))
  /\ (NoDup (fingerprints md5 es) -> duplicates r = []).
Proof.
  intros r es.
  destruct (FsTotality.scan_filesystem_completes md5 scan_path max_files ws)
    as [_ [_ [Hdup Hpaths]]].
  fold r in Hdup, Hpaths.
  destruct (walk_spec max_files scan_path ws
              (mkState (initial_results scan_path) 0 [] []) eq_refl)
    as [Hh Hf].
  cbn [file_count file_hashes results initial_results file_paths map app]
    in Hh, Hf. fold es in Hh, Hf.
  rewrite Hh in Hdup. rewrite <- Hpaths in Hf.
  destruct (analyze_duplicates_spec es) as [hs [Hnd [Hhs Hgroups]]].
  rewrite Hgroups in Hdup.
  assert (Hgroup : forall g, In g (duplicates r) ->
            exists h, 2 <= List.length (members md5 h es)
                      /\ g = group_of h (members md5 h es)).
  { intros g Hg. rewrite Hdup in Hg. apply in_map_iff in Hg.
    destruct Hg as [h [<- Hin]]. exists h. split; [now apply Hhs | reflexivity]. }
  split; [exact Hf|].
  split; [exists hs; split; [exact Hnd | split; [exact Hhs | exact Hdup]]|].
  split; [|split; [|split; [|split]]].
  - intros g Hg. destruct (Hgroup g Hg) as [h [Hlen ->]].
    unfold group_of. cbn [DuplicateGroup.file_count DuplicateGroup.paths].
    rewrite length_map, length_firstn. lia.
  - intros g p Hg Hp. destruct (Hgroup g Hg) as [h [_ ->]].
    unfold group_of in Hp. cbn [DuplicateGroup.paths] in Hp.
    apply in_map_iff in Hp. destruct Hp as [e [<- He]].
    apply PyFacts.In_firstn, members_In in He. destruct He as [He Hfp].
    exists e. split; [exact He|]. split; [reflexivity|].
    now apply fingerprint_size with (h := h).
  - intros e h _ Hsmall Hin. apply members_In in Hin.
    destruct Hin as [_ Hfp]. apply fingerprint_size in Hfp. lia.
  - intros e1 e2 c H1 H2 Hc1 Hc2 Hs1 Hs2 Hne.
    assert (Hfp : forall e, content (Entry.file e) = Some c ->
                            (1024 < Entry.size e)%Z ->
                            fingerprint md5 e = Some (md5 c)).
    { intros e Hc Hs. unfold fingerprint, _get_file_hash.
      apply Z.ltb_lt in Hs. rewrite Hs, Hc. cbn [option_map].
      apply String.eqb_neq in Hne. now rewrite Hne. }
    split; apply members_In; auto.
  - intros Hdistinct. rewrite Hdup.
    destruct hs as [|h hs']; [reflexivity|]. exfalso.
    assert (H2 : 2 <= List.length (members md5 h es))
      by (apply Hhs; now left).
    rewrite members_count in H2.
    pose proof (proj1 (NoDup_count_occ string_dec (fingerprints md5 es))
                  Hdistinct h). lia.
Qed.

End WithHash.

(** On [DuplicateExamples.six_copies] the one group counts six entries. *)
Lemma duplicate_groups_witness :
  exists g,
    In g (duplicates
            (scan_filesystem Examples.digest "/home/u/Documents" 1000
               DuplicateExamples.six_copies))
    /\ 2 <= DuplicateGroup.file_count g.
Proof.
  destruct (duplicate_groups Examples.digest "/home/u/Documents" 1000
              DuplicateExamples.six_copies) as [_ [_ [H _]]].
  exists (DuplicateGroup.mk "md5:same bytes" 6 10000
            ["/home/u/Documents/copy1.pdf"; "/home/u/Documents/copy2.pdf";
             "/home/u/Documents/copy3.pdf"; "/home/u/Documents/copy4.pdf";
             "/home/u/Documents/copy5.pdf"]).
  assert (Hin : In (DuplicateGroup.mk "md5:same bytes" 6 10000
            ["/home/u/Documents/copy1.pdf"; "/home/u/Documents/copy2.pdf";
             "/home/u/Documents/copy3.pdf"; "/home/u/Documents/copy4.pdf";
             "/home/u/Documents/copy5.pdf"])
         (duplicates
            (scan_filesystem Examples.digest "/home/u/Documents" 1000
               DuplicateExamples.six_copies)))
    by (vm_compute; left; reflexivity).
  split; [exact Hin | exact (proj1 (H _ Hin))].
Defined.

(** As the specification words it, C8 fails on six copies of one file: the
    sixth copy, 2000 bytes of the same content, is in the list of entries
    but its path is in no group, and the wasted bytes (10000) are those of
    five copies while the group lists five. *)
Lemma sixth_copy_in_no_group :
  let r := DuplicateExamples.six_copies_scan in
  map DuplicateGroup.total_size_bytes (duplicates r) = [10000%Z]
  /\ map (fun g => List.length (DuplicateGroup.paths g)) (duplicates r) = [5]
  /\ ~ (forall fi, In fi (file_paths r) -> (1024 < FileInfo.size fi)%Z ->
          exists g, In g (duplicates r)
                    /\ In (FileInfo.path fi) (DuplicateGroup.paths g)).
Proof.
  split; [vm_compute; reflexivity|]. split; [vm_compute; reflexivity|].
  intros H.
  destruct (H (FileInfo.mk "/home/u/Documents/copy6.pdf" 2000 "documents"
                 ".pdf" "root")) as [g [Hg Hp]].
  - vm_compute. do 5 right. left. reflexivity.
  - reflexivity.
  - vm_compute in Hg. destruct Hg as [<- | []].
    vm_compute in Hp.
    repeat (destruct Hp as [Hp | Hp]; [discriminate|]). exact Hp.
Qed.

End DuplicateProps.

(* ================================================================== *)
(** * Further properties of the modelled code *)
(* ================================================================== *)

(** ** Consolidation, labels and status of a coordinator run *)

Module CoordinatorMore.
Import Coordinator CoordinatorFacts CoordinatorSpec.

Lemma fold_add_issue_buckets (l : list CombinedIssue.t) (c : Consolidated) :
  fold_left add_issue l c
  = mkConsolidated
      (critical_issues c ++ filter is_critical l)
      (high_priority_issues c ++ filter is_high l)
      (medium_priority_issues c ++ filter is_medium l)
      (low_priority_issues c ++ filter is_low l)
      (opportunities c) (security_concerns c).
Proof.
  revert c. induction l as [|ci l IH]; intros c; cbn [fold_left filter].
  - rewrite !app_nil_r. now destruct c.
  - rewrite IH. unfold add_issue, is_low, is_critical, is_high, is_medium.
    destruct (String.eqb (CombinedIssue.severity ci) "critical") eqn:E1.
    + apply String.eqb_eq in E1. rewrite E1. cbn.
      now rewrite <- app_assoc.
    + destruct (String.eqb (CombinedIssue.severity ci) "high") eqn:E2.
      * apply String.eqb_eq in E2. rewrite E2. cbn.
        now rewrite <- app_assoc.
      * destruct (String.eqb (CombinedIssue.severity ci) "medium") eqn:E3;
          cbn; now rewrite <- app_assoc.
Qed.

Lemma consolidate_modules_fold (ms : list (option Report.t))
  (c : Consolidated) :
  fold_left consolidate_module ms c
  = fold_left add_issue (all_combined ms) c.
Proof.
  revert c. induction ms as [|m ms IH]; intros c; [reflexivity|].
  cbn [fold_left all_combined flat_map]. rewrite fold_left_app, IH.
  f_equal. destruct m as [r|]; [|reflexivity].
  cbn [consolidate_module combined_of].
  now destruct (Report.scan_complete r).
Qed.

Lemma combined_of_tag_module (m : option Report.t) :
  combined_of (tag_module m) = combined_of m.
Proof.
  destruct m as [r|]; [|reflexivity]. cbn [tag_module].
  destruct (Report.scan_complete r) eqn:E; cbn [combined_of];
    rewrite ?E; reflexivity.
Qed.

Lemma consolidated_buckets (ms : list (option Report.t)) :
  fold_left consolidate_module ms empty_consolidated
  = mkConsolidated
      (filter is_critical (all_combined ms))
      (filter is_high (all_combined ms))
      (filter is_medium (all_combined ms))
      (filter is_low (all_combined ms)) [] [].
Proof.
  rewrite consolidate_modules_fold, fold_add_issue_buckets. reflexivity.
Qed.

Lemma severity_classes_length (l : list CombinedIssue.t) :
  List.length (filter is_critical l) + List.length (filter is_high l)
  + List.length (filter is_medium l) + List.length (filter is_low l)
  = List.length l.
Proof.
  induction l as [|ci l IH]; [reflexivity|]. cbn [filter].
  change (is_low ci)
    with (negb (is_critical ci || is_high ci || is_medium ci)).
  destruct (is_critical ci) eqn:E1, (is_high ci) eqn:E2,
    (is_medium ci) eqn:E3; cbn [negb orb List.length]; try lia;
    exfalso; unfold is_critical, is_high, is_medium in *;
    repeat match goal with
           | H : String.eqb _ _ = true |- _ => apply String.eqb_eq in H
           end; congruence.
Qed.

(** Consolidation partitions the findings of the complete reports: each of
    the four severity buckets holds, in scanner order, the findings whose
    severity is its own, the low bucket also every finding whose severity
    is none of critical, high, medium; the buckets [opportunities] and
    [security_concerns] stay empty; and the four buckets together have as
    many findings as the complete reports. *)
Theorem consolidation_partitions_findings (e : Env) (ln le : string)
  (f g d : bool) :
  let r := run_full_analysis e ln le f g d in
  let found := all_combined (modules r) in
  exists c,
    consolidated_findings r = Some c
    /\ critical_issues c = filter is_critical found
    /\ high_priority_issues c = filter is_high found
    /\ medium_priority_issues c = filter is_medium found
    /\ low_priority_issues c = filter is_low found
    /\ opportunities c = []
    /\ security_concerns c = []
    /\ List.length (critical_issues c) + List.length (high_priority_issues c)
       + List.length (medium_priority_issues c)
       + List.length (low_priority_issues c)
       = List.length found.
Proof.
  intros r found. subst r found. rewrite run_modules, run_consolidated.
  eexists. split; [reflexivity|].
  rewrite consolidated_buckets.
  assert (E : all_combined
                (map tag_module
                   [email_slot e g; filesystem_slot e f; cloud_slot e d])
              = all_combined
                  [email_slot e g; filesystem_slot e f; cloud_slot e d]).
  { unfold all_combined. cbn [map flat_map].
    now rewrite !combined_of_tag_module. }
  rewrite E. cbn [critical_issues high_priority_issues
                  medium_priority_issues low_priority_issues opportunities
                  security_concerns].
  repeat split. apply severity_classes_length.
Qed.

(** When no scanner delivers a complete report (each was skipped, could
    not authenticate, or sealed its report as failed) the run still returns
    a result: empty buckets, an empty recommendation list and zero
    totals. *)
Theorem nothing_usable_gives_empty_result (e : Env) (ln le : string)
  (f g d : bool) :
  usable (email_slot e g) = false ->
  usable (filesystem_slot e f) = false ->
  usable (cloud_slot e d) = false ->
  let r := run_full_analysis e ln le f g d in
  consolidated_findings r = Some empty_consolidated
  /\ prioritized_recommendations r = Some []
  /\ total_recommendations (scan_summary r) = 0
  /\ total_time_savings_estimate (scan_summary r) = 0%Q
  /\ total_findings (scan_summary r) = 0.
Proof.
  intros H1 H2 H3 r. subst r.
  assert (Hc : forall m, usable m = false -> consolidate_module
                 empty_consolidated m = empty_consolidated
               /\ tagged_recs m = []).
  { intros [rep|] H; [|now split]. cbn in H. cbn. rewrite H. now split. }
  assert (Hrecs : prioritized_recommendations
                    (run_full_analysis e ln le f g d) = Some []).
  { rewrite run_prioritized. cbn [flat_map].
    rewrite (proj2 (Hc _ H1)), (proj2 (Hc _ H2)), (proj2 (Hc _ H3)).
    reflexivity. }
  split.
  - rewrite run_consolidated. cbn [fold_left].
    rewrite (proj1 (Hc _ H1)), (proj1 (Hc _ H2)), (proj1 (Hc _ H3)).
    reflexivity.
  - split; [exact Hrecs|].
    destruct (run_totals e ln le f g d [] Hrecs) as [Ht Hn].
    rewrite Ht, Hn. repeat split.
Qed.

Lemma nothing_usable_gives_empty_result_witness :
  usable (email_slot Examples.partial_env true) = false
  /\ prioritized_recommendations
       (run_full_analysis Examples.partial_env "A. Lawyer" "a@law.example"
          false true true) = Some [].
Proof.
  assert (H1 : usable (email_slot Examples.partial_env true) = false)
    by reflexivity.
  split; [exact H1|].
  exact (proj1 (proj2 (nothing_usable_gives_empty_result Examples.partial_env
    "A. Lawyer" "a@law.example" false true true H1 eq_refl eq_refl))).
Defined.

Lemma status_complete_iff (ms : list (option Report.t)) :
  forallb usable (filter present ms) = true
  <-> forall rep, In (Some rep) ms -> Report.scan_complete rep = true.
Proof.
  rewrite forallb_forall. split.
  - intros H rep Hin. apply (H (Some rep)).
    apply filter_In. now split.
  - intros H m Hm. apply filter_In in Hm. destruct Hm as [Hin Hp].
    destruct m as [rep|]; [|discriminate]. now apply H.
Qed.

(** The status line of [get_summary] reads Complete exactly when every
    report that was stored is sealed complete; scanners that were skipped
    or could not authenticate do not count, so after a run in which no
    scanner ran at all the status is Complete. *)
Theorem summary_status_after_run (e : Env) (ln le : string) (f g d : bool) :
  let r := run_full_analysis e ln le f g d in
  (status_complete r = true
   <-> forall rep, In (Some rep) (modules r) ->
                   Report.scan_complete rep = true)
  /\ (modules_scanned (scan_summary r) = [] -> status_complete r = true).
Proof.
  intros r. subst r. split; [apply status_complete_iff|].
  rewrite run_modules_scanned. unfold status_complete.
  rewrite run_modules. unfold email_slot, filesystem_slot, cloud_slot.
  destruct (g && gmail_auth e), (f && docs_path_exists e),
    (d && drive_auth e); cbn; try discriminate. reflexivity.
Qed.

Lemma summary_status_after_run_witness :
  modules_scanned
    (scan_summary
       (run_full_analysis Examples.partial_env "A. Lawyer" "a@law.example"
          false false false)) = []
  /\ status_complete
       (run_full_analysis Examples.partial_env "A. Lawyer" "a@law.example"
          false false false) = true.
Proof.
  assert (H : modules_scanned
                (scan_summary
                   (run_full_analysis Examples.partial_env "A. Lawyer"
                      "a@law.example" false false false)) = [])
    by reflexivity.
  split; [exact H|].
  destruct (summary_status_after_run Examples.partial_env "A. Lawyer"
              "a@law.example" false false false) as [_ Himp].
  exact (Himp H).
Defined.

End CoordinatorMore.

(** ** What a file scan counts *)

Module FsMore.
Import FsAnalyzer FsSpec ReportSpec.



Section WithHash.
Variable md5 : string -> string.

(** The whole [results] after the [try] block, in terms of the state the
    walk leaves: the analyses return, and the findings and recommendations
    are those of the sealed dictionary itself. *)
Lemma scan_filesystem_shape (scan_path : string) (max_files : nat)
  (ws : list WalkEntry) :
  let stw := walk md5 max_files ws
               (mkState (initial_results scan_path) 0 [] []) in
  let r := scan_filesystem md5 scan_path max_files ws in
  exists d n,
    _analyze_depth (dir_structure stw) = inr d
    /\ _analyze_naming_patterns (file_paths (results stw)) = inr n
    /\ depth_analysis r = Some d
    /\ naming_patterns r = Some n
    /\ organization_issues r = _detect_organization_issues r
    /\ _generate_file_recommendations r = inr (recommendations r)
    /\ total_files r = total_files (results stw)
    /\ total_dirs r = total_dirs (results stw)
    /\ total_size_bytes r = total_size_bytes (results stw)
    /\ files_by_category r = files_by_category (results stw)
    /\ size_by_category r = size_by_category (results stw)
    /\ directories r = directories (results stw)
    /\ file_paths r = file_paths (results stw).
Proof.
  intros stw r. subst r. unfold scan_filesystem, try_block.
  cbn [Py.run_steps Py.ret]. fold stw.
  cbn [on_results dir_structure file_hashes results file_count].
  destruct (FsProps.analyze_depth_returns (dir_structure stw)) as [d Hd].
  rewrite Hd.
  cbn [Py.run_steps Py.ret Py.bind on_results dir_structure file_hashes
       results file_count].
  destruct (FsTotality.naming_patterns_return (file_paths (results stw)))
    as [n Hn].
  change (file_paths (set_depth_analysis d
            (set_duplicates (analyze_duplicates (file_hashes stw))
               (results stw))))
    with (file_paths (results stw)).
  rewrite Hn.
  cbn [Py.run_steps Py.ret Py.bind on_results dir_structure file_hashes
       results file_count].
  match goal with
  | |- context [_generate_file_recommendations ?x] =>
      destruct (FsTotality.recommendations_return x) as [recs Hrecs];
      rewrite Hrecs
  end.
  cbn [Py.run_steps Py.ret Py.bind on_results dir_structure file_hashes
       results file_count].
  exists d, n. split; [reflexivity|]. split; [reflexivity|].
  split; [reflexivity|]. split; [reflexivity|]. split; [reflexivity|].
  split; [exact Hrecs|]. repeat split.
Qed.

(** *** Counters *)






(** *** Which files are recorded *)





End WithHash.


(** *** The depth histogram *)

Lemma counter_get_incr (d : list (nat * nat)) (k k' : nat) :
  counter_get (Py.counter_incr d k) k'
  = if Nat.eqb k' k then S (counter_get d k') else counter_get d k'.
Proof.
  induction d as [|[k0 v] d IH]; cbn [Py.counter_incr counter_get].
  - destruct (Nat.eqb k' k); reflexivity.
  - destruct (Nat.eqb k k0) eqn:E; cbn [counter_get].
    + apply Nat.eqb_eq in E. subst k0.
      destruct (Nat.eqb k' k); reflexivity.
    + rewrite IH. destruct (Nat.eqb k' k0) eqn:E0; [|reflexivity].
      apply Nat.eqb_eq in E0. subst k0.
      rewrite Nat.eqb_sym in E. now rewrite E.
Qed.

Lemma counter_incr_sum (d : list (nat * nat)) (k : nat) :
  list_sum (map snd (Py.counter_incr d k)) = S (list_sum (map snd d)).
Proof.
  induction d as [|[k0 v] d IH]; cbn [Py.counter_incr]; [reflexivity|].
  destruct (Nat.eqb k k0); cbn [map snd]; rewrite ?IH; simpl; lia.
Qed.

Lemma counter_incr_keys (d : list (nat * nat)) (k : nat) :
  (In k (map fst d) -> map fst (Py.counter_incr d k) = map fst d)
  /\ (~ In k (map fst d) ->
      map fst (Py.counter_incr d k) = (map fst d ++ [k])%list).
Proof.
  induction d as [|[k0 v] d [IH1 IH2]]; cbn [Py.counter_incr map fst].
  - split; [intros [] | reflexivity].
  - destruct (Nat.eqb k k0) eqn:E; cbn [map fst].
    + apply Nat.eqb_eq in E. subst k0. split; [reflexivity|].
      intros H. exfalso. apply H. now left.
    + apply Nat.eqb_neq in E. split.
      * intros [H | H]; [congruence|]. now rewrite IH1.
      * intros H. cbn [app]. rewrite IH2; [reflexivity|].
        intros H'. apply H. now right.
Qed.

Lemma counter_incr_NoDup (d : list (nat * nat)) (k : nat) :
  NoDup (map fst d) -> NoDup (map fst (Py.counter_incr d k)).
Proof.
  intros H. destruct (in_dec Nat.eq_dec k (map fst d)) as [Hin | Hin].
  - now rewrite (proj1 (counter_incr_keys d k) Hin).
  - rewrite (proj2 (counter_incr_keys d k) Hin).
    apply NoDup_app; [exact H | repeat constructor; intros [] |].
    intros x Hx [<- | []]. contradiction.
Qed.

Lemma depth_fold_distribution (ds : Py.dict (list DirFile.t))
  (acc : nat * list (nat * nat)) :
  let dist := snd (fold_left depth_step ds acc) in
  (forall k, counter_get dist k
             = counter_get (snd acc) k
               + List.length (filter (fun p => Nat.eqb (depth_of p) k)
                                (Py.keys ds)))
  /\ list_sum (map snd dist)
     = list_sum (map snd (snd acc)) + List.length ds
  /\ (NoDup (map fst (snd acc)) -> NoDup (map fst dist)).
Proof.
  revert acc. induction ds as [|[p v] ds IH]; intros acc.
  - cbn. split; [intros k; lia|]. split; [lia | tauto].
  - change (Py.keys ((p, v) :: ds)) with (p :: Py.keys ds).
    cbn [fold_left filter List.length].
    specialize (IH (depth_step acc (p, v))). cbn zeta in IH.
    assert (Hs : snd (depth_step acc (p, v))
                 = Py.counter_incr (snd acc) (depth_of p)).
    { unfold depth_step. cbn [fst snd].
      now destruct (fst acc <? depth_of p)%nat. }
    rewrite Hs in IH. destruct IH as [IH1 [IH2 IH3]].
    split; [|split].
    + intros k. rewrite IH1, counter_get_incr.
      rewrite (Nat.eqb_sym k (depth_of p)).
      destruct (Nat.eqb (depth_of p) k); cbn [List.length]; lia.
    + rewrite IH2, counter_incr_sum. lia.
    + intros H. now apply IH3, counter_incr_NoDup.
Qed.

(** The depth histogram of the structure analysis has one entry per depth
    that occurs, holding the number of directories at that depth; its
    counts add up to the number of directories analysed. *)
Theorem depth_histogram_counts_directories (ds : Py.dict (list DirFile.t)) :
  exists a,
    _analyze_depth ds = inr a
    /\ (forall k,
          counter_get (DepthAnalysis.depth_distribution a) k
          = List.length (filter (fun p => Nat.eqb (depth_of p) k)
                           (Py.keys ds)))
    /\ list_sum (map snd (DepthAnalysis.depth_distribution a))
       = List.length ds
    /\ NoDup (map fst (DepthAnalysis.depth_distribution a)).
Proof.
  unfold _analyze_depth.
  pose proof (depth_fold_distribution ds (0, [])) as H. cbn zeta in H.
  destruct (fold_left depth_step ds (0, [])) as [m dist].
  destruct (FsProps.average_returns ds) as [q ->]. cbn [Py.bind].
  destruct (fold_left (folder_step ds) (Py.keys ds) ([], [])).
  eexists. split; [reflexivity|].
  cbn [DepthAnalysis.depth_distribution snd] in *.
  destruct H as [H1 [H2 H3]].
  split; [exact H1|]. split; [exact H2|]. apply H3. constructor.
Qed.

(** *** Naming percentages *)

Lemma percentage_of_counts (c n : nat) :
  c <= n -> n <> 0 ->
  percentage (Py.of_nat c / Py.of_nat n * 100)%Q.
Proof.
  intros Hc Hn. unfold percentage, Py.of_nat.
  assert (Hpos : (0 < inject_Z (Z.of_nat n))%Q).
  { change 0%Q with (inject_Z 0). rewrite <- Zlt_Qlt. lia. }
  assert (H0 : (0 <= inject_Z (Z.of_nat c) / inject_Z (Z.of_nat n))%Q).
  { apply Qle_shift_div_l; [exact Hpos|]. rewrite Qmult_0_l.
    change 0%Q with (inject_Z 0). rewrite <- Zle_Qle. lia. }
  assert (H1 : (inject_Z (Z.of_nat c) / inject_Z (Z.of_nat n) <= 1)%Q).
  { apply Qle_shift_div_r; [exact Hpos|]. rewrite Qmult_1_l.
    rewrite <- Zle_Qle. lia. }
  split.
  - apply Qmult_le_0_compat; [exact H0 | discriminate].
  - change 100%Q with (1 * 100)%Q at 2.
    apply Qmult_le_compat_r; [exact H1 | discriminate].
Qed.

Lemma percentage_sum (a b n : nat) :
  a + b <= n -> n <> 0 ->
  (Py.of_nat a / Py.of_nat n * 100 + Py.of_nat b / Py.of_nat n * 100
   <= 100)%Q.
Proof.
  intros Hab Hn.
  destruct (percentage_of_counts (a + b) n Hab Hn) as [_ H].
  eapply Qle_trans; [|exact H]. apply Qle_lteq. right.
  unfold Py.of_nat. rewrite Nat2Z.inj_add, inject_Z_plus. field.
  intros E. unfold Qeq in E. cbn in E. lia.
Qed.

Lemma incr_if_le (b : bool) (n m : nat) : n <= m -> incr_if b n <= S m.
Proof. destruct b; cbn [incr_if]; lia. Qed.

Lemma incr_if_pair (len d g m : nat) :
  d + g <= m ->
  incr_if (15 <? len)%nat d
  + incr_if ((len <=? 15)%nat && (len <? 10)%nat) g <= S m.
Proof.
  intros H. destruct (15 <? len)%nat eqn:E1.
  - apply Nat.ltb_lt in E1.
    replace (len <=? 15)%nat with false
      by (symmetry; apply Nat.leb_gt; lia).
    cbn [andb incr_if]. lia.
  - destruct ((len <=? 15)%nat && (len <? 10)%nat); cbn [incr_if]; lia.
Qed.

Lemma count_file_below (c : Counts.t) (fi : FileInfo.t) (n : nat) :
  counts_below c n -> counts_below (count_file c fi) (S n).
Proof.
  unfold counts_below, count_file.
  intros [H1 [H2 [H3 [H4 [H5 H6]]]]].
  cbn [Counts.date_in_name Counts.client_name_in_name
       Counts.case_number_in_name Counts.spaces_in_name
       Counts.special_chars_in_name Counts.descriptive_names
       Counts.generic_names].
  split; [now apply incr_if_le|]. split; [now apply incr_if_le|].
  split; [now apply incr_if_le|]. split; [now apply incr_if_le|].
  split; [now apply incr_if_le|]. now apply incr_if_pair.
Qed.

Lemma count_files_below (l : list FileInfo.t) (c : Counts.t) (n : nat) :
  counts_below c n ->
  counts_below (fold_left count_file l c) (n + List.length l).
Proof.
  revert c n. induction l as [|fi l IH]; intros c n H; cbn [fold_left].
  - now rewrite Nat.add_0_r.
  - cbn [List.length]. rewrite Nat.add_succ_r.
    apply (IH _ (S n)). now apply count_file_below.
Qed.

(** The naming analysis never raises and reads the first 200 entries
    only; each of its seven figures is a percentage between 0 and 100, and
    the shares of descriptive and of generic names together stay within
    100. *)
Theorem naming_percentages_in_range (file_paths : list FileInfo.t) :
  exists n,
    _analyze_naming_patterns file_paths = inr n
    /\ _analyze_naming_patterns (firstn 200 file_paths) = inr n
    /\ percentage (NamingPatterns.date_in_name n)
    /\ percentage (NamingPatterns.client_name_in_name n)
    /\ percentage (NamingPatterns.case_number_in_name n)
    /\ percentage (NamingPatterns.spaces_in_name n)
    /\ percentage (NamingPatterns.special_chars_in_name n)
    /\ percentage (NamingPatterns.descriptive_names n)
    /\ percentage (NamingPatterns.generic_names n)
    /\ (NamingPatterns.descriptive_names n + NamingPatterns.generic_names n
        <= 100)%Q.
Proof.
  unfold _analyze_naming_patterns.
  rewrite firstn_firstn, Nat.min_id.
  set (sample := firstn 200 file_paths).
  set (total := match sample with
                | [] => 1
                | _ :: _ => List.length sample
                end).
  assert (Hn : total <> 0) by (unfold total; destruct sample; discriminate).
  assert (Hb : counts_below
                 (fold_left count_file sample (Counts.mk 0 0 0 0 0 0 0))
                 total).
  { pose proof (count_files_below sample (Counts.mk 0 0 0 0 0 0 0) 0) as H.
    unfold total. destruct sample as [|x xs].
    - cbn. unfold counts_below. cbn. repeat split; lia.
    - apply H. unfold counts_below. cbn. repeat split; lia. }
  destruct Hb as [H1 [H2 [H3 [H4 [H5 H6]]]]].
  rewrite !(FsTotality.to_percentage_returns _ _ Hn).
  cbn [Py.bind Py.ret]. eexists. split; [reflexivity|].
  split; [reflexivity|].
  cbn [NamingPatterns.date_in_name NamingPatterns.client_name_in_name
       NamingPatterns.case_number_in_name NamingPatterns.spaces_in_name
       NamingPatterns.special_chars_in_name NamingPatterns.descriptive_names
       NamingPatterns.generic_names].
  repeat split; try (apply percentage_of_counts; [lia | exact Hn]).
  now apply percentage_sum.
Qed.

(** *** The categorizer *)

Lemma lower_ascii_idem (c : ascii) :
  Py.lower_ascii (Py.lower_ascii c) = Py.lower_ascii c.
Proof. destruct c as [[] [] [] [] [] [] [] []]; reflexivity. Qed.

Lemma slash_lower_ascii (c : ascii) :
  Ascii.eqb "/" (Py.lower_ascii c) = Ascii.eqb "/" c.
Proof. destruct c as [[] [] [] [] [] [] [] []]; reflexivity. Qed.

Lemma dot_lower_ascii (c : ascii) :
  Ascii.eqb "." (Py.lower_ascii c) = Ascii.eqb "." c.
Proof. destruct c as [[] [] [] [] [] [] [] []]; reflexivity. Qed.

Lemma lower_idem (s : string) : Py.lower (Py.lower s) = Py.lower s.
Proof.
  induction s as [|c s IH]; cbn [Py.lower]; [reflexivity|].
  now rewrite lower_ascii_idem, IH.
Qed.

Lemma length_lower (s : string) :
  String.length (Py.lower s) = String.length s.
Proof.
  induction s as [|c s IH]; cbn [Py.lower String.length]; congruence.
Qed.

Lemma rfind_lower (sep : ascii) (s : string) :
  (forall c, Ascii.eqb sep (Py.lower_ascii c) = Ascii.eqb sep c) ->
  Py.rfind sep (Py.lower s) = Py.rfind sep s.
Proof.
  intros H. induction s as [|c s IH]; cbn [Py.lower Py.rfind];
    [reflexivity|].
  now rewrite IH, H.
Qed.

Lemma substring_lower (s : string) (n m : nat) :
  substring n m (Py.lower s) = Py.lower (substring n m s).
Proof.
  revert n m. induction s as [|c s IH]; intros n m; cbn [Py.lower].
  - destruct n, m; reflexivity.
  - destruct n as [|n]; cbn [substring].
    + destruct m as [|m]; cbn [Py.lower]; [reflexivity|]. now rewrite IH.
    + apply IH.
Qed.

Lemma path_name_lower (p : string) :
  Py.path_name (Py.lower p) = Py.lower (Py.path_name p).
Proof.
  unfold Py.path_name. rewrite (rfind_lower _ _ slash_lower_ascii).
  destruct (Py.rfind "/" p); [|reflexivity].
  now rewrite substring_lower, length_lower.
Qed.

Lemma path_suffix_lower (p : string) :
  Py.path_suffix (Py.lower p) = Py.lower (Py.path_suffix p).
Proof.
  unfold Py.path_suffix. rewrite path_name_lower.
  rewrite (rfind_lower _ _ dot_lower_ascii), length_lower.
  destruct (Py.rfind "." (Py.path_name p)) as [i|]; [|reflexivity].
  destruct ((0 <? i)%nat && (i <? String.length (Py.path_name p) - 1)%nat);
    [|reflexivity].
  apply substring_lower.
Qed.

Lemma categorize_file_lower (p : string) :
  _categorize_file (Py.lower p) = _categorize_file p.
Proof.
  unfold _categorize_file. now rewrite path_suffix_lower, !lower_idem.
Qed.

(** The categorizer returns one of thirteen labels, ignores the case of
    the letters of the path, and labels a path whose file name has no
    suffix (a dot file, a name without a dot) [other]. *)
Theorem categorize_file_total_and_case_blind (p q : string) :
  In (_categorize_file p) category_labels
  /\ (Py.lower p = Py.lower q -> _categorize_file p = _categorize_file q)
  /\ (Py.path_suffix p = "" -> _categorize_file p = "other").
Proof.
  split; [|split].
  - unfold _categorize_file, category_labels.
    repeat match goal with
           | |- context [if ?b then _ else _] => destruct b
           end;
      cbn [In]; repeat (first [left; reflexivity | right]).
  - intros H.
    now rewrite <- (categorize_file_lower p), <- (categorize_file_lower q), H.
  - intros H. unfold _categorize_file. rewrite H. reflexivity.
Qed.

Lemma categorize_file_total_and_case_blind_witness :
  Py.lower "/cases/Motion To Dismiss.PDF"
  = Py.lower "/cases/motion to dismiss.pdf"
  /\ _categorize_file "/cases/Motion To Dismiss.PDF"
     = _categorize_file "/cases/motion to dismiss.pdf".
Proof.
  assert (H : Py.lower "/cases/Motion To Dismiss.PDF"
              = Py.lower "/cases/motion to dismiss.pdf")
    by (vm_compute; reflexivity).
  split; [exact H|].
  destruct (categorize_file_total_and_case_blind
              "/cases/Motion To Dismiss.PDF" "/cases/motion to dismiss.pdf")
    as (_ & Himp & _).
  exact (Himp H).
Defined.

(** *** Findings and recommendations of one report *)

Lemma map_when {A B} (f : A -> B) (c : bool) (x : A) :
  map f (when c x) = when c (f x).
Proof. now destruct c. Qed.

Lemma issue_kinds_spec (r : Results) :
  issue_kinds (_detect_organization_issues r)
  = (when (50 <? root_files_of r)%nat "too_many_root_files"
     ++ when (8 <=? max_depth_of r)%nat "folder_depth_too_deep"
     ++ when (5 <? List.length (shallow_folders_of r))%nat
          "overcrowded_top_level"
     ++ when (Py.gt (spaces_in_name_of r) 30) "spaces_in_filenames"
     ++ when (negb (Nat.eqb (List.length (duplicates r)) 0)) "duplicate_files"
     ++ when (Py.lt (date_in_name_of r) 10) "missing_dates_in_filenames")%list.
Proof.
  unfold issue_kinds, _detect_organization_issues.
  now rewrite !map_app, !map_when.
Qed.

Ltac nodup_strings :=
  repeat (constructor;
          [cbn [In]; intros H;
           repeat (destruct H as [H|H]; [discriminate H|]); exact H|]);
  constructor.

Lemma issue_kinds_distinct (a b c d e f : bool) :
  NoDup (when a "too_many_root_files"
         ++ when b "folder_depth_too_deep"
         ++ when c "overcrowded_top_level"
         ++ when d "spaces_in_filenames"
         ++ when e "duplicate_files"
         ++ when f "missing_dates_in_filenames")%list.
Proof. destruct a, b, c, d, e, f; cbn [when app]; nodup_strings. Qed.

Lemma issue_kinds_In (a b c d e f : bool) :
  let l := (when a "too_many_root_files"
            ++ when b "folder_depth_too_deep"
            ++ when c "overcrowded_top_level"
            ++ when d "spaces_in_filenames"
            ++ when e "duplicate_files"
            ++ when f "missing_dates_in_filenames")%list in
  (In "folder_depth_too_deep"%string l <-> b = true)
  /\ (In "spaces_in_filenames"%string l <-> d = true)
  /\ (In "duplicate_files"%string l <-> e = true).
Proof.
  destruct a, b, c, d, e, f; cbn [when app In];
    repeat split; intros H; try reflexivity; try discriminate H;
    repeat (destruct H as [H|H]; try discriminate H); try contradiction;
    auto 10.
Qed.

Lemma area_kinds_In (a b c d : bool) :
  let l := (when a "duplicate_cleanup" ++ when b "folder_structure"
            ++ when c "naming_convention"
            ++ when d "file_categorization")%list in
  NoDup l
  /\ (In "duplicate_cleanup"%string l <-> a = true)
  /\ (In "folder_structure"%string l <-> b = true)
  /\ (In "naming_convention"%string l <-> c = true)
  /\ (In "file_categorization"%string l <-> d = true).
Proof.
  destruct a, b, c, d; cbn [when app In];
    (split; [nodup_strings|]);
    repeat split; intros H; try reflexivity; try discriminate H;
    repeat (destruct H as [H|H]; try discriminate H); try contradiction;
    auto 10.
Qed.

Lemma ratio_above_threshold (u t : nat) :
  0 < t ->
  ((3 # 10) < Py.of_nat u / Py.of_nat t)%Q <-> 3 * t < 10 * u.
Proof.
  intros Ht. unfold Py.of_nat.
  assert (H0 : (0 < inject_Z (Z.of_nat t))%Q).
  { unfold Qlt. simpl. lia. }
  split; intros H.
  - apply (Qmult_lt_compat_r _ _ _ H0) in H.
    unfold Qdiv in H. rewrite <- Qmult_assoc in H.
    rewrite (Qmult_comm (/ _)), Qmult_inv_r, Qmult_1_r in H
      by (intros E; rewrite E in H0; discriminate).
    unfold Qlt, Qmult, inject_Z in H. cbn [Qnum Qden] in H.
    change (Z.pos (10 * 1)) with 10%Z in H.
    change (Z.pos (1 * 1)) with 1%Z in H. lia.
  - apply Qlt_shift_div_l; [exact H0|].
    unfold Qlt, Qmult, inject_Z. cbn [Qnum Qden].
    change (Z.pos (10 * 1)) with 10%Z.
    change (Z.pos (1 * 1)) with 1%Z. lia.
Qed.

Lemma uncategorized_check_spec (u t : nat) :
  exists o, uncategorized_check u t = inr o
            /\ ((match o with Some _ => true | None => false end) = true
                <-> 0 < t /\ 3 * t < 10 * u).
Proof.
  unfold uncategorized_check.
  destruct (0 <? t)%nat eqn:E.
  - apply Nat.ltb_lt in E.
    rewrite !PyFacts.truediv_returns by (apply PyFacts.of_nat_nonzero; lia).
    cbn [Py.bind].
    destruct (Py.gt _ _) eqn:G; eexists; (split; [reflexivity|]).
    + apply PyFacts.gt_iff in G. apply (ratio_above_threshold u t E) in G.
      split; [intros _; split; assumption | reflexivity].
    + split; [discriminate|]. intros [_ H].
      apply (ratio_above_threshold u t E), PyFacts.gt_iff in H. congruence.
  - apply Nat.ltb_ge in E. eexists. split; [reflexivity|].
    split; [discriminate | lia].
Qed.

Lemma rec_areas_spec (r : Results) :
  exists recs d,
    _generate_file_recommendations r = inr recs
    /\ Permutation
         (when (negb (Nat.eqb (List.length (duplicates r)) 0))
            "duplicate_cleanup"
          ++ when (6 <=? max_depth_of r)%nat "folder_structure"
          ++ when (Py.gt (spaces_in_name_of r) 30) "naming_convention"
          ++ when d "file_categorization")%list
         (rec_areas recs)
    /\ (d = true
        <-> 0 < total_files r
            /\ 3 * total_files r
               < 10 * Py.get_default (files_by_category r) "other" 0).
Proof.
  unfold _generate_file_recommendations.
  destruct (uncategorized_check_spec
              (Py.get_default (files_by_category r) "other" 0)
              (total_files r)) as (o & -> & Ho).
  cbn [Py.bind Py.ret]. eexists. exists (match o with Some _ => true | None => false end).
  split; [reflexivity|]. split; [|exact Ho].
  unfold rec_areas.
  eapply Permutation_trans;
    [|apply Permutation_map, PyFacts.sorted_reverse_perm].
  rewrite !map_app, !map_when.
  destruct o; apply Permutation_refl.
Qed.

(** The findings and the recommendations of one report are drawn from the
    same measurements.  No kind of finding and no area of recommendation
    occurs twice; duplicate files and spaces in file names are reported
    as a finding exactly when they are recommended against; a folder
    depth finding (8 levels) always comes with the folder structure
    recommendation (6 levels); and better categorization is recommended
    exactly when more than three in ten recorded files are [other]. *)
Theorem findings_match_recommendations (r : Results) :
  exists recs,
    _generate_file_recommendations r = inr recs
    /\ NoDup (issue_kinds (_detect_organization_issues r))
    /\ NoDup (rec_areas recs)
    /\ (In "duplicate_files"%string
          (issue_kinds (_detect_organization_issues r))
        <-> In "duplicate_cleanup"%string (rec_areas recs))
    /\ (In "spaces_in_filenames"%string
          (issue_kinds (_detect_organization_issues r))
        <-> In "naming_convention"%string (rec_areas recs))
    /\ (In "folder_depth_too_deep"%string
          (issue_kinds (_detect_organization_issues r))
        -> In "folder_structure"%string (rec_areas recs))
    /\ (In "file_categorization"%string (rec_areas recs)
        <-> 0 < total_files r
            /\ 3 * total_files r
               < 10 * Py.get_default (files_by_category r) "other" 0).
Proof.
  destruct (rec_areas_spec r) as (recs & d & Hrecs & Hperm & Hd).
  exists recs. split; [exact Hrecs|].
  rewrite issue_kinds_spec.
  pose proof (issue_kinds_distinct
                (50 <? root_files_of r)%nat (8 <=? max_depth_of r)%nat
                (5 <? List.length (shallow_folders_of r))%nat
                (Py.gt (spaces_in_name_of r) 30)
                (negb (Nat.eqb (List.length (duplicates r)) 0))
                (Py.lt (date_in_name_of r) 10)) as Hnd.
  destruct (issue_kinds_In
              (50 <? root_files_of r)%nat (8 <=? max_depth_of r)%nat
              (5 <? List.length (shallow_folders_of r))%nat
              (Py.gt (spaces_in_name_of r) 30)
              (negb (Nat.eqb (List.length (duplicates r)) 0))
              (Py.lt (date_in_name_of r) 10)) as (Hdeep & Hsp & Hdup).
  destruct (area_kinds_In
              (negb (Nat.eqb (List.length (duplicates r)) 0))
              (6 <=? max_depth_of r)%nat
              (Py.gt (spaces_in_name_of r) 30) d)
    as (Hnd' & Hdup' & Hdeep' & Hsp' & Hcat').
  assert (Hin : forall a,
             In a (rec_areas recs)
             <-> In a (when (negb (Nat.eqb (List.length (duplicates r)) 0))
                         "duplicate_cleanup"
                       ++ when (6 <=? max_depth_of r)%nat "folder_structure"
                       ++ when (Py.gt (spaces_in_name_of r) 30)
                            "naming_convention"
                       ++ when d "file_categorization")%list).
  { intros a. split; apply Permutation_in;
      [apply Permutation_sym|]; exact Hperm. }
  split; [exact Hnd|].
  split; [exact (Permutation_NoDup Hperm Hnd')|].
  rewrite !Hin.
  split; [now rewrite Hdup, Hdup'|].
  split; [now rewrite Hsp, Hsp'|].
  split.
  - rewrite Hdeep, Hdeep'. intros H.
    apply Nat.leb_le in H. apply Nat.leb_le. lia.
  - now rewrite Hcat', Hd.
Qed.

Lemma findings_match_recommendations_witness :
  In "duplicate_files"
    (issue_kinds (_detect_organization_issues Examples.deep_tree_scan))
  /\ exists recs,
       _generate_file_recommendations Examples.deep_tree_scan = inr recs
       /\ In "duplicate_cleanup" (rec_areas recs).
Proof.
  assert (H : In "duplicate_files"
                (issue_kinds
                   (_detect_organization_issues Examples.deep_tree_scan)))
    by (vm_compute; tauto).
  split; [exact H|].
  destruct (findings_match_recommendations Examples.deep_tree_scan)
    as (recs & E & _ & _ & Hdup & _).
  exists recs. split; [exact E|]. exact (proj1 Hdup H).
Defined.

End FsMore.

(** ** What a drive scan reports *)

Module CloudMore.
Import CloudScanner CloudSpec ReportSpec.

(** *** Outcome of the [try] block *)

Lemma scan_unreachable (max_files : nat) (l : Listing) :
  scan_google_drive max_files (mkDrive None l)
  = seal false (Some Py.ServiceError) initial_results.
Proof. reflexivity. Qed.

Lemma scan_zero_divisor (max_files : nat) (a : About) (l : Listing) :
  opt (limit (quota_of a)) 1%Z = 0%Z ->
  scan_google_drive max_files (mkDrive (Some a) l)
  = seal false (Some Py.ZeroDivisionError) (set_user a initial_results).
Proof.
  intros H. unfold scan_google_drive, try_block.
  cbn [Py.run_steps about listing Py.ret].
  change (opt (storageQuota a) (mkStorageQuota None None None))
    with (quota_of a).
  unfold quota_info_of. rewrite H. reflexivity.
Qed.

Lemma quota_info_returns (quota : StorageQuota) :
  opt (limit quota) 1%Z <> 0%Z ->
  quota_info_of quota
  = inr (QuotaInfo.mk (opt (limit quota) 0%Z) (opt (usage quota) 0%Z)
           (opt (usageInDrive quota) 0%Z)
           (inject_Z (opt (usage quota) 0%Z)
            / inject_Z (opt (limit quota) 1%Z) * 100)%Q).
Proof.
  intros Hl. unfold quota_info_of.
  rewrite PyFacts.truediv_returns; [reflexivity|].
  intros H. apply Hl. unfold Qeq in H. simpl in H. lia.
Qed.

(** The rule on uncategorized files, on counters on which no category
    counts more files than there are. *)
Lemma uncategorized_issue_cases (r : Results) :
  Py.get_default (files_by_category r) "other" 0 <= total_files r ->
  exists unc b,
    uncategorized_issue r = inr unc
    /\ issue_kinds unc = when b "many_uncategorized_files"
    /\ map Issue.severity unc = when b "medium"
    /\ (b = true -> 0 < Py.get_default (files_by_category r) "other" 0).
Proof.
  intros H. unfold uncategorized_issue.
  rewrite PyFacts.truediv_returns
    by (apply PyFacts.of_nat_nonzero;
        pose proof (Nat.le_max_r (total_files r) 1); lia).
  cbn [Py.bind].
  destruct (Py.gt _ _) eqn:G.
  - assert (Hpos : 0 < Py.get_default (files_by_category r) "other" 0).
    { destruct (Py.get_default (files_by_category r) "other" 0) eqn:E;
        [|lia].
      apply PyFacts.gt_iff in G. exfalso. revert G.
      unfold Py.of_nat at 1. cbn [Z.of_nat]. unfold Qdiv.
      rewrite Qmult_0_l. discriminate. }
    rewrite PyFacts.truediv_returns
      by (apply PyFacts.of_nat_nonzero; lia).
    eexists. exists true. repeat split. intros _. exact Hpos.
  - exists [], false. repeat split. discriminate.
Qed.

Lemma recommendations_ignore_findings (x : list Issue.t) (r : Results) :
  _generate_drive_recommendations (set_organization_issues x r)
  = _generate_drive_recommendations r.
Proof. reflexivity. Qed.

(** The result of a scan that reaches the service with a divisor other
    than 0. *)
Lemma scan_reached (max_files : nat) (a : About) (l : Listing) :
  opt (limit (quota_of a)) 1%Z <> 0%Z ->
  exists q unc b,
    let r3 := fold_left analyze_file (list_files max_files 0 l [])
                (set_quota_info q (set_user a initial_results)) in
    quota_info_of (quota_of a) = inr q
    /\ issue_kinds unc = when b "many_uncategorized_files"
    /\ map Issue.severity unc = when b "medium"
    /\ (b = true -> 0 < Py.get_default (files_by_category r3) "other" 0)
    /\ scan_google_drive max_files (mkDrive (Some a) l)
       = seal true None
           (set_recommendations (_generate_drive_recommendations r3)
              (set_organization_issues
                 (storage_issue r3 ++ unc ++ shared_issue r3)%list r3)).
Proof.
  intros Hl.
  pose proof (quota_info_returns (quota_of a) Hl) as Hq.
  eexists.
  set (r3 := fold_left analyze_file (list_files max_files 0 l []) _).
  assert (Hcount : Py.get_default (files_by_category r3) "other" 0
                   <= total_files r3).
  { apply CloudProps.analyze_files_count. apply Nat.le_refl. }
  destruct (uncategorized_issue_cases r3 Hcount)
    as (unc & b & Hu & Hk & Hs & Hb).
  exists unc, b. cbn zeta.
  split; [exact Hq|]. split; [exact Hk|]. split; [exact Hs|].
  split; [exact Hb|].
  unfold scan_google_drive, try_block.
  cbn [Py.run_steps about listing Py.ret].
  change (opt (storageQuota a) (mkStorageQuota None None None))
    with (quota_of a).
  rewrite Hq. cbn [Py.bind Py.ret Py.run_steps]. fold r3.
  unfold _detect_drive_issues. rewrite Hu.
  cbn [Py.bind Py.ret Py.run_steps].
  rewrite recommendations_ignore_findings. reflexivity.
Qed.



(** *** The listing loop *)



Lemma list_files_length (max_files : nat) (l : Listing) (file_count : nat)
  (all_files : list DriveFile) :
  honours_page_size max_files file_count l ->
  List.length all_files = file_count ->
  file_count <= max_files ->
  List.length (list_files max_files file_count l all_files) <= max_files.
Proof.
  revert file_count all_files.
  induction l as [|files|files nextPage IH];
    intros file_count all_files Hp Hlen Hle; cbn [list_files];
    destruct (file_count <? max_files)%nat eqn:E; try lia;
    cbn [honours_page_size] in Hp.
  - rewrite length_app.
    pose proof (Nat.le_min_r 1000 (max_files - file_count)). lia.
  - destruct Hp as [Hp1 Hp2].
    pose proof (Nat.le_min_r 1000 (max_files - file_count)).
    apply IH; [exact Hp2 | rewrite length_app; lia | lia].
Qed.

(** *** The counters *)

Lemma fold_left_Zadd (l : list Z) (a : Z) :
  fold_left Z.add l a = (a + fold_left Z.add l 0)%Z.
Proof.
  revert a. induction l as [|x l IH]; intros a; cbn [fold_left]; [lia|].
  rewrite IH, (IH (0 + x)%Z). lia.
Qed.

Lemma analyze_file_folder (r : Results) (x : DriveFile) :
  is_file x = false ->
  total_files (analyze_file r x) = total_files r
  /\ total_folders (analyze_file r x) = S (total_folders r)
  /\ total_size_bytes (analyze_file r x) = total_size_bytes r
  /\ files_by_type (analyze_file r x) = files_by_type r
  /\ files_by_category (analyze_file r x) = files_by_category r
  /\ shared_files (analyze_file r x) = shared_files r
  /\ file_paths (analyze_file r x) = file_paths r
  /\ List.length (folders (analyze_file r x)) <= S (List.length (folders r)).
Proof.
  unfold is_file, is_folder, analyze_file. intros H.
  apply negb_false_iff in H. rewrite H.
  cbn [total_files total_folders total_size_bytes files_by_type
       files_by_category shared_files file_paths folders].
  repeat split.
  generalize (folders r) as fs. induction fs as [|[k v] fs IH];
    cbn [Py.dict_set List.length]; [lia|].
  destruct (String.eqb (id x) k); cbn [List.length]; lia.
Qed.

Lemma analyze_file_file (r : Results) (x : DriveFile) :
  is_file x = true ->
  total_files (analyze_file r x) = S (total_files r)
  /\ total_folders (analyze_file r x) = total_folders r
  /\ total_size_bytes (analyze_file r x)
     = (total_size_bytes r + FileInfo.size (file_info_of x))%Z
  /\ files_by_type (analyze_file r x)
     = Py.dict_add Nat.add 0 (files_by_type r)
         (FileInfo.mime_type (file_info_of x)) 1
  /\ files_by_category (analyze_file r x)
     = Py.dict_add Nat.add 0 (files_by_category r)
         (FileInfo.category (file_info_of x)) 1
  /\ shared_files (analyze_file r x)
     = (shared_files r
        ++ if is_shared x then [shared_file_of x] else [])%list
  /\ file_paths (analyze_file r x) = (file_paths r ++ [file_info_of x])%list
  /\ folders (analyze_file r x) = folders r.
Proof.
  unfold is_file, is_folder, analyze_file. intros H.
  apply negb_true_iff in H. rewrite H.
  cbn [total_files total_folders total_size_bytes files_by_type
       files_by_category shared_files file_paths folders].
  repeat split.
  unfold is_shared. destruct (opt (shared x) false);
    [reflexivity | now rewrite app_nil_r].
Qed.

(** The counters after the loop over the items, from any counters
    before it. *)
Lemma analyze_files_spec (xs : list DriveFile) (r : Results) :
  let r' := fold_left analyze_file xs r in
  let fis := map file_info_of (filter is_file xs) in
  file_paths r' = (file_paths r ++ fis)%list
  /\ total_files r' = total_files r + List.length fis
  /\ total_folders r'
     = total_folders r + List.length (filter is_folder xs)
  /\ total_size_bytes r' = (total_size_bytes r + total_size fis)%Z
  /\ (forall c, Py.get_default (files_by_category r') c 0
                = Py.get_default (files_by_category r) c 0
                  + List.length (filter (in_category c) fis))
  /\ (forall t, Py.get_default (files_by_type r') t 0
                = Py.get_default (files_by_type r) t 0
                  + List.length (filter (of_type t) fis))
  /\ shared_files r'
     = (shared_files r
        ++ map shared_file_of (filter is_shared (filter is_file xs)))%list
  /\ List.length (folders r')
     <= List.length (folders r) + List.length (filter is_folder xs).
Proof.
  revert r. induction xs as [|x xs IH]; intros r; cbn zeta.
  - cbn [fold_left filter map List.length]. unfold total_size.
    cbn [map fold_left]. rewrite !app_nil_r.
    repeat split; try lia; intros; lia.
  - cbn [fold_left filter].
    specialize (IH (analyze_file r x)). cbn zeta in IH.
    destruct IH as (I1 & I2 & I3 & I4 & I5 & I6 & I7 & I8).
    destruct (is_file x) eqn:E.
    + destruct (analyze_file_file r x E)
        as (A1 & A2 & A3 & A4 & A5 & A6 & A7 & A8).
      assert (Ef : is_folder x = false)
        by (unfold is_file in E; now apply negb_true_iff in E).
      rewrite Ef. cbn [map List.length filter].
      rewrite I1, I2, I3, I4, I7, A1, A2, A3, A6, A7.
      split; [now rewrite <- app_assoc|].
      split; [lia|]. split; [lia|].
      split.
      { unfold total_size. cbn [map fold_left].
        rewrite (fold_left_Zadd _ (0 + _)%Z). lia. }
      split.
      { intros c. rewrite I5, A5, PyFacts.get_default_add.
        unfold in_category at 2.
        destruct (String.eqb (FileInfo.category (file_info_of x)) c) eqn:Ec.
        - apply String.eqb_eq in Ec. subst c.
          rewrite String.eqb_refl. cbn [List.length]. lia.
        - rewrite String.eqb_sym, Ec. reflexivity. }
      split.
      { intros t. rewrite I6, A4, PyFacts.get_default_add.
        unfold of_type at 2.
        destruct (String.eqb (FileInfo.mime_type (file_info_of x)) t) eqn:Et.
        - apply String.eqb_eq in Et. subst t.
          rewrite String.eqb_refl. cbn [List.length]. lia.
        - rewrite String.eqb_sym, Et. reflexivity. }
      split.
      { rewrite <- app_assoc. f_equal.
        destruct (is_shared x); reflexivity. }
      rewrite A8 in I8. exact I8.
    + destruct (analyze_file_folder r x E)
        as (A1 & A2 & A3 & A4 & A5 & A6 & A7 & A8).
      assert (Ef : is_folder x = true)
        by (unfold is_file in E; now apply negb_false_iff in E).
      rewrite Ef. cbn [List.length].
      rewrite I1, I2, I3, I4, I7, A1, A2, A3, A6, A7.
      split; [reflexivity|]. split; [lia|]. split; [lia|].
      split; [reflexivity|].
      split; [intros c; now rewrite I5, A5|].
      split; [intros t; now rewrite I6, A4|].
      split; [reflexivity|]. lia.
Qed.

Lemma filter_file_folder_length (xs : list DriveFile) :
  List.length (filter is_file xs) + List.length (filter is_folder xs)
  = List.length xs.
Proof.
  induction xs as [|x xs IH]; [reflexivity|]. cbn [filter].
  unfold is_file at 1. destruct (is_folder x); cbn [negb List.length]; lia.
Qed.

(** The counters of a complete scan agree with the items listed:
    ['file_paths'] holds one entry per item that is not a folder, in
    listing order; the totals count the files, the folders and the bytes;
    the two histograms count the entries by category and by MIME type;
    ['shared_files'] holds the shared ones; and ['folders'], keyed by
    id, has at most one entry per folder counted. *)
Theorem drive_counters_agree_with_listing (max_files : nat) (d : Drive) :
  let r := scan_google_drive max_files d in
  let files := filter is_file (listed max_files d) in
  scan_complete r = Some true ->
  file_paths r = map file_info_of files
  /\ total_files r = List.length files
  /\ total_folders r = List.length (filter is_folder (listed max_files d))
  /\ total_files r + total_folders r = List.length (listed max_files d)
  /\ total_size_bytes r = total_size (file_paths r)
  /\ (forall c, Py.get_default (files_by_category r) c 0
                = List.length (filter (in_category c) (file_paths r)))
  /\ (forall t, Py.get_default (files_by_type r) t 0
                = List.length (filter (of_type t) (file_paths r)))
  /\ shared_files r = map shared_file_of (filter is_shared files)
  /\ List.length (folders r) <= total_folders r.
Proof.
  destruct d as [[a|] l]; cbn zeta; [|discriminate].
  destruct (Z.eq_dec (opt (limit (quota_of a)) 1%Z) 0%Z) as [Hz|Hnz].
  { rewrite (scan_zero_divisor max_files a l Hz). discriminate. }
  destruct (scan_reached max_files a l Hnz)
    as (q & unc & b & _ & _ & _ & _ & ->).
  intros _. unfold listed. cbn [listing].
  cbn [seal set_recommendations set_organization_issues file_paths
       total_files total_folders total_size_bytes files_by_category
       files_by_type shared_files folders].
  destruct (analyze_files_spec (list_files max_files 0 l [])
              (set_quota_info q (set_user a initial_results)))
    as (I1 & I2 & I3 & I4 & I5 & I6 & I7 & I8).
  cbn [set_quota_info set_user initial_results file_paths total_files
       total_folders total_size_bytes files_by_category files_by_type
       shared_files folders app List.length Nat.add Z.add] in *.
  rewrite I1, I2, I3, I4, I7, length_map.
  repeat split.
  - apply filter_file_folder_length.
  - intros c. now rewrite I5.
  - intros t. now rewrite I6.
  - exact I8.
Qed.

Lemma drive_counters_agree_with_listing_witness :
  scan_complete (scan_google_drive 1000 (CloudExamples.drive 90 100))
  = Some true
  /\ total_files (scan_google_drive 1000 (CloudExamples.drive 90 100))
     = List.length
         (filter is_file (listed 1000 (CloudExamples.drive 90 100))).
Proof.
  assert (H : scan_complete
                (scan_google_drive 1000 (CloudExamples.drive 90 100))
              = Some true) by (vm_compute; reflexivity).
  split; [exact H|].
  destruct (drive_counters_agree_with_listing 1000
              (CloudExamples.drive 90 100) H) as (_ & Ht & _).
  exact Ht.
Defined.

(** When every page holds at most the [pageSize] requested for it, the
    loop collects at most [max_files] items, so a scan counts at most
    [max_files] files and folders together. *)
Theorem drive_scan_respects_max_files (max_files : nat) (d : Drive) :
  honours_page_size max_files 0 (listing d) ->
  let r := scan_google_drive max_files d in
  List.length (listed max_files d) <= max_files
  /\ total_files r + total_folders r <= max_files
  /\ List.length (file_paths r) <= max_files.
Proof.
  intros Hp. cbn zeta.
  assert (Hl : List.length (listed max_files d) <= max_files).
  { unfold listed. apply list_files_length;
      [exact Hp | reflexivity | lia]. }
  split; [exact Hl|].
  destruct d as [[a|] l].
  - destruct (Z.eq_dec (opt (limit (quota_of a)) 1%Z) 0%Z) as [Hz|Hnz].
    + rewrite (scan_zero_divisor max_files a l Hz). cbn. lia.
    + destruct (scan_reached max_files a l Hnz)
        as (q & unc & b & _ & _ & _ & _ & ->).
      cbn [seal set_recommendations set_organization_issues file_paths
           total_files total_folders].
      destruct (analyze_files_spec (list_files max_files 0 l [])
                  (set_quota_info q (set_user a initial_results)))
        as (I1 & I2 & I3 & _).
      cbn [set_quota_info set_user initial_results file_paths total_files
           total_folders app Nat.add] in *.
      rewrite I1, I2, I3, !length_map.
      pose proof (filter_file_folder_length (list_files max_files 0 l [])).
      unfold listed in Hl. cbn [listing] in Hl. lia.
  - rewrite scan_unreachable. cbn. lia.
Qed.

Lemma drive_scan_respects_max_files_witness :
  honours_page_size 1000 0 (listing (CloudExamples.drive 90 100))
  /\ List.length (listed 1000 (CloudExamples.drive 90 100)) <= 1000.
Proof.
  assert (H : honours_page_size 1000 0
                (listing (CloudExamples.drive 90 100)))
    by (apply Nat.leb_le; vm_compute; reflexivity).
  split; [exact H|].
  destruct (drive_scan_respects_max_files 1000
              (CloudExamples.drive 90 100) H) as (Hl & _).
  exact Hl.
Defined.

(** *** Findings and recommendations *)

Lemma map_when_drive {A B} (f : A -> B) (c : bool) (x : A) :
  map f (when c x) = when c (f x).
Proof. now destruct c. Qed.

Lemma drive_issue_kinds (r : Results) (unc : list Issue.t) (b : bool) :
  issue_kinds unc = when b "many_uncategorized_files" ->
  map Issue.severity unc = when b "medium" ->
  issue_kinds (storage_issue r ++ unc ++ shared_issue r)
  = (when (Py.gt (usage_percent_of r) 80) "high_storage_usage"
     ++ when b "many_uncategorized_files"
     ++ when (50 <? List.length (shared_files r))%nat
          "excessive_shared_files")%list
  /\ map Issue.severity (storage_issue r ++ unc ++ shared_issue r)
     = (when (Py.gt (usage_percent_of r) 80) "high"
        ++ when b "medium"
        ++ when (50 <? List.length (shared_files r))%nat "medium")%list.
Proof.
  intros Hk Hs. unfold issue_kinds in *.
  rewrite !map_app, Hk, Hs. unfold storage_issue, shared_issue.
  now rewrite !map_when_drive.
Qed.

Lemma drive_kinds_In (a b c : bool) :
  let l := (when a "high_storage_usage"
            ++ when b "many_uncategorized_files"
            ++ when c "excessive_shared_files")%list in
  NoDup l
  /\ (In "high_storage_usage"%string l <-> a = true)
  /\ (In "many_uncategorized_files"%string l <-> b = true)
  /\ (In "excessive_shared_files"%string l <-> c = true).
Proof.
  destruct a, b, c; cbn [when app In];
    (split; [FsMore.nodup_strings|]);
    repeat split; intros H; try reflexivity; try discriminate H;
    repeat (destruct H as [H|H]; try discriminate H); try contradiction;
    auto 10.
Qed.

Lemma drive_severities_In (a b c : bool) (s : string) :
  In s (when a "high" ++ when b "medium" ++ when c "medium")%list ->
  s = "high"%string \/ s = "medium"%string.
Proof.
  destruct a, b, c; cbn [when app In]; intros H;
    repeat (destruct H as [H|H]; [subst s; auto|]); contradiction.
Qed.

Lemma drive_areas_In (a b c d : bool) :
  let l := (when a "storage_optimization" ++ when b "folder_organization"
            ++ when c "security" ++ when d "naming_convention")%list in
  NoDup l
  /\ (In "storage_optimization"%string l <-> a = true)
  /\ (In "folder_organization"%string l <-> b = true)
  /\ (In "security"%string l <-> c = true)
  /\ (In "naming_convention"%string l <-> d = true).
Proof.
  destruct a, b, c, d; cbn [when app In];
    (split; [FsMore.nodup_strings|]);
    repeat split; intros H; try reflexivity; try discriminate H;
    repeat (destruct H as [H|H]; try discriminate H); try contradiction;
    auto 10.
Qed.

Lemma drive_rec_areas (r : Results) :
  Permutation
    (when (Py.gt (usage_percent_of r) 70) "storage_optimization"
     ++ when (50 <? total_folders r)%nat "folder_organization"
     ++ when (20 <? List.length (shared_files r))%nat "security"
     ++ when (0 <? Py.get_default (files_by_category r) "other" 0)%nat
          "naming_convention")%list
    (rec_areas (_generate_drive_recommendations r)).
Proof.
  unfold rec_areas, _generate_drive_recommendations.
  eapply Permutation_trans;
    [|apply Permutation_map, PyFacts.sorted_reverse_perm].
  rewrite !map_app, !map_when_drive. apply Permutation_refl.
Qed.

(** The implications between the rules of one complete scan. *)
Lemma drive_rules_agree (r : Results) (unc : list Issue.t) (b : bool) :
  issue_kinds unc = when b "many_uncategorized_files" ->
  map Issue.severity unc = when b "medium" ->
  (b = true -> 0 < Py.get_default (files_by_category r) "other" 0) ->
  let issues := (storage_issue r ++ unc ++ shared_issue r)%list in
  let recs := _generate_drive_recommendations r in
  NoDup (issue_kinds issues)
  /\ NoDup (rec_areas recs)
  /\ (forall i, In i issues ->
                Issue.severity i = "high"%string
                \/ Issue.severity i = "medium"%string)
  /\ (In "high_storage_usage"%string (issue_kinds issues)
      -> In "storage_optimization"%string (rec_areas recs))
  /\ (In "excessive_shared_files"%string (issue_kinds issues)
      -> In "security"%string (rec_areas recs))
  /\ (In "many_uncategorized_files"%string (issue_kinds issues)
      -> In "naming_convention"%string (rec_areas recs)).
Proof.
  intros Hk Hs Hb issues recs. subst issues recs.
  destruct (drive_issue_kinds r unc b Hk Hs) as [-> Hsev].
  destruct (drive_kinds_In (Py.gt (usage_percent_of r) 80) b
              (50 <? List.length (shared_files r))%nat)
    as (Hnd & Hst & Hun & Hsh).
  destruct (drive_areas_In
              (Py.gt (usage_percent_of r) 70) (50 <? total_folders r)%nat
              (20 <? List.length (shared_files r))%nat
              (0 <? Py.get_default (files_by_category r) "other" 0)%nat)
    as (Hnd' & Hst' & _ & Hsh' & Hun').
  pose proof (drive_rec_areas r) as Hperm.
  assert (Hin : forall a,
             In a (rec_areas (_generate_drive_recommendations r))
             <-> In a
                   (when (Py.gt (usage_percent_of r) 70)
                      "storage_optimization"
                    ++ when (50 <? total_folders r)%nat "folder_organization"
                    ++ when (20 <? List.length (shared_files r))%nat
                         "security"
                    ++ when (0 <? Py.get_default (files_by_category r)
                                    "other" 0)%nat
                         "naming_convention")%list).
  { intros a. split; apply Permutation_in;
      [apply Permutation_sym|]; exact Hperm. }
  split; [exact Hnd|].
  split; [exact (Permutation_NoDup Hperm Hnd')|].
  split.
  { intros i Hi. apply (in_map Issue.severity) in Hi. rewrite Hsev in Hi.
    exact (drive_severities_In _ _ _ _ Hi). }
  rewrite !Hin, Hst, Hst', Hsh, Hsh', Hun, Hun'.
  split; [|split].
  - intros H. apply PyFacts.gt_iff in H. apply PyFacts.gt_iff.
    eapply Qlt_trans; [|exact H]. reflexivity.
  - intros H. apply Nat.ltb_lt in H. apply Nat.ltb_lt. lia.
  - intros H. apply Nat.ltb_lt. exact (Hb H).
Qed.

(** The findings of a drive scan are of severity high or medium only and
    no kind or area occurs twice.  Each finding comes with the
    recommendation on the same measurement, whose threshold is lower:
    high storage usage (above 80%) with storage optimization (above 70%),
    excessive sharing (more than 50 files) with the security review (more
    than 20), many uncategorized files with the naming convention (any
    uncategorized file). *)
Theorem drive_findings_match_recommendations (max_files : nat) (d : Drive) :
  let r := scan_google_drive max_files d in
  let kinds := issue_kinds (organization_issues r) in
  let areas := rec_areas (recommendations r) in
  NoDup kinds
  /\ NoDup areas
  /\ (forall i, In i (organization_issues r) ->
                Issue.severity i = "high"%string
                \/ Issue.severity i = "medium"%string)
  /\ (In "high_storage_usage"%string kinds
      -> In "storage_optimization"%string areas)
  /\ (In "excessive_shared_files"%string kinds
      -> In "security"%string areas)
  /\ (In "many_uncategorized_files"%string kinds
      -> In "naming_convention"%string areas).
Proof.
  cbn zeta.
  assert (Hnil : NoDup (@nil string)
                 /\ NoDup (@nil string)
                 /\ (forall i : Issue.t, In i [] ->
                       Issue.severity i = "high"%string
                       \/ Issue.severity i = "medium"%string)
                 /\ (In "high_storage_usage"%string []
                     -> In "storage_optimization"%string [])
                 /\ (In "excessive_shared_files"%string []
                     -> In "security"%string [])
                 /\ (In "many_uncategorized_files"%string []
                     -> In "naming_convention"%string [])).
  { repeat split; try constructor; intros; contradiction. }
  destruct d as [[a|] l]; [|exact Hnil].
  destruct (Z.eq_dec (opt (limit (quota_of a)) 1%Z) 0%Z) as [Hz|Hnz].
  { rewrite (scan_zero_divisor max_files a l Hz). exact Hnil. }
  destruct (scan_reached max_files a l Hnz)
    as (q & unc & b & _ & Hk & Hs & Hb & ->).
  cbn [seal set_recommendations set_organization_issues
       organization_issues recommendations].
  exact (drive_rules_agree _ unc b Hk Hs Hb).
Qed.

Lemma drive_findings_match_recommendations_witness :
  In "high_storage_usage"
    (issue_kinds
       (organization_issues
          (scan_google_drive 1000 (CloudExamples.drive 90 100))))
  /\ In "storage_optimization"
       (rec_areas
          (recommendations
             (scan_google_drive 1000 (CloudExamples.drive 90 100)))).
Proof.
  assert (H : In "high_storage_usage"
                (issue_kinds
                   (organization_issues
                      (scan_google_drive 1000
                         (CloudExamples.drive 90 100)))))
    by (vm_compute; tauto).
  split; [exact H|].
  destruct (drive_findings_match_recommendations 1000
              (CloudExamples.drive 90 100)) as (_ & _ & _ & Himp & _).
  exact (Himp H).
Defined.

Lemma percent_of_whole (t u : Z) :
  (inject_Z t < inject_Z u / inject_Z 1 * 100)%Q <-> (t < u * 100)%Z.
Proof.
  unfold Qlt, Qdiv, Qmult, Qinv, inject_Z. cbn [Qnum Qden].
  cbn [Z.mul Pos.mul]. lia.
Qed.

(** A quota reply without a limit (or no quota at all) does not fail the
    scan: the limit is recorded as 0, the percentage divides by the
    default 1, and both the high storage usage finding and the storage
    optimization recommendation appear from the first byte used. *)
Theorem missing_limit_flags_any_usage (max_files : nat) (a : About)
  (l : Listing) :
  limit (quota_of a) = None ->
  let r := scan_google_drive max_files (mkDrive (Some a) l) in
  let used := opt (usage (quota_of a)) 0%Z in
  scan_complete r = Some true
  /\ option_map QuotaInfo.limit_bytes (quota_info r) = Some 0%Z
  /\ (In "high_storage_usage"%string (issue_kinds (organization_issues r))
      <-> (0 < used)%Z)
  /\ (In "storage_optimization"%string (rec_areas (recommendations r))
      <-> (0 < used)%Z).
Proof.
  intros Hlim. cbn zeta.
  assert (Hnz : opt (limit (quota_of a)) 1%Z <> 0%Z)
    by (rewrite Hlim; discriminate).
  destruct (scan_reached max_files a l Hnz)
    as (q & unc & b & Hq & Hk & Hs & Hb & ->).
  rewrite (quota_info_returns _ Hnz) in Hq. injection Hq as <-.
  cbn [seal set_recommendations set_organization_issues scan_complete
       organization_issues recommendations quota_info].
  set (r3 := fold_left analyze_file _ _).
  assert (Hpct : usage_percent_of r3
                 = (inject_Z (opt (usage (quota_of a)) 0%Z)
                    / inject_Z 1 * 100)%Q).
  { unfold usage_percent_of, r3. rewrite CloudProps.analyze_files_quota.
    cbn [set_quota_info quota_info QuotaInfo.usage_percent].
    now rewrite Hlim. }
  split; [reflexivity|]. split.
  { unfold r3. rewrite CloudProps.analyze_files_quota.
    cbn [set_quota_info quota_info option_map QuotaInfo.limit_bytes].
    now rewrite Hlim. }
  destruct (drive_issue_kinds r3 unc b Hk Hs) as [-> _].
  destruct (drive_kinds_In (Py.gt (usage_percent_of r3) 80) b
              (50 <? List.length (shared_files r3))%nat)
    as (_ & -> & _).
  destruct (drive_areas_In
              (Py.gt (usage_percent_of r3) 70) (50 <? total_folders r3)%nat
              (20 <? List.length (shared_files r3))%nat
              (0 <? Py.get_default (files_by_category r3) "other" 0)%nat)
    as (_ & Hst' & _).
  pose proof (drive_rec_areas r3) as Hperm.
  rewrite !PyFacts.gt_iff, Hpct in *.
  split.
  - change 80%Q with (inject_Z 80). rewrite percent_of_whole. lia.
  - change 70%Q with (inject_Z 70) in Hst'.
    rewrite percent_of_whole in Hst'.
    split.
    + intros H. apply (Permutation_in _ (Permutation_sym Hperm)) in H.
      apply Hst' in H. lia.
    + intros H. apply (Permutation_in _ Hperm). apply Hst'. lia.
Qed.

Lemma missing_limit_flags_any_usage_witness :
  limit (quota_of (CloudExamples.about_with
                     (mkStorageQuota None (Some 1%Z) None))) = None
  /\ In "high_storage_usage"
       (issue_kinds
          (organization_issues
             (scan_google_drive 1000
                (mkDrive
                   (Some (CloudExamples.about_with
                            (mkStorageQuota None (Some 1%Z) None)))
                   (LastPage []))))).
Proof.
  assert (H : limit (quota_of (CloudExamples.about_with
                                 (mkStorageQuota None (Some 1%Z) None)))
              = None) by reflexivity.
  split; [exact H|].
  destruct (missing_limit_flags_any_usage 1000
              (CloudExamples.about_with
                 (mkStorageQuota None (Some 1%Z) None))
              (LastPage []) H) as (_ & _ & Hiff & _).
  apply Hiff. reflexivity.
Defined.

(** *** The categorizer *)

(** [_categorize_drive_file] returns one of fifteen labels; it reads the
    name without regard to case; an item without MIME type is [other]. *)
Theorem categorize_drive_file_labels (x y : DriveFile) :
  In (_categorize_drive_file x) category_labels
  /\ (Py.lower (name x) = Py.lower (name y) -> mimeType x = mimeType y ->
      _categorize_drive_file x = _categorize_drive_file y)
  /\ (mimeType x = None -> _categorize_drive_file x = "other"%string).
Proof.
  split; [|split].
  - unfold _categorize_drive_file, category_labels.
    repeat match goal with
           | |- context [if ?b then _ else _] => destruct b
           end;
      cbn [In]; repeat (first [left; reflexivity | right]).
  - intros Hn Hm. unfold _categorize_drive_file. now rewrite Hn, Hm.
  - intros Hm. unfold _categorize_drive_file. rewrite Hm. reflexivity.
Qed.

Lemma categorize_drive_file_labels_witness :
  mimeType (mkDriveFile "1" "contract.pdf" None None None) = None
  /\ _categorize_drive_file (mkDriveFile "1" "contract.pdf" None None None)
     = "other".
Proof.
  assert (H : mimeType (mkDriveFile "1" "contract.pdf" None None None)
              = None) by reflexivity.
  split; [exact H|].
  destruct (categorize_drive_file_labels
              (mkDriveFile "1" "contract.pdf" None None None)
              (mkDriveFile "1" "contract.pdf" None None None))
    as (_ & _ & Himp).
  exact (Himp H).
Defined.

End CloudMore.

(** ** The questionnaire scores *)

Module QuestionnaireProps.
Import Questionnaire QuestionnaireSpec.

Lemma get_question_by_id_cases (question_id : string) :
  get_question_by_id question_id = inl ValueError
  \/ exists question,
       get_question_by_id question_id = inr question
       /\ In question questions
       /\ DiagnosticQuestion.id question = question_id.
Proof.
  unfold get_question_by_id.
  destruct (find _ questions) as [question|] eqn:E; [right | now left].
  apply find_some in E. destruct E as [Hin Heq].
  apply String.eqb_eq in Heq. now exists question.
Qed.

Lemma next_option_cases (question : DiagnosticQuestion.t)
  (option_id : string) :
  next_option question option_id = inl StopIteration
  \/ exists opt,
       next_option question option_id = inr opt
       /\ In opt (DiagnosticQuestion.options question)
       /\ QuestionOption.id opt = option_id.
Proof.
  unfold next_option.
  destruct (find _ (DiagnosticQuestion.options question)) as [opt|] eqn:E;
    [right | now left].
  apply find_some in E. destruct E as [Hin Heq].
  apply String.eqb_eq in Heq. now exists opt.
Qed.

(** Two facts about the twenty-two questions. *)
Lemma question_category_known (question : DiagnosticQuestion.t) :
  In question questions ->
  In (DiagnosticQuestion.category question) (Py.keys categories).
Proof.
  assert (H : forallb
                (fun q => existsb (String.eqb (DiagnosticQuestion.category q))
                            (Py.keys categories))
                questions = true) by (vm_compute; reflexivity).
  rewrite forallb_forall in H. intros Hin. apply H in Hin.
  apply existsb_exists in Hin. destruct Hin as [c [Hc Heq]].
  apply String.eqb_eq in Heq. now subst c.
Qed.

Lemma option_value_range (question : DiagnosticQuestion.t)
  (opt : QuestionOption.t) :
  In question questions ->
  In opt (DiagnosticQuestion.options question) ->
  (1 <= QuestionOption.value opt <= 4)%Z.
Proof.
  assert (H : forallb
                (fun q =>
                   forallb
                     (fun o => (1 <=? QuestionOption.value o)%Z
                               && (QuestionOption.value o <=? 4)%Z)
                     (DiagnosticQuestion.options q))
                questions = true) by (vm_compute; reflexivity).
  rewrite forallb_forall in H. intros Hq Ho. apply H in Hq.
  rewrite forallb_forall in Hq. apply Hq in Ho.
  apply andb_true_iff in Ho. destruct Ho as [H1 H4].
  apply Z.leb_le in H1. apply Z.leb_le in H4. now split.
Qed.

(** What [answer] holds. *)
Lemma answer_cases (item : string * string) :
  answer item = []
  \/ exists question opt,
       answer item = [(question, opt)]
       /\ get_question_by_id (fst item) = inr question
       /\ next_option question (snd item) = inr opt
       /\ In question questions
       /\ In opt (DiagnosticQuestion.options question)
       /\ DiagnosticQuestion.id question = fst item.
Proof.
  unfold answer.
  destruct (get_question_by_id_cases (fst item))
    as [-> | (question & E1 & Hq & Hid)]; [now left|].
  rewrite E1.
  destruct (next_option_cases question (snd item))
    as [-> | (opt & E2 & Ho & _)]; [now left|].
  rewrite E2. right. exists question, opt. repeat split; assumption.
Qed.

Lemma In_answers (responses : Py.dict string)
  (a : DiagnosticQuestion.t * QuestionOption.t) :
  In a (answers responses) ->
  In (fst a) questions
  /\ In (snd a) (DiagnosticQuestion.options (fst a))
  /\ exists item, In item responses
                  /\ DiagnosticQuestion.id (fst a) = fst item
                  /\ next_option (fst a) (snd item) = inr (snd a).
Proof.
  unfold answers. intros H. apply in_flat_map in H.
  destruct H as [item [Hitem Ha]].
  destruct (answer_cases item)
    as [E | (question & opt & E & _ & Hn & Hq & Ho & Hid)];
    rewrite E in Ha; [contradiction|].
  destruct Ha as [<- | []]. cbn [fst snd].
  split; [exact Hq|]. split; [exact Ho|]. now exists item.
Qed.

Lemma points_app (l l' : list (DiagnosticQuestion.t * QuestionOption.t)) :
  points (l ++ l') = (points l + points l')%Z.
Proof.
  unfold points. induction l as [|a l IH]; cbn [app map fold_right]; lia.
Qed.

Lemma number_app (l l' : list (DiagnosticQuestion.t * QuestionOption.t)) :
  number (l ++ l') = (number l + number l')%Z.
Proof. unfold number. rewrite length_app. lia. Qed.

Lemma points_range (l : list (DiagnosticQuestion.t * QuestionOption.t)) :
  (forall a, In a l -> (1 <= QuestionOption.value (snd a) <= 4)%Z) ->
  (number l <= points l <= 4 * number l)%Z.
Proof.
  unfold points, number.
  induction l as [|a l IH]; intros H; cbn [map fold_right List.length];
    [lia|].
  pose proof (H a (or_introl eq_refl)).
  assert (IH' := IH (fun b Hb => H b (or_intror Hb))). lia.
Qed.

Lemma answers_range (responses : Py.dict string) (c : string) :
  (number (filter (in_category c) (answers responses))
   <= points (filter (in_category c) (answers responses))
   <= 4 * number (filter (in_category c) (answers responses)))%Z
  /\ (number (answers responses) <= points (answers responses)
      <= 4 * number (answers responses))%Z.
Proof.
  split; apply points_range; intros a Ha;
    [apply filter_In in Ha; destruct Ha as [Ha _]|];
    apply In_answers in Ha; destruct Ha as (Hq & Ho & _);
    exact (option_value_range _ _ Hq Ho).
Qed.

Lemma get_default_set (d : Py.dict Z) (k k' : string) (v : Z) :
  Py.get_default (Py.dict_set d k v) k' 0%Z
  = if String.eqb k' k then v else Py.get_default d k' 0%Z.
Proof.
  unfold Py.get_default. rewrite PyFacts.dict_get_set.
  now destruct (String.eqb k' k).
Qed.

Lemma iadd_returns (d : Py.dict Z) (k : string) (n : Z) :
  In k (Py.keys d) ->
  iadd d k n = inr (Py.dict_set d k (Py.get_default d k 0%Z + n)%Z)
  /\ Py.keys (Py.dict_set d k (Py.get_default d k 0%Z + n)%Z) = Py.keys d.
Proof.
  intros Hin. split; [|now apply PyFacts.dict_set_keys].
  unfold iadd, getitem, Py.get_default.
  destruct (Py.dict_get d k) eqn:E; [reflexivity|].
  apply PyFacts.dict_get_None_iff in E. contradiction.
Qed.

(** One response: it is tallied when it is valid and skipped otherwise,
    and no [KeyError] escapes. *)
Lemma tally_response_facts (t : Tally) (item : string * string) :
  covers t ->
  exists t',
    tally_response t item = inr t'
    /\ covers t'
    /\ (forall c, Py.get_default (scores t') c 0%Z
                  = (Py.get_default (scores t) c 0%Z
                     + points (filter (in_category c) (answer item)))%Z)
    /\ (forall c, Py.get_default (counts t') c 0%Z
                  = (Py.get_default (counts t) c 0%Z
                     + number (filter (in_category c) (answer item)))%Z)
    /\ total t' = (total t + points (answer item))%Z
    /\ possible t' = (possible t + 4 * number (answer item))%Z.
Proof.
  intros [Hs Hc]. unfold tally_response, try_body.
  destruct (answer_cases item)
    as [E | (question & opt & E & Hq & Hn & Hin & _)]; rewrite E.
  - exists t. split.
    + unfold answer in E.
      destruct (get_question_by_id_cases (fst item))
        as [-> | (question & Hq & _)]; [reflexivity|].
      rewrite Hq in *. cbn [bind].
      destruct (next_option_cases question (snd item))
        as [-> | (opt & Ho & _)]; [reflexivity|].
      rewrite Ho in E. discriminate.
    + split; [now split|]. cbn [filter]. unfold points, number.
      cbn [map fold_right List.length Z.of_nat].
      repeat split; intros; lia.
  - rewrite Hq. cbn [bind]. rewrite Hn. cbn [bind].
    pose proof (question_category_known question Hin) as Hcat.
    destruct (iadd_returns (scores t) (DiagnosticQuestion.category question)
                (QuestionOption.value opt)) as [-> Hks];
      [now rewrite Hs|].
    destruct (iadd_returns (counts t) (DiagnosticQuestion.category question)
                1) as [-> Hkc]; [now rewrite Hc|].
    cbn [bind ret]. eexists. split; [reflexivity|].
    cbn [scores counts total possible]. split.
    { unfold covers. cbn [scores counts].
      split; [now rewrite Hks | now rewrite Hkc]. }
    unfold points, number, in_category. cbn [filter fst snd].
    split; [|split; [|split]].
    + intros c. rewrite get_default_set, (String.eqb_sym c).
      destruct (String.eqb (DiagnosticQuestion.category question) c) eqn:Ec;
        cbn [map fold_right snd].
      * apply String.eqb_eq in Ec. subst c. lia.
      * lia.
    + intros c. rewrite get_default_set, (String.eqb_sym c).
      destruct (String.eqb (DiagnosticQuestion.category question) c) eqn:Ec;
        cbn [List.length].
      * apply String.eqb_eq in Ec. subst c. lia.
      * lia.
    + cbn [map fold_right snd]. lia.
    + cbn [List.length]. lia.
Qed.

Lemma tally_responses_facts (items : list (string * string)) (t : Tally) :
  covers t ->
  exists t',
    tally_responses items t = inr t'
    /\ covers t'
    /\ (forall c, Py.get_default (scores t') c 0%Z
                  = (Py.get_default (scores t) c 0%Z
                     + points (filter (in_category c) (answers items)))%Z)
    /\ (forall c, Py.get_default (counts t') c 0%Z
                  = (Py.get_default (counts t) c 0%Z
                     + number (filter (in_category c) (answers items)))%Z)
    /\ total t' = (total t + points (answers items))%Z
    /\ possible t' = (possible t + 4 * number (answers items))%Z.
Proof.
  revert t. induction items as [|item items IH]; intros t Ht.
  - exists t. cbn [tally_responses answers flat_map filter].
    unfold points, number. cbn [map fold_right List.length Z.of_nat].
    split; [reflexivity|]. split; [exact Ht|].
    repeat split; intros; lia.
  - destruct (tally_response_facts t item Ht)
      as (t1 & E1 & H1 & S1 & C1 & T1 & P1).
    destruct (IH t1 H1) as (t2 & E2 & H2 & S2 & C2 & T2 & P2).
    exists t2. cbn [tally_responses]. rewrite E1. cbn [bind].
    split; [exact E2|]. split; [exact H2|].
    unfold answers. cbn [flat_map]. fold (answers items).
    split; [|split; [|split]].
    + intros c. rewrite S2, S1, filter_app, points_app. lia.
    + intros c. rewrite C2, C1, filter_app, number_app. lia.
    + rewrite T2, T1, points_app. lia.
    + rewrite P2, P1, number_app. lia.
Qed.

Lemma get_default_zeros (c : string) : Py.get_default zeros c 0%Z = 0%Z.
Proof.
  unfold Py.get_default, zeros.
  induction (Py.keys categories) as [|k ks IH]; cbn [map Py.dict_get];
    [reflexivity|].
  now destruct (String.eqb c k).
Qed.

Lemma covers_initial : covers initial_tally.
Proof. split; reflexivity. Qed.

Lemma getitem_covered (d : Py.dict Z) (c : string) :
  In c (Py.keys d) -> getitem d c = inr (Py.get_default d c 0%Z).
Proof.
  intros Hin. unfold getitem, Py.get_default.
  destruct (Py.dict_get d c) eqn:E; [reflexivity|].
  apply PyFacts.dict_get_None_iff in E. contradiction.
Qed.

Lemma int_truediv_returns (a b : Z) :
  (0 < b)%Z -> truediv a b = inr (inject_Z a / inject_Z b)%Q.
Proof.
  intros Hb. unfold truediv. rewrite PyFacts.truediv_returns; [reflexivity|].
  intros H. unfold Qeq in H. simpl in H. lia.
Qed.

Lemma percentage_step_returns (t : Tally) (pcts : Py.dict Q) (cat : string) :
  covers t -> In cat (Py.keys categories) ->
  percentage_step t pcts cat
  = inr (Py.dict_set pcts cat
           (ratio (Py.get_default (scores t) cat 0%Z)
              (Py.get_default (counts t) cat 0%Z))).
Proof.
  intros [Hs Hc] Hin. unfold percentage_step, ratio.
  rewrite (getitem_covered (counts t) cat) by now rewrite Hc.
  cbn [bind].
  destruct (0 <? Py.get_default (counts t) cat 0%Z)%Z eqn:E; [|reflexivity].
  apply Z.ltb_lt in E.
  rewrite (getitem_covered (scores t) cat) by now rewrite Hs.
  cbn [bind]. rewrite int_truediv_returns by lia. reflexivity.
Qed.

Lemma percentages_returns (t : Tally) (cats : list string)
  (pcts : Py.dict Q) :
  covers t -> incl cats (Py.keys categories) ->
  exists pcts',
    percentages t cats pcts = inr pcts'
    /\ (forall c, In c cats ->
                  Py.dict_get pcts' c
                  = Some (ratio (Py.get_default (scores t) c 0%Z)
                            (Py.get_default (counts t) c 0%Z)))
    /\ (forall c, ~ In c cats -> Py.dict_get pcts' c = Py.dict_get pcts c).
Proof.
  intros Ht. revert pcts.
  induction cats as [|cat cats IH]; intros pcts Hincl.
  - exists pcts. cbn [percentages]. split; [reflexivity|].
    split; [intros c []|reflexivity].
  - cbn [percentages].
    rewrite (percentage_step_returns t pcts cat Ht)
      by (apply Hincl; now left).
    cbn [bind].
    destruct (IH (Py.dict_set pcts cat
                    (ratio (Py.get_default (scores t) cat 0%Z)
                       (Py.get_default (counts t) cat 0%Z))))
      as (pcts' & E & Hin & Hout).
    { intros c Hc. apply Hincl. now right. }
    exists pcts'. split; [exact E|]. split.
    + intros c Hc.
      destruct (in_dec string_dec c cats) as [Hc' | Hc'];
        [now apply Hin|].
      destruct Hc as [<- | Hc]; [|contradiction].
      rewrite (Hout _ Hc'), PyFacts.dict_get_set, String.eqb_refl.
      reflexivity.
    + intros c Hc. rewrite Hout by (intros H; apply Hc; now right).
      rewrite PyFacts.dict_get_set.
      destruct (String.eqb c cat) eqn:Ec; [|reflexivity].
      apply String.eqb_eq in Ec. subst c. exfalso. apply Hc. now left.
Qed.

Lemma overall_returns (t : Tally) (n : Z) :
  possible t = (4 * n)%Z ->
  overall t = inr (ratio (total t) n).
Proof.
  intros Hp. unfold overall, ratio. rewrite Hp.
  replace (0 <? 4 * n)%Z with (0 <? n)%Z
    by (destruct (0 <? n)%Z eqn:E; symmetry;
        [apply Z.ltb_lt in E; apply Z.ltb_lt
        |apply Z.ltb_ge in E; apply Z.ltb_ge]; lia).
  destruct (0 <? n)%Z eqn:E; [|reflexivity].
  apply Z.ltb_lt in E. rewrite int_truediv_returns by lia. cbn [bind ret].
  now rewrite (Z.mul_comm n 4).
Qed.

Lemma ratio_bounds (s n : Z) (a : Z) :
  (0 < n)%Z ->
  ((inject_Z a <= ratio s n)%Q <-> (a * n <= 25 * s)%Z)
  /\ ((ratio s n < inject_Z a)%Q <-> (25 * s < a * n)%Z)
  /\ ((ratio s n <= inject_Z a)%Q <-> (25 * s <= a * n)%Z).
Proof.
  intros Hn. unfold ratio.
  assert (E : (0 <? n)%Z = true) by now apply Z.ltb_lt.
  rewrite E.
  assert (Heq : (inject_Z s / inject_Z (n * 4) * 100
                 == inject_Z (25 * s) / inject_Z n)%Q).
  { rewrite !inject_Z_mult. field.
    intros H. unfold Qeq in H. simpl in H. lia. }
  rewrite Heq.
  assert (Hn' : (0 < inject_Z n)%Q) by (unfold Qlt; simpl; lia).
  assert (Hne : ~ (inject_Z n == 0)%Q)
    by (intros E'; rewrite E' in Hn'; discriminate).
  split; [|split]; split; intros H.
  - apply (Qmult_le_compat_r _ _ (inject_Z n)) in H; [|now apply Qlt_le_weak].
    unfold Qdiv in H. rewrite <- Qmult_assoc, (Qmult_comm (/ _)) in H.
    rewrite Qmult_inv_r, Qmult_1_r in H by exact Hne.
    rewrite <- inject_Z_mult, <- Zle_Qle in H. exact H.
  - apply Qle_shift_div_l; [exact Hn'|].
    rewrite <- inject_Z_mult, <- Zle_Qle. exact H.
  - apply (Qmult_lt_compat_r _ _ (inject_Z n)) in H; [|exact Hn'].
    unfold Qdiv in H. rewrite <- Qmult_assoc, (Qmult_comm (/ _)) in H.
    rewrite Qmult_inv_r, Qmult_1_r in H by exact Hne.
    rewrite <- inject_Z_mult, <- Zlt_Qlt in H. exact H.
  - apply Qlt_shift_div_r; [exact Hn'|].
    rewrite <- inject_Z_mult, <- Zlt_Qlt. exact H.
  - apply (Qmult_le_compat_r _ _ (inject_Z n)) in H; [|now apply Qlt_le_weak].
    unfold Qdiv in H. rewrite <- Qmult_assoc, (Qmult_comm (/ _)) in H.
    rewrite Qmult_inv_r, Qmult_1_r in H by exact Hne.
    rewrite <- inject_Z_mult, <- Zle_Qle in H. exact H.
  - apply Qle_shift_div_r; [exact Hn'|].
    rewrite <- inject_Z_mult, <- Zle_Qle. exact H.
Qed.

Lemma ratio_zero (s n : Z) : (n <= 0)%Z -> ratio s n = 0%Q.
Proof.
  intros H. unfold ratio.
  destruct (0 <? n)%Z eqn:E; [|reflexivity]. apply Z.ltb_lt in E. lia.
Qed.

Lemma ratio_range (s n : Z) :
  (n <= s <= 4 * n)%Z -> score_range (ratio s n).
Proof.
  intros H. destruct (Z_lt_le_dec 0 n) as [Hn | Hn].
  - right. split.
    + change 25%Q with (inject_Z 25).
      apply (proj1 (ratio_bounds s n 25 Hn)). lia.
    + change 100%Q with (inject_Z 100).
      apply (proj2 (proj2 (ratio_bounds s n 100 Hn))). lia.
  - left. now rewrite ratio_zero.
Qed.

Lemma dict_get_covered (d : Py.dict Z) (c : string) :
  In c (Py.keys d) -> Py.dict_get d c = Some (Py.get_default d c 0%Z).
Proof.
  intros Hin. unfold Py.get_default.
  destruct (Py.dict_get d c) eqn:E; [reflexivity|].
  apply PyFacts.dict_get_None_iff in E. contradiction.
Qed.

(** The result of [calculate_score] in terms of the valid responses. *)
Lemma calculate_score_facts (responses : Py.dict string) :
  exists res,
    calculate_score responses = inr res
    /\ Py.keys (category_scores res) = Py.keys categories
    /\ Py.keys (category_counts res) = Py.keys categories
    /\ (forall c,
          In c (Py.keys categories) ->
          Py.dict_get (category_counts res) c
          = Some (number (filter (in_category c) (answers responses)))
          /\ Py.dict_get (category_scores res) c
             = Some (points (filter (in_category c) (answers responses)))
          /\ Py.dict_get (category_percentages res) c
             = Some (ratio
                       (points (filter (in_category c) (answers responses)))
                       (number (filter (in_category c) (answers responses)))))
    /\ (forall c, ~ In c (Py.keys categories) ->
                  Py.dict_get (category_percentages res) c = None)
    /\ total_score res = points (answers responses)
    /\ max_possible res = (4 * number (answers responses))%Z
    /\ overall_percentage res
       = ratio (points (answers responses)) (number (answers responses)).
Proof.
  unfold calculate_score.
  destruct (tally_responses_facts responses initial_tally covers_initial)
    as (t & -> & Ht & Hs & Hc & Htot & Hpos).
  cbn [bind]. cbn [initial_tally scores counts total possible] in *.
  destruct (percentages_returns t (Py.keys categories) [] Ht
              (incl_refl _)) as (pcts & -> & Hin & Hout).
  cbn [bind].
  rewrite (overall_returns t (number (answers responses)))
    by (rewrite Hpos; lia).
  cbn [bind ret]. eexists. split; [reflexivity|].
  cbn [category_scores category_counts category_percentages total_score
       max_possible overall_percentage].
  destruct Ht as [Hks Hkc].
  split; [exact Hks|]. split; [exact Hkc|]. split.
  { intros c Hc'.
    rewrite (dict_get_covered (counts t) c) by now rewrite Hkc.
    rewrite (dict_get_covered (scores t) c) by now rewrite Hks.
    rewrite (Hin c Hc'), Hs, Hc, !get_default_zeros.
    now rewrite !Z.add_0_l. }
  split; [intros c Hc'; now rewrite (Hout c Hc')|].
  rewrite Htot, Hpos. repeat split; lia.
Qed.

(** [calculate_score] returns for every dictionary of responses, also
    one with unknown question or option ids.  It counts the valid
    responses only: per category and overall, the score is the sum of the
    points of the options selected, the maximum is 4 points per valid
    response, and the percentage is their quotient, 0 when there is no
    valid response.  Since every option of the questionnaire carries 1
    to 4 points, a percentage is 0 or lies between 25 and 100. *)
Theorem calculate_score_counts_valid_responses (responses : Py.dict string) :
  let valid := answers responses in
  exists res,
    calculate_score responses = inr res
    /\ Forall
         (fun c =>
            Py.dict_get (category_counts res) c
            = Some (number (filter (in_category c) valid))
            /\ Py.dict_get (category_scores res) c
               = Some (points (filter (in_category c) valid))
            /\ Py.dict_get (category_percentages res) c
               = Some (ratio (points (filter (in_category c) valid))
                         (number (filter (in_category c) valid)))
            /\ score_range
                 (ratio (points (filter (in_category c) valid))
                    (number (filter (in_category c) valid))))
         (Py.keys categories)
    /\ Py.keys (category_scores res) = Py.keys categories
    /\ Py.keys (category_counts res) = Py.keys categories
    /\ total_score res = points valid
    /\ max_possible res = (4 * number valid)%Z
    /\ (total_score res <= max_possible res)%Z
    /\ overall_percentage res = ratio (points valid) (number valid)
    /\ score_range (overall_percentage res).
Proof.
  cbn zeta.
  destruct (calculate_score_facts responses)
    as (res & E & Hks & Hkc & Hcat & _ & Htot & Hmax & Hov).
  exists res. split; [exact E|]. split.
  { apply Forall_forall. intros c Hc.
    destruct (Hcat c Hc) as (H1 & H2 & H3).
    repeat split; try assumption.
    apply ratio_range, (proj1 (answers_range responses c)). }
  pose proof (proj2 (answers_range responses "")) as Hr.
  repeat split; try assumption.
  - rewrite Htot, Hmax. lia.
  - rewrite Hov. now apply ratio_range.
Qed.

End QuestionnaireProps.

(** ** The time savings and the recommendations drawn from them *)

Module AnalyzerMore.
Import Analyzer AnalyzerSpec.

Lemma lt_asym (a b : Q) : Py.lt a b = true -> Py.lt b a = false.
Proof.
  intros H. apply PyFacts.lt_iff in H. apply PyFacts.lt_false_iff.
  now apply Qlt_le_weak.
Qed.

Lemma nlt_trans (a b c : Q) :
  Py.lt a b = false -> Py.lt b c = false -> Py.lt a c = false.
Proof.
  rewrite !PyFacts.lt_false_iff. intros H1 H2.
  now apply Qle_trans with (y := b).
Qed.

(** The savings of a category, by the band of its score. *)
Lemma potential_savings_cases (data : Allocation) (p : Q) :
  ((p < 40)%Q /\ potential_savings data p = (weekly data * 0.7 * 0.6)%Q)
  \/ ((40 <= p)%Q /\ (p < 70)%Q
      /\ potential_savings data p = (weekly data * 0.4 * 0.5)%Q)
  \/ ((70 <= p)%Q
      /\ potential_savings data p = (weekly data * 0.15 * 0.4)%Q).
Proof.
  unfold potential_savings, waste_factor, optimization_factor.
  destruct (AnalyzerProps.factors_spec p)
    as [[H ->] | [[H1 [H2 ->]] | [H ->]]]; cbn [fst snd]; auto.
Qed.

Lemma difficulty_in_levels (p : Q) : In (difficulty_and_cost p) effort_levels.
Proof.
  unfold difficulty_and_cost, effort_levels.
  destruct (Py.lt p 30); [now left|].
  destruct (Py.lt p 50); [right; now left | right; right; now left].
Qed.

Ltac allocation_cases H :=
  unfold time_allocations in H; cbn [In] in H;
  repeat (destruct H as [H|H]; [injection H as <- <-|]);
  [ | | | | | contradiction].

(** The output of [_calculate_time_savings] is in descending order of
    savings.  Every recommendation in it saves more than half an hour and
    less than the hours spent now, its optimized hours are the current
    hours minus the savings, its priority is High exactly when it saves
    more than 2 hours, and its difficulty and cost are one of the three
    pairs Hard, Medium, Easy. *)
Theorem time_savings_ranked (cp : Py.dict Q) :
  StronglySorted saves_no_less (_calculate_time_savings cp)
  /\ forall r,
       In r (_calculate_time_savings cp) ->
       (0.5 < time_savings r)%Q
       /\ (time_savings r < current_time_weekly r)%Q
       /\ optimized_time_weekly r
          = (current_time_weekly r - time_savings r)%Q
       /\ (0 < optimized_time_weekly r)%Q
       /\ (priority r = "High" <-> (2 < time_savings r)%Q)
       /\ (priority r = "High" \/ priority r = "Medium")
       /\ In (implementation_time r, estimated_cost r) effort_levels.
Proof.
  split.
  - unfold _calculate_time_savings.
    eapply CoordinatorOrder.StronglySorted_weaken;
      [|apply (PyFacts.sorted_reverse_sorted Py.lt time_savings
                 lt_asym nlt_trans)].
    intros a b H. unfold Py.not_below in H. unfold saves_no_less.
    now apply PyFacts.lt_false_iff.
  - intros r Hr. unfold _calculate_time_savings in Hr.
    apply PyFacts.sorted_reverse_In, in_flat_map in Hr.
    destruct Hr as [[category data] [Hin Hr]].
    apply AnalyzerProps.recommend_In in Hr. destruct Hr as [Hgt ->].
    cbn [time_savings current_time_weekly optimized_time_weekly priority
         implementation_time estimated_cost].
    set (p := percentage_of cp category) in *.
    assert (Hlt : (potential_savings data p < weekly data)%Q
                  /\ (0 < weekly data - potential_savings data p)%Q).
    { clear Hgt.
      destruct (potential_savings_cases data p)
        as [[_ ->] | [(_ & _ & ->) | [_ ->]]];
        allocation_cases Hin; cbn [weekly]; split; reflexivity. }
    destruct Hlt as [Hlt Hpos].
    split; [exact Hgt|]. split; [exact Hlt|]. split; [reflexivity|].
    split; [exact Hpos|]. split; [|split].
    + destruct (Py.gt (potential_savings data p) 2) eqn:E.
      * apply PyFacts.gt_iff in E. split; [now intros _ | reflexivity].
      * apply PyFacts.gt_false_iff in E. split; [discriminate|].
        intros H. apply Qlt_not_le in H. contradiction.
    + destruct (Py.gt (potential_savings data p) 2); [now left|now right].
    + rewrite <- surjective_pairing. apply difficulty_in_levels.
Qed.

Lemma time_savings_ranked_witness :
  exists r,
    In r (_calculate_time_savings AnalyzerExamples.scores)
    /\ (0.5 < time_savings r)%Q
    /\ (0 < optimized_time_weekly r)%Q.
Proof.
  destruct (time_savings_ranked AnalyzerExamples.scores) as [_ H].
  assert (Hin : exists r,
             In r (_calculate_time_savings AnalyzerExamples.scores))
    by (vm_compute; eexists; left; reflexivity).
  destruct Hin as [r Hr]. exists r. split; [exact Hr|].
  destruct (H r Hr) as (H1 & _ & _ & H4 & _).
  split; [exact H1 | exact H4].
Defined.


Lemma time_savings_length (cp : Py.dict Q) :
  2 <= List.length (_calculate_time_savings cp) <= 5.
Proof.
  unfold _calculate_time_savings.
  rewrite PyFacts.sorted_reverse_length.
  unfold time_allocations. cbn [flat_map]. rewrite !length_app.
  cbn [List.length]. rewrite Nat.add_0_r.
  assert (Hone : forall item, List.length (recommend cp item) <= 1).
  { intros [c data]. unfold recommend.
    destruct (Py.gt _ _); cbn [List.length]; lia. }
  assert (Hdoc : List.length
                   (recommend cp
                      ("documents",
                       mkAllocation 12 "hours on document drafting")) = 1).
  { unfold recommend.
    destruct (potential_savings_cases
                (mkAllocation 12 "hours on document drafting")
                (percentage_of cp "documents"))
      as [[_ ->] | [(_ & _ & ->) | [_ ->]]]; reflexivity. }
  assert (Hadm : List.length
                   (recommend cp
                      ("admin",
                       mkAllocation 10 "hours on administrative tasks"))
                 = 1).
  { unfold recommend.
    destruct (potential_savings_cases
                (mkAllocation 10 "hours on administrative tasks")
                (percentage_of cp "admin"))
      as [[_ ->] | [(_ & _ & ->) | [_ ->]]]; reflexivity. }
  rewrite Hdoc, Hadm.
  pose proof (Hone ("intake", mkAllocation 8 "hours spent on intake")).
  pose proof (Hone ("case_management",
                    mkAllocation 6 "hours on case/deadline tracking")).
  pose proof (Hone ("billing",
                    mkAllocation 4 "hours on billing/time tracking")).
  lia.
Qed.



End AnalyzerMore.

(** ** The detailed analysis of a questionnaire *)

Module PracticeAnalyzerProps.
Import Questionnaire QuestionnaireSpec PracticeAnalyzer AnalyzerSpec.

(** *** [_generate_recommendations] *)

Lemma perm_sum (l l' : list Q) :
  Permutation l l' ->
  (fold_right Qplus 0 l == fold_right Qplus 0 l')%Q.
Proof.
  intros H. induction H as [|x l l' H IH|x y l|l l' l'' H1 IH1 H2 IH2];
    cbn [fold_right].
  - reflexivity.
  - now rewrite IH.
  - ring.
  - now rewrite IH1.
Qed.

Lemma sum_app (l l' : list Q) :
  (fold_right Qplus 0 (l ++ l')
   == fold_right Qplus 0 l + fold_right Qplus 0 l')%Q.
Proof.
  induction l as [|x l IH]; cbn [app fold_right]; [ring|].
  rewrite IH. ring.
Qed.

(** What one category adds to the total. *)
Lemma contribution_range (cp : Py.dict Q) (c : string)
  (data : Analyzer.Allocation) :
  In (c, data) Analyzer.time_allocations ->
  let x := fold_right Qplus 0%Q
             (map Analyzer.time_savings (Analyzer.recommend cp (c, data))) in
  (0 <= x)%Q
  /\ (x <= Analyzer.weekly data * 0.42)%Q
  /\ (c = "documents" -> (0.72 <= x)%Q)
  /\ (c = "admin" -> (0.6 <= x)%Q).
Proof.
  intros Hin. cbn zeta. unfold Analyzer.recommend.
  destruct (AnalyzerMore.potential_savings_cases data
              (Analyzer.percentage_of cp c))
    as [[_ ->] | [(_ & _ & ->) | [_ ->]]];
    AnalyzerMore.allocation_cases Hin; cbn [Analyzer.weekly];
    (split; [|split; [|split]]);
    try (intros Hc; discriminate Hc); try intros _;
    vm_compute; discriminate.
Qed.

Lemma total_of_time_savings (cp : Py.dict Q) :
  (1.32 <= Py.sum (map Analyzer.time_savings
                     (Analyzer._calculate_time_savings cp)))%Q
  /\ (Py.sum (map Analyzer.time_savings
                (Analyzer._calculate_time_savings cp)) <= 16.8)%Q.
Proof.
  rewrite PyFacts.sum_fold_right.
  unfold Analyzer._calculate_time_savings.
  rewrite <- (perm_sum _ _
                (Permutation_map Analyzer.time_savings
                   (PyFacts.sorted_reverse_perm Py.lt Analyzer.time_savings
                      (flat_map (Analyzer.recommend cp)
                         Analyzer.time_allocations)))).
  unfold Analyzer.time_allocations. cbn [flat_map].
  rewrite !map_app, !sum_app. cbn [map fold_right].
  pose proof (contribution_range cp "intake" _
                (or_introl eq_refl)) as (L1 & U1 & _).
  pose proof (contribution_range cp "documents" _
                (or_intror (or_introl eq_refl))) as (_ & U2 & L2 & _).
  pose proof (contribution_range cp "case_management" _
                (or_intror (or_intror (or_introl eq_refl))))
    as (L3 & U3 & _).
  pose proof (contribution_range cp "billing" _
                (or_intror (or_intror (or_intror (or_introl eq_refl)))))
    as (L4 & U4 & _).
  pose proof (contribution_range cp "admin" _
                (or_intror (or_intror (or_intror
                   (or_intror (or_introl eq_refl))))))
    as (_ & U5 & _ & L5).
  specialize (L2 eq_refl). specialize (L5 eq_refl).
  cbn [Analyzer.weekly] in *.
  split; lra.
Qed.

Lemma In_with_implementation_time (label : string)
  (ts : list Analyzer.TimeSavingRecommendation) (n : nat)
  (r : Analyzer.TimeSavingRecommendation) :
  In r (firstn n (with_implementation_time label ts)) ->
  In r ts /\ Analyzer.implementation_time r = label.
Proof.
  intros H. apply PyFacts.In_firstn in H.
  unfold with_implementation_time in H. apply filter_In in H.
  destruct H as [H E]. apply String.eqb_eq in E. now split.
Qed.

Lemma filter_three_labels (ts : list Analyzer.TimeSavingRecommendation) :
  List.length (with_implementation_time "Easy" ts)
  + List.length (with_implementation_time "Medium" ts)
  + List.length (with_implementation_time "Hard" ts)
  <= List.length ts.
Proof.
  unfold with_implementation_time.
  induction ts as [|r ts IH]; cbn [filter List.length]; [lia|].
  destruct (String.eqb (Analyzer.implementation_time r) "Easy") eqn:E1;
    destruct (String.eqb (Analyzer.implementation_time r) "Medium") eqn:E2;
    destruct (String.eqb (Analyzer.implementation_time r) "Hard") eqn:E3;
    cbn [List.length]; try lia;
    repeat match goal with
           | H : String.eqb _ _ = true |- _ => apply String.eqb_eq in H
           end; congruence.
Qed.

(** The recommendations drawn from the time savings of any scores.  The
    savings list is never empty, so the empty branch is not taken; the
    total adds up the savings of every recommendation, listed or not, and
    lies between 1.32 and 16.8 hours a week; the three lists hold at most
    three, three and two recommendations, each of them from the savings
    list and of the difficulty of its list, and together no more than the
    savings list holds. *)
Theorem recommendation_lists_and_total (responses : Py.dict string)
  (cp : Py.dict Q) :
  let ts := Analyzer._calculate_time_savings cp in
  let recs := _generate_recommendations responses ts in
  ts <> []
  /\ total_weekly_savings recs = Py.sum (map Analyzer.time_savings ts)
  /\ (1.32 <= total_weekly_savings recs)%Q
  /\ (total_weekly_savings recs <= 16.8)%Q
  /\ List.length (quick_wins recs) <= 3
  /\ List.length (short_term recs) <= 3
  /\ List.length (long_term recs) <= 2
  /\ List.length (quick_wins recs) + List.length (short_term recs)
     + List.length (long_term recs) <= List.length ts
  /\ (forall r, In r (quick_wins recs) ->
                In r ts /\ Analyzer.implementation_time r = "Easy")
  /\ (forall r, In r (short_term recs) ->
                In r ts /\ Analyzer.implementation_time r = "Medium")
  /\ (forall r, In r (long_term recs) ->
                In r ts /\ Analyzer.implementation_time r = "Hard").
Proof.
  cbn zeta.
  pose proof (AnalyzerMore.time_savings_length cp) as Hlen.
  destruct (total_of_time_savings cp) as [Hlo Hhi].
  pose proof (filter_three_labels (Analyzer._calculate_time_savings cp))
    as Hsum.
  assert (Hin : forall label n r,
             In r (firstn n (with_implementation_time label
                               (Analyzer._calculate_time_savings cp))) ->
             In r (Analyzer._calculate_time_savings cp)
             /\ Analyzer.implementation_time r = label)
    by (intros label n r; apply In_with_implementation_time).
  pose proof (length_firstn 3 (with_implementation_time "Easy"
                (Analyzer._calculate_time_savings cp))) as F1.
  pose proof (length_firstn 3 (with_implementation_time "Medium"
                (Analyzer._calculate_time_savings cp))) as F2.
  pose proof (length_firstn 2 (with_implementation_time "Hard"
                (Analyzer._calculate_time_savings cp))) as F3.
  unfold _generate_recommendations.
  destruct (Analyzer._calculate_time_savings cp) as [|r0 ts0] eqn:E.
  { cbn [List.length] in Hlen. lia. }
  cbn [quick_wins short_term long_term total_weekly_savings].
  split; [discriminate|]. split; [reflexivity|].
  split; [exact Hlo|]. split; [exact Hhi|].
  split; [lia|]. split; [lia|]. split; [lia|]. split; [lia|].
  split; [|split]; intros r Hr; eapply Hin; exact Hr.
Qed.

Lemma recommendation_lists_and_total_witness :
  exists r,
    In r (quick_wins
            (_generate_recommendations QuestionnaireExamples.responses
               (Analyzer._calculate_time_savings AnalyzerExamples.scores)))
    /\ Analyzer.implementation_time r = "Easy".
Proof.
  destruct (recommendation_lists_and_total QuestionnaireExamples.responses
              AnalyzerExamples.scores)
    as (_ & _ & _ & _ & _ & _ & _ & _ & H & _).
  assert (Hin : exists r,
             In r (quick_wins
                     (_generate_recommendations
                        QuestionnaireExamples.responses
                        (Analyzer._calculate_time_savings
                           AnalyzerExamples.scores))))
    by (vm_compute; eexists; left; reflexivity).
  destruct Hin as [r Hr]. exists r. split; [exact Hr|].
  exact (proj2 (H r Hr)).
Defined.

(** With five scores of 60 every category is an Easy recommendation:
    three of the five are listed as quick wins, the other two in no list,
    and the total counts all five. *)
Example two_recommendations_unlisted :
  let cp := [("intake", 60%Q); ("documents", 60%Q);
             ("case_management", 60%Q); ("billing", 60%Q);
             ("admin", 60%Q)] in
  let recs := _generate_recommendations []
                (Analyzer._calculate_time_savings cp) in
  List.length (Analyzer._calculate_time_savings cp) = 5
  /\ map Analyzer.area (quick_wins recs)
     = ["Document Drafting & Templates"; "Administrative Tasks";
        "Client Intake & Management"]
  /\ short_term recs = [] /\ long_term recs = []
  /\ Qred (total_weekly_savings recs) = 8%Q.
Proof. vm_compute. repeat split. Qed.

(** *** [_analyze_categories] on the scores of [calculate_score] *)

Lemma getitem_Some {V} (d : Py.dict V) (c : string) (v : V) :
  Py.dict_get d c = Some v -> getitem d c = inr v.
Proof. intros H. unfold getitem. now rewrite H. Qed.

Lemma analyze_categories_facts (responses : Py.dict string)
  (res : ScoreResults) (pct : string -> Q) (cnt : string -> Z)
  (cats : list string) (acc : Py.dict CategoryAnalysis.t) :
  (forall c, In c cats ->
             Py.dict_get (category_percentages res) c = Some (pct c)
             /\ Py.dict_get (category_counts res) c = Some (cnt c)) ->
  NoDup cats ->
  exists ca,
    analyze_categories responses res cats acc = inr ca
    /\ (forall c,
          In c cats ->
          Py.dict_get ca c
          = if (cnt c =? 0)%Z then Py.dict_get acc c
            else Some (CategoryAnalysis.mk
                         (fst (severity_and_priority (pct c)))
                         (snd (severity_and_priority (pct c)))
                         (pct c) (cnt c)
                         (flat_map (low_scoring_of responses)
                            (get_questions_by_category c))))
    /\ (forall c, ~ In c cats -> Py.dict_get ca c = Py.dict_get acc c).
Proof.
  revert acc. induction cats as [|cat cats IH]; intros acc Hres Hnd.
  - exists acc. cbn [analyze_categories]. split; [reflexivity|].
    split; [intros c []|reflexivity].
  - inversion Hnd as [|? ? Hcat Hnd']; subst.
    destruct (Hres cat (or_introl eq_refl)) as [Hp Hc].
    cbn [analyze_categories]. unfold analyze_category.
    rewrite (getitem_Some _ _ _ Hp), (getitem_Some _ _ _ Hc).
    cbn [bind].
    assert (Hres' : forall c, In c cats ->
               Py.dict_get (category_percentages res) c = Some (pct c)
               /\ Py.dict_get (category_counts res) c = Some (cnt c))
      by (intros c Hc'; apply Hres; now right).
    destruct (cnt cat =? 0)%Z eqn:E; cbn [bind ret].
    + destruct (IH acc Hres' Hnd') as (ca & Eca & Hin & Hout).
      exists ca. split; [exact Eca|]. split.
      * intros c [<- | Hc']; [|now apply Hin].
        now rewrite (Hout _ Hcat), E.
      * intros c Hc'. apply Hout. intros H. apply Hc'. now right.
    + destruct (IH (Py.dict_set acc cat
                      (CategoryAnalysis.mk
                         (fst (severity_and_priority (pct cat)))
                         (snd (severity_and_priority (pct cat)))
                         (pct cat) (cnt cat)
                         (flat_map (low_scoring_of responses)
                            (get_questions_by_category cat))))
                  Hres' Hnd') as (ca & Eca & Hin & Hout).
      exists ca. split; [exact Eca|]. split.
      * intros c [<- | Hc'].
        -- rewrite (Hout _ Hcat), E, PyFacts.dict_get_set, String.eqb_refl.
           reflexivity.
        -- rewrite (Hin _ Hc'), PyFacts.dict_get_set.
           destruct (String.eqb c cat) eqn:Ec; [|reflexivity].
           apply String.eqb_eq in Ec. subst c. contradiction.
      * intros c Hc'. rewrite Hout by (intros H; apply Hc'; now right).
        rewrite PyFacts.dict_get_set.
        destruct (String.eqb c cat) eqn:Ec; [|reflexivity].
        apply String.eqb_eq in Ec. subst c. exfalso. apply Hc'. now left.
Qed.

Lemma categories_NoDup : NoDup (Py.keys categories).
Proof. vm_compute. FsMore.nodup_strings. Qed.

(** The analysis of any responses: it returns, and its parts are these. *)
Lemma analysis_facts (now : string) (responses : Py.dict string) :
  exists a res,
    analyze_responses_detailed now responses = inr a
    /\ calculate_score responses = inr res
    /\ score_results a = res
    /\ time_savings a
       = Analyzer._calculate_time_savings (category_percentages res)
    /\ recommendations a
       = _generate_recommendations responses (time_savings a)
    /\ benchmark a = _compare_to_benchmarks res
    /\ (forall c,
          In c (Py.keys categories) ->
          let valid := filter (in_category c) (answers responses) in
          Py.dict_get (category_percentages res) c
          = Some (ratio (points valid) (number valid))
          /\ Py.dict_get (category_analysis a) c
             = if (number valid =? 0)%Z then None
               else Some (CategoryAnalysis.mk
                            (fst (severity_and_priority
                                    (ratio (points valid) (number valid))))
                            (snd (severity_and_priority
                                    (ratio (points valid) (number valid))))
                            (ratio (points valid) (number valid))
                            (number valid)
                            (flat_map (low_scoring_of responses)
                               (get_questions_by_category c))))
    /\ (forall c, ~ In c (Py.keys categories) ->
                  Py.dict_get (category_analysis a) c = None).
Proof.
  destruct (QuestionnaireProps.calculate_score_facts responses)
    as (res & E & _ & _ & Hcat & _).
  destruct (analyze_categories_facts responses res
              (fun c => ratio
                          (points (filter (in_category c)
                                     (answers responses)))
                          (number (filter (in_category c)
                                     (answers responses))))
              (fun c => number (filter (in_category c) (answers responses)))
              (Py.keys categories) [])
    as (ca & Eca & Hin & Hout).
  { intros c Hc. destruct (Hcat c Hc) as (H1 & _ & H3). now split. }
  { exact categories_NoDup. }
  unfold analyze_responses_detailed. rewrite E. cbn [bind].
  unfold _analyze_categories. rewrite Eca. cbn [bind ret].
  eexists. exists res. split; [reflexivity|].
  cbn [score_results time_savings recommendations benchmark
       category_analysis].
  repeat (split; [reflexivity|]). split.
  - intros c Hc. cbn zeta. split; [apply (Hcat c Hc)|].
    rewrite (Hin c Hc). reflexivity.
  - intros c Hc. now rewrite (Hout c Hc).
Qed.

Lemma number_zero_iff (l : list (DiagnosticQuestion.t * QuestionOption.t)) :
  (number l =? 0)%Z = true <-> l = [].
Proof.
  unfold number. rewrite Z.eqb_eq. destruct l; cbn [List.length]; split;
    intros H; try reflexivity; try discriminate H; lia.
Qed.

Lemma severity_cases (p : Q) :
  (fst (severity_and_priority p) = "Good"
   /\ snd (severity_and_priority p) = "Low" /\ (70 <= p)%Q)
  \/ (fst (severity_and_priority p) = "Needs Improvement"
      /\ snd (severity_and_priority p) = "Medium"
      /\ (50 <= p)%Q /\ (p < 70)%Q)
  \/ (fst (severity_and_priority p) = "Critical"
      /\ snd (severity_and_priority p) = "High" /\ (p < 50)%Q).
Proof.
  unfold severity_and_priority, ge.
  destruct (Qle_bool 70 p) eqn:E70.
  - left. apply Qle_bool_iff in E70. now repeat split.
  - assert (H70 : (p < 70)%Q).
    { apply Qnot_le_lt. intros H. apply Qle_bool_iff in H. congruence. }
    destruct (Qle_bool 50 p) eqn:E50.
    + right. left. apply Qle_bool_iff in E50. now repeat split.
    + right. right. repeat split.
      apply Qnot_le_lt. intros H. apply Qle_bool_iff in H. congruence.
Qed.

(** The detailed analysis returns for every dictionary of responses.
    Its category analysis has an entry exactly for the categories with a
    valid response; an entry carries the number of valid responses and
    their percentage, which lies between 25 and 100, and its severity and
    priority follow the percentage: Good and Low from 70, Needs
    Improvement and Medium from 50, Critical and High below. *)
Theorem category_analysis_of_answered_categories (now : string)
  (responses : Py.dict string) :
  exists a,
    analyze_responses_detailed now responses = inr a
    /\ (forall c,
          Py.dict_get (category_analysis a) c <> None
          <-> In c (Py.keys categories)
              /\ filter (in_category c) (answers responses) <> [])
    /\ (forall c ca,
          Py.dict_get (category_analysis a) c = Some ca ->
          let valid := filter (in_category c) (answers responses) in
          CategoryAnalysis.question_count ca = number valid
          /\ CategoryAnalysis.percentage ca
             = ratio (points valid) (number valid)
          /\ (25 <= CategoryAnalysis.percentage ca)%Q
          /\ (CategoryAnalysis.percentage ca <= 100)%Q
          /\ ((CategoryAnalysis.severity ca = "Good"
               /\ CategoryAnalysis.priority ca = "Low"
               /\ (70 <= CategoryAnalysis.percentage ca)%Q)
              \/ (CategoryAnalysis.severity ca = "Needs Improvement"
                  /\ CategoryAnalysis.priority ca = "Medium"
                  /\ (50 <= CategoryAnalysis.percentage ca)%Q
                  /\ (CategoryAnalysis.percentage ca < 70)%Q)
              \/ (CategoryAnalysis.severity ca = "Critical"
                  /\ CategoryAnalysis.priority ca = "High"
                  /\ (CategoryAnalysis.percentage ca < 50)%Q))).
Proof.
  destruct (analysis_facts now responses)
    as (a & res & E & _ & _ & _ & _ & _ & Hin & Hout).
  exists a. split; [exact E|]. split.
  - intros c. destruct (in_dec string_dec c (Py.keys categories)) as [Hc|Hc].
    + destruct (Hin c Hc) as [_ H]. cbn zeta in H. rewrite H.
      destruct (number _ =? 0)%Z eqn:En.
      * apply number_zero_iff in En. split; [congruence|].
        intros [_ Hne]. contradiction.
      * split; [|discriminate]. intros _. split; [exact Hc|].
        intros Hnil. apply number_zero_iff in Hnil. congruence.
    + rewrite (Hout c Hc). split; [congruence|]. intros [H _]. contradiction.
  - intros c ca Hca.
    destruct (in_dec string_dec c (Py.keys categories)) as [Hc|Hc];
      [|rewrite (Hout c Hc) in Hca; discriminate].
    destruct (Hin c Hc) as [_ H]. cbn zeta in H. rewrite H in Hca.
    destruct (number _ =? 0)%Z eqn:En; [discriminate|].
    injection Hca as <-.
    cbn [CategoryAnalysis.question_count CategoryAnalysis.percentage
         CategoryAnalysis.severity CategoryAnalysis.priority].
    apply Z.eqb_neq in En.
    pose proof (proj1 (QuestionnaireProps.answers_range responses c)) as Hr.
    assert (Hn : (0 < number (filter (in_category c) (answers responses)))%Z)
      by (unfold number in *; lia).
    split; [reflexivity|]. split; [reflexivity|]. split.
    { change 25%Q with (inject_Z 25).
      apply (proj1 (QuestionnaireProps.ratio_bounds _ _ 25 Hn)). lia. }
    split.
    { change 100%Q with (inject_Z 100).
      apply (proj2 (proj2 (QuestionnaireProps.ratio_bounds _ _ 100 Hn))).
      lia. }
    apply severity_cases.
Qed.

Lemma category_analysis_of_answered_categories_witness :
  (In "intake" (Py.keys categories)
   /\ filter (in_category "intake")
        (answers QuestionnaireExamples.responses) <> [])
  /\ exists a,
       analyze_responses_detailed "2025-01-01T00:00:00"
         QuestionnaireExamples.responses = inr a
       /\ Py.dict_get (category_analysis a) "intake" <> None.
Proof.
  assert (H : In "intake" (Py.keys categories)
              /\ filter (in_category "intake")
                   (answers QuestionnaireExamples.responses) <> [])
    by (split; [vm_compute; tauto | vm_compute; discriminate]).
  split; [exact H|].
  destruct (category_analysis_of_answered_categories "2025-01-01T00:00:00"
              QuestionnaireExamples.responses) as (a & E & Hiff & _).
  exists a. split; [exact E|]. apply Hiff. exact H.
Defined.

Lemma exists_low (l : list (DiagnosticQuestion.t * QuestionOption.t)) :
  (points l < 3 * number l)%Z ->
  exists a, In a l /\ (QuestionOption.value (snd a) <= 2)%Z.
Proof.
  unfold points, number.
  induction l as [|a l IH]; cbn [map fold_right List.length]; [lia|].
  intros H. destruct (Z_le_gt_dec (QuestionOption.value (snd a)) 2) as [Hle|Hgt].
  - exists a. split; [now left | exact Hle].
  - destruct IH as [b [Hb Hv]]; [lia|]. exists b. split; [now right|exact Hv].
Qed.

(** When [responses] has each question once, as a dictionary does, every
    category that is not rated Good names at least one low scoring area:
    a percentage below 70 needs an answer worth 2 points or less. *)
Theorem weak_category_names_low_scoring_area (now : string)
  (responses : Py.dict string) :
  NoDup (Py.keys responses) ->
  exists a,
    analyze_responses_detailed now responses = inr a
    /\ forall c ca,
         Py.dict_get (category_analysis a) c = Some ca ->
         CategoryAnalysis.severity ca <> "Good" ->
         CategoryAnalysis.low_scoring_areas ca <> []
         /\ forall l, In l (CategoryAnalysis.low_scoring_areas ca) ->
                      exists question,
                        In question (get_questions_by_category c)
                        /\ LowScoring.question l
                           = DiagnosticQuestion.question_text question.
Proof.
  intros Hnd.
  destruct (analysis_facts now responses)
    as (a & res & E & _ & _ & _ & _ & _ & Hin & Hout).
  exists a. split; [exact E|]. intros c ca Hca Hsev.
  destruct (in_dec string_dec c (Py.keys categories)) as [Hc|Hc];
    [|rewrite (Hout c Hc) in Hca; discriminate].
  destruct (Hin c Hc) as [_ H]. cbn zeta in H. rewrite H in Hca.
  destruct (number _ =? 0)%Z eqn:En; [discriminate|].
  injection Hca as <-.
  cbn [CategoryAnalysis.severity CategoryAnalysis.low_scoring_areas] in *.
  apply Z.eqb_neq in En.
  assert (Hn : (0 < number (filter (in_category c) (answers responses)))%Z)
    by (unfold number in *; lia).
  split.
  - destruct (severity_cases
                (ratio (points (filter (in_category c) (answers responses)))
                   (number (filter (in_category c) (answers responses)))))
      as [[Hg _] | [(_ & _ & _ & Hlt) | (_ & _ & Hlt)]];
      [contradiction| |].
    all: assert (Hlt70 :
                   (ratio (points (filter (in_category c)
                                     (answers responses)))
                      (number (filter (in_category c) (answers responses)))
                    < inject_Z 70)%Q)
      by (first [exact Hlt
                | apply Qlt_trans with (y := 50%Q);
                  [exact Hlt | reflexivity]]).
    all: apply (proj1 (proj2 (QuestionnaireProps.ratio_bounds _ _ 70 Hn)))
           in Hlt70.
    all: destruct (exists_low
                     (filter (in_category c) (answers responses)))
           as [[question opt] [Ha Hv]]; [lia|].
    all: apply filter_In in Ha; destruct Ha as [Ha Hcat].
    all: destruct (QuestionnaireProps.In_answers responses _ Ha)
           as (Hq & _ & [k v] & Hitem & Hid & Hnext).
    all: cbn [fst snd] in *.
    all: assert (Hlow : In (LowScoring.mk
                             (DiagnosticQuestion.question_text question)
                             (_identify_issue question))
                          (flat_map (low_scoring_of responses)
                             (get_questions_by_category c))).
    all: try (apply in_flat_map; exists question; split;
              [unfold get_questions_by_category; apply filter_In;
               split; [exact Hq | exact Hcat]
              |unfold low_scoring_of;
               rewrite Hid, (PyFacts.dict_get_In responses k v Hnd Hitem),
                 Hnext;
               apply Z.leb_le in Hv; rewrite Hv; now left]).
    all: intros Hnil; rewrite Hnil in Hlow; contradiction.
  - intros l Hl. apply in_flat_map in Hl.
    destruct Hl as [question [Hq Hl]]. exists question.
    split; [exact Hq|].
    unfold low_scoring_of in Hl.
    destruct (Py.dict_get responses (DiagnosticQuestion.id question));
      [|contradiction].
    destruct (next_option question s) as [e|opt]; [contradiction|].
    destruct (QuestionOption.value opt <=? 2)%Z; [|contradiction].
    destruct Hl as [<- | []]. reflexivity.
Qed.

Lemma weak_category_names_low_scoring_area_witness :
  NoDup (Py.keys QuestionnaireExamples.responses)
  /\ exists a,
       analyze_responses_detailed "2025-01-01T00:00:00"
         QuestionnaireExamples.responses = inr a.
Proof.
  assert (H : NoDup (Py.keys QuestionnaireExamples.responses))
    by (vm_compute; FsMore.nodup_strings).
  split; [exact H|].
  destruct (weak_category_names_low_scoring_area "2025-01-01T00:00:00"
              QuestionnaireExamples.responses H) as (a & E & _).
  exists a. exact E.
Defined.

(** A category of the time allocations without any valid response is
    scored 0: it has no entry in the category analysis, and its
    recommendation is in the savings list with the largest factors (70% of
    the hours wasted, 60% of that recoverable) and the difficulty Hard. *)
Theorem unanswered_category_is_scored_zero (now : string)
  (responses : Py.dict string) (c : string) (data : Analyzer.Allocation) :
  In (c, data) Analyzer.time_allocations ->
  filter (in_category c) (answers responses) = [] ->
  exists a,
    analyze_responses_detailed now responses = inr a
    /\ Py.dict_get (category_analysis a) c = None
    /\ Py.dict_get (category_percentages (score_results a)) c = Some 0%Q
    /\ exists r,
         In r (time_savings a)
         /\ Analyzer.area r = Py.get_default categories c ""
         /\ Analyzer.time_savings r = (Analyzer.weekly data * 0.7 * 0.6)%Q
         /\ Analyzer.implementation_time r = "Hard"
         /\ Analyzer.estimated_cost r = "$500-2000".
Proof.
  intros Hin Hnil.
  destruct (analysis_facts now responses)
    as (a & res & E & _ & Hres & Hts & _ & _ & Hcat & _).
  assert (Hc : In c (Py.keys categories)).
  { clear -Hin. AnalyzerMore.allocation_cases Hin; vm_compute; tauto. }
  destruct (Hcat c Hc) as [Hp Hca]. cbn zeta in Hp, Hca.
  rewrite Hnil in Hp, Hca. cbn in Hp, Hca.
  exists a. split; [exact E|]. split; [exact Hca|].
  rewrite Hres. split; [exact Hp|].
  assert (Hpct : Analyzer.percentage_of (category_percentages res) c = 0%Q).
  { unfold Analyzer.percentage_of, Py.get_default. now rewrite Hp. }
  eexists. split.
  - rewrite Hts. unfold Analyzer._calculate_time_savings.
    apply PyFacts.sorted_reverse_In, in_flat_map.
    exists (c, data). split; [exact Hin|].
    apply AnalyzerProps.recommend_In. split; [|reflexivity].
    rewrite Hpct. clear -Hin.
    AnalyzerMore.allocation_cases Hin; reflexivity.
  - cbn [Analyzer.area Analyzer.time_savings Analyzer.implementation_time
         Analyzer.estimated_cost].
    rewrite Hpct. repeat split.
Qed.

Lemma unanswered_category_is_scored_zero_witness :
  (In ("billing", Analyzer.mkAllocation 4 "hours on billing/time tracking")
     Analyzer.time_allocations
   /\ filter (in_category "billing")
        (answers QuestionnaireExamples.responses) = [])
  /\ exists a,
       analyze_responses_detailed "2025-01-01T00:00:00"
         QuestionnaireExamples.responses = inr a
       /\ Py.dict_get (category_analysis a) "billing" = None.
Proof.
  assert (H1 : In ("billing",
                   Analyzer.mkAllocation 4 "hours on billing/time tracking")
                 Analyzer.time_allocations)
    by (do 3 right; left; reflexivity).
  assert (H2 : filter (in_category "billing")
                 (answers QuestionnaireExamples.responses) = [])
    by (vm_compute; reflexivity).
  split; [now split|].
  destruct (unanswered_category_is_scored_zero "2025-01-01T00:00:00"
              QuestionnaireExamples.responses "billing" _ H1 H2)
    as (a & E & Hnone & _).
  exists a. split; [exact E | exact Hnone].
Defined.

End PracticeAnalyzerProps.

(** ** The Gmail scan *)

Module EmailProps.
Import EmailScanner EmailSpec ReportSpec.

(** *** [_identify_workflows] *)

Lemma nat_ltb_asym (a b : nat) : Nat.ltb a b = true -> Nat.ltb b a = false.
Proof. rewrite Nat.ltb_lt, Nat.ltb_ge. lia. Qed.

Lemma nat_nlt_trans (a b c : nat) :
  Nat.ltb a b = false -> Nat.ltb b c = false -> Nat.ltb a c = false.
Proof. rewrite !Nat.ltb_ge. lia. Qed.

Lemma above_tenth (count total : nat) :
  Py.gt (Py.of_nat count) (Py.of_nat total * 0.1)%Q = true
  <-> total < 10 * count.
Proof.
  rewrite PyFacts.gt_iff. unfold Py.of_nat, Qlt, Qmult, inject_Z.
  cbn [Qnum Qden]. change (Z.pos (1 * 10)) with 10%Z.
  split; intros H; lia.
Qed.

Lemma share_of (count total : nat) :
  0 < total ->
  ((10 < Py.of_nat count / Py.of_nat total * 100)%Q <-> total < 10 * count)
  /\ ((Py.of_nat count / Py.of_nat total * 100 <= 100)%Q <-> count <= total).
Proof.
  intros Ht.
  assert (H0 : (0 < Py.of_nat total)%Q)
    by (unfold Py.of_nat, Qlt; simpl; lia).
  assert (Hne : ~ (Py.of_nat total == 0)%Q)
    by (intros E; rewrite E in H0; discriminate).
  assert (Heq : (Py.of_nat count / Py.of_nat total * 100
                 == inject_Z (100 * Z.of_nat count) / Py.of_nat total)%Q).
  { rewrite inject_Z_mult. unfold Py.of_nat. field. exact Hne. }
  rewrite Heq. unfold Py.of_nat in *. split; split; intros H.
  - apply (Qmult_lt_compat_r _ _ _ H0) in H.
    unfold Qdiv in H. rewrite <- Qmult_assoc, (Qmult_comm (/ _)) in H.
    rewrite Qmult_inv_r, Qmult_1_r in H by exact Hne.
    change 10%Q with (inject_Z 10) in H.
    rewrite <- inject_Z_mult, <- Zlt_Qlt in H. lia.
  - apply Qlt_shift_div_l; [exact H0|].
    change 10%Q with (inject_Z 10).
    rewrite <- inject_Z_mult, <- Zlt_Qlt. lia.
  - apply (Qmult_le_compat_r _ _ (inject_Z (Z.of_nat total))) in H;
      [|now apply Qlt_le_weak].
    unfold Qdiv in H. rewrite <- Qmult_assoc, (Qmult_comm (/ _)) in H.
    rewrite Qmult_inv_r, Qmult_1_r in H by exact Hne.
    change 100%Q with (inject_Z 100) in H.
    rewrite <- inject_Z_mult, <- Zle_Qle in H. lia.
  - apply Qle_shift_div_r; [exact H0|].
    change 100%Q with (inject_Z 100).
    rewrite <- inject_Z_mult, <- Zle_Qle. lia.
Qed.

(** The loop over the categories, on counts none of which exceeds
    [total]: it returns, and every workflow is an entry whose count is
    more than a tenth of [total]. *)
Lemma workflows_of_returns (total : nat) (items : list (string * nat)) :
  (forall item, In item items -> snd item <= total) ->
  exists ws,
    workflows_of total items = inr ws
    /\ (forall w, In w ws ->
                  In (Workflow.type w, Workflow.volume w) items
                  /\ total < 10 * Workflow.volume w
                  /\ Workflow.percentage w
                     = (Py.of_nat (Workflow.volume w) / Py.of_nat total
                        * 100)%Q)
    /\ List.length ws * S total
       <= 10 * list_sum (map snd items).
Proof.
  induction items as [|[k c] items IH]; intros Hle.
  - exists []. cbn. split; [reflexivity|]. split; [intros w []|lia].
  - destruct IH as (ws & E & Hin & Hlen).
    { intros item Hitem. apply Hle. now right. }
    cbn [workflows_of]. unfold workflow_of. cbn [fst snd].
    destruct (Py.gt (Py.of_nat c) (Py.of_nat total * 0.1)%Q) eqn:G.
    + apply above_tenth in G.
      pose proof (Hle (k, c) (or_introl eq_refl)) as Hc. cbn [snd] in Hc.
      rewrite PyFacts.truediv_returns
        by (apply PyFacts.of_nat_nonzero; lia).
      cbn [Py.bind Py.ret]. rewrite E. cbn [Py.bind Py.ret app].
      eexists. split; [reflexivity|]. split.
      * intros w [<- | Hw].
        -- cbn [Workflow.type Workflow.volume Workflow.percentage].
           split; [now left|]. split; [exact G | reflexivity].
        -- destruct (Hin w Hw) as (H1 & H2 & H3).
           split; [now right|]. now split.
      * cbn [List.length map snd]. unfold list_sum in *.
        cbn [fold_right]. nia.
    + cbn [Py.bind Py.ret]. rewrite E. cbn [Py.bind Py.ret app].
      exists ws. split; [reflexivity|]. split.
      * intros w Hw. destruct (Hin w Hw) as (H1 & H2 & H3).
        split; [now right|]. now split.
      * cbn [map snd]. unfold list_sum in *. cbn [fold_right]. lia.
Qed.

Lemma In_le_list_sum (items : list (string * nat)) (item : string * nat) :
  In item items -> snd item <= list_sum (map snd items).
Proof.
  induction items as [|x items IH]; intros H; [contradiction|].
  cbn [map]. unfold list_sum in *. cbn [fold_right].
  destruct H as [<- | H]; [lia|].
  specialize (IH H). lia.
Qed.

(** [_identify_workflows] returns on every counter: the division by the
    total is only reached for a count above a tenth of it.  The workflows
    are in descending order of volume, there are fewer than ten of them,
    and each is a category of the counter whose share of the total is
    above 10 and at most 100 percent. *)
Theorem workflows_of_counter (categories : Py.dict nat) :
  let total := list_sum (map snd categories) in
  exists ws,
    _identify_workflows categories = inr ws
    /\ StronglySorted volume_no_less ws
    /\ List.length ws < 10
    /\ Forall
         (fun w =>
            In (Workflow.type w, Workflow.volume w) categories
            /\ Workflow.percentage w
               = (Py.of_nat (Workflow.volume w) / Py.of_nat total * 100)%Q
            /\ share (Workflow.percentage w))
         ws.
Proof.
  cbn zeta. unfold _identify_workflows.
  destruct (workflows_of_returns (list_sum (map snd categories)) categories
              (In_le_list_sum categories)) as (ws & -> & Hin & Hlen).
  cbn [Py.bind Py.ret]. eexists. split; [reflexivity|]. split; [|split].
  - eapply CoordinatorOrder.StronglySorted_weaken;
      [|apply (PyFacts.sorted_reverse_sorted Nat.ltb Workflow.volume
                 nat_ltb_asym nat_nlt_trans)].
    intros a b H. unfold Py.not_below in H. unfold volume_no_less.
    now apply Nat.ltb_ge.
  - rewrite PyFacts.sorted_reverse_length. nia.
  - apply Forall_forall. intros w Hw.
    apply PyFacts.sorted_reverse_In in Hw.
    destruct (Hin w Hw) as (H1 & H2 & H3).
    split; [exact H1|]. split; [exact H3|].
    pose proof (In_le_list_sum categories _ H1) as Hle. cbn [snd] in Hle.
    rewrite H3. unfold share.
    destruct (share_of (Workflow.volume w)
                (list_sum (map snd categories))) as [S1 S2]; [lia|].
    split; [now apply S1 | now apply S2].
Qed.

(** *** [_analyze_response_times] *)

Lemma dict_set_sum (d : Py.dict nat) (k : string) (v : nat) :
  list_sum (map snd (Py.dict_set d k v)) + Py.get_default d k 0
  = list_sum (map snd d) + v.
Proof.
  unfold Py.get_default, list_sum.
  induction d as [|[k' v'] d IH]; cbn [Py.dict_set Py.dict_get map snd
                                       fold_right]; [lia|].
  destruct (String.eqb k k'); cbn [map snd fold_right]; lia.
Qed.

Lemma dict_add_sum (d : Py.dict nat) (k : string) (n : nat) :
  list_sum (map snd (Py.dict_add Nat.add 0 d k n))
  = list_sum (map snd d) + n.
Proof.
  unfold Py.dict_add.
  pose proof (dict_set_sum d k (Py.get_default d k 0 + n)). lia.
Qed.

Lemma count_buckets_spec (rts : list Q) (d : Py.dict nat) :
  (forall label,
      Py.get_default (fold_left count_bucket rts d) label 0
      = Py.get_default d label 0
        + List.length (filter (in_bucket label) rts))
  /\ list_sum (map snd (fold_left count_bucket rts d))
     = list_sum (map snd d) + List.length rts.
Proof.
  revert d. induction rts as [|rt rts IH]; intros d;
    cbn [fold_left filter List.length].
  - split; [intros label|]; lia.
  - destruct (IH (count_bucket d rt)) as [H1 H2]. split.
    + intros label. rewrite H1. unfold count_bucket at 1.
      rewrite PyFacts.get_default_add. unfold in_bucket at 2.
      rewrite (String.eqb_sym label).
      destruct (String.eqb (bucket_of rt) label) eqn:E;
        cbn [List.length]; [|lia].
      apply String.eqb_eq in E. subst label. lia.
    + rewrite H2. unfold count_bucket. rewrite dict_add_sum. lia.
Qed.

Lemma measured_in_window (g : Gmail) : Forall in_window (measured g).
Proof.
  apply Forall_forall. intros rt H. unfold measured in H.
  destruct (threads g) as [ths|]; [|contradiction].
  unfold response_times_of in H. apply in_flat_map in H.
  destruct H as [t [_ H]]. unfold thread_response_times in H.
  destruct t as [msgs|]; [|contradiction].
  apply filter_In in H. destruct H as [_ H]. unfold plausible in H.
  apply andb_true_iff in H. destruct H as [H1 H2].
  apply PyFacts.lt_iff in H1. apply PyFacts.lt_iff in H2. now split.
Qed.

Lemma of_nat_S (n : nat) : (Py.of_nat (S n) == Py.of_nat n + 1)%Q.
Proof.
  unfold Py.of_nat. rewrite Nat2Z.inj_succ, <- Z.add_1_r, inject_Z_plus.
  reflexivity.
Qed.

Lemma sum_in_window (l : list Q) :
  Forall in_window l ->
  (Py.of_nat (List.length l) * 0.1 <= fold_right Qplus 0 l)%Q
  /\ (fold_right Qplus 0 l <= Py.of_nat (List.length l) * 720)%Q.
Proof.
  induction 1 as [|x l [Hx1 Hx2] Hl [IH1 IH2]];
    cbn [fold_right List.length].
  - split; discriminate.
  - rewrite of_nat_S. split; lra.
Qed.

Lemma mean_in_window (x : Q) (l : list Q) :
  Forall in_window (x :: l) ->
  in_window (Py.sum (x :: l) / Py.of_nat (List.length (x :: l)))%Q.
Proof.
  intros H. inversion H as [|? ? [Hx1 Hx2] Hl]; subst.
  destruct (sum_in_window l Hl) as [H1 H2].
  assert (Hn : (0 < Py.of_nat (List.length (x :: l)))%Q)
    by (unfold Py.of_nat, Qlt; simpl; lia).
  unfold in_window. rewrite PyFacts.sum_fold_right. cbn [fold_right].
  split.
  - apply Qlt_shift_div_l; [exact Hn|].
    cbn [List.length]. rewrite of_nat_S. lra.
  - apply Qlt_shift_div_r; [exact Hn|].
    cbn [List.length]. rewrite of_nat_S. lra.
Qed.

(** The response statistics of a scan.  Every response time measured
    lies strictly between 0.1 and 720 hours; each of them is counted in
    the bucket of its length, so the distribution adds up to their
    number; without any the average stays 0, and otherwise the average is
    their mean and lies in the same window.  No reply of the service makes
    the analysis raise. *)
Theorem response_time_statistics (g : Gmail) :
  let a := _analyze_response_times g in
  let rts := measured g in
  Forall in_window rts
  /\ (forall label,
        Py.get_default (response_time_distribution a) label 0
        = List.length (filter (in_bucket label) rts))
  /\ list_sum (map snd (response_time_distribution a)) = List.length rts
  /\ (rts = [] -> avg_response_time_hours a = 0%Q)
  /\ (rts <> [] ->
      avg_response_time_hours a
      = (Py.sum rts / Py.of_nat (List.length rts))%Q
      /\ in_window (avg_response_time_hours a)).
Proof.
  cbn zeta. pose proof (measured_in_window g) as Hw.
  split; [exact Hw|].
  unfold _analyze_response_times, measured in *.
  destruct (threads g) as [ths|].
  - destruct (response_times_of ths) as [|rt rts] eqn:E.
    + cbn. split; [intros label; reflexivity|]. split; [reflexivity|].
      split; [reflexivity|]. intros Hne. now contradiction Hne.
    + unfold response_statistics.
      rewrite PyFacts.truediv_returns
        by (apply PyFacts.of_nat_nonzero; discriminate).
      cbn [Py.bind Py.ret response_time_distribution
           avg_response_time_hours].
      destruct (count_buckets_spec (rt :: rts) []) as [H1 H2].
      split; [intros label; now rewrite H1|].
      split; [now rewrite H2|].
      split; [discriminate|]. intros _. split; [reflexivity|].
      now apply mean_in_window.
  - cbn. split; [intros label; reflexivity|]. split; [reflexivity|].
      split; [reflexivity|]. intros Hne. now contradiction Hne.
Qed.

Lemma response_time_statistics_witness :
  measured PipelineExamples.mailbox <> []
  /\ in_window
       (avg_response_time_hours
          (_analyze_response_times PipelineExamples.mailbox)).
Proof.
  assert (H : measured PipelineExamples.mailbox <> [])
    by (vm_compute; discriminate).
  split; [exact H|].
  destruct (response_time_statistics PipelineExamples.mailbox)
    as (_ & _ & _ & _ & Himp).
  exact (proj2 (Himp H)).
Defined.

(** *** [scan_gmail] *)

Lemma scan_without_profile (g : Gmail) :
  profile g = None ->
  scan_gmail g = seal false (Some Py.ServiceError) initial_results.
Proof.
  intros H. unfold scan_gmail, try_block. cbn [Py.run_steps].
  now rewrite H.
Qed.

Lemma scan_without_labels (g : Gmail) (p : Profile.t) :
  profile g = Some p -> labels g = None ->
  scan_gmail g
  = seal false (Some Py.ServiceError) (set_profile p initial_results).
Proof.
  intros Hp Hl. unfold scan_gmail, try_block. cbn [Py.run_steps].
  rewrite Hp. cbn [Py.ret]. now rewrite Hl.
Qed.

Lemma gmail_scan_reached (g : Gmail) (p : Profile.t) (ls : list Label.t) :
  profile g = Some p -> labels g = Some ls ->
  let r4 :=
    set_response_analysis (_analyze_response_times g)
      (set_email_patterns (_analyze_gmail_emails g)
         (set_folders (fold_left analyze_label (firstn 20 ls) [])
            (set_folder_count (List.length ls)
               (set_profile p initial_results)))) in
  scan_gmail g
  = seal true None
      (set_recommendations (_generate_email_recommendations r4) r4).
Proof.
  intros Hp Hl. cbn zeta. unfold scan_gmail, try_block.
  cbn [Py.run_steps]. rewrite Hp. cbn [Py.ret]. rewrite Hl. reflexivity.
Qed.

Lemma dict_set_length {V} (d : Py.dict V) (k : string) (v : V) :
  List.length (Py.dict_set d k v) <= S (List.length d).
Proof.
  induction d as [|[k' v'] d IH]; cbn [Py.dict_set List.length]; [lia|].
  destruct (String.eqb k k'); cbn [List.length]; lia.
Qed.

Lemma analyze_labels_spec (ls : list Label.t) (fs : Py.dict Folder.t) :
  List.length (fold_left analyze_label ls fs)
  <= List.length fs + List.length ls
  /\ ((forall name f, Py.dict_get fs name = Some f ->
                      (10 < Folder.message_count f)%Z) ->
      forall name f,
        Py.dict_get (fold_left analyze_label ls fs) name = Some f ->
        (10 < Folder.message_count f)%Z).
Proof.
  revert fs. induction ls as [|l ls IH]; intros fs;
    cbn [fold_left List.length].
  - split; [lia | auto].
  - destruct (IH (analyze_label fs l)) as [H1 H2].
    assert (Hl : List.length (analyze_label fs l) <= S (List.length fs)).
    { unfold analyze_label. destruct (Label.info l) as [i|]; [|lia].
      destruct (10 <? _)%Z; [apply dict_set_length | lia]. }
    split; [lia|]. intros Hfs. apply H2.
    intros name f. unfold analyze_label.
    destruct (Label.info l) as [i|]; [|apply Hfs].
    destruct (10 <? _)%Z eqn:E; [|apply Hfs].
    rewrite PyFacts.dict_get_set.
    destruct (String.eqb name (Label.name l)); [|apply Hfs].
    intros H. injection H as <-. cbn [Folder.message_count].
    now apply Z.ltb_lt.
Qed.

Lemma rec_areas_of (r : Results) :
  Permutation
    (when (negb (Nat.eqb (List.length (high_confidence_of r)) 0))
       "email_templates"
     ++ when (Py.gt (response_time_of r) 24) "response_time"
     ++ when (20 <? List.length (folders r))%nat "organization")%list
    (rec_areas (_generate_email_recommendations r)).
Proof.
  unfold rec_areas, _generate_email_recommendations.
  eapply Permutation_trans;
    [|apply Permutation_map, PyFacts.sorted_reverse_perm].
  rewrite !map_app.
  destruct (negb _), (Py.gt _ _), (20 <? _)%nat; apply Permutation_refl.
Qed.

Lemma gmail_provider (g : Gmail) :
  provider (scan_gmail g) = "gmail"
  /\ Report.organization_issues (report_of (scan_gmail g)) = None.
Proof.
  split; [|reflexivity].
  destruct (profile g) as [p|] eqn:Hp.
  - destruct (labels g) as [ls|] eqn:Hl.
    + now rewrite (gmail_scan_reached g p ls Hp Hl).
    + now rewrite (scan_without_labels g p Hp Hl).
  - now rewrite (scan_without_profile g Hp).
Qed.

(** A Gmail scan completes exactly when the profile and the label list
    can be fetched; no failure of a single label, of the message listing,
    of a message or of a thread makes it fail.  A complete scan has no
    error and both analyses; any other scan is sealed as failed, with no
    recommendation.  In every result ['total_emails_analyzed'] is 0 and
    the report has no organization issues for the coordinator.  At most
    twenty folders are recorded, all with more than ten messages, so the
    recommendation on the folder structure, which needs more than twenty,
    is never made. *)
Theorem gmail_scan_outcome (g : Gmail) :
  let r := scan_gmail g in
  (scan_complete r = Some true <-> profile g <> None /\ labels g <> None)
  /\ (scan_complete r = Some true ->
      error r = None
      /\ email_patterns r = Some (_analyze_gmail_emails g)
      /\ response_analysis r = Some (_analyze_response_times g))
  /\ (scan_complete r <> Some true ->
      scan_complete r = Some false
      /\ error r = Some Py.ServiceError
      /\ recommendations r = []
      /\ email_patterns r = None /\ response_analysis r = None)
  /\ total_emails_analyzed r = 0
  /\ Report.organization_issues (report_of r) = None
  /\ List.length (folders r) <= 20
  /\ (forall name f, Py.dict_get (folders r) name = Some f ->
                     (10 < Folder.message_count f)%Z)
  /\ ~ In "organization" (rec_areas (recommendations r)).
Proof.
  cbn zeta. destruct (profile g) as [p|] eqn:Hp.
  - destruct (labels g) as [ls|] eqn:Hl.
    + rewrite (gmail_scan_reached g p ls Hp Hl).
      cbn [seal set_recommendations set_response_analysis
           set_email_patterns set_folders set_folder_count set_profile
           initial_results scan_complete error email_patterns
           response_analysis recommendations total_emails_analyzed
           folders report_of Report.organization_issues].
      destruct (analyze_labels_spec (firstn 20 ls) []) as [Hlen Hcount].
      assert (H20 : List.length (fold_left analyze_label (firstn 20 ls) [])
                    <= 20).
      { pose proof (firstn_le_length 20 ls). cbn [List.length] in Hlen.
        lia. }
      split; [split; [intros _; split; discriminate | reflexivity]|].
      split; [intros _; repeat split|].
      split; [intros H; now contradiction H|].
      split; [reflexivity|]. split; [reflexivity|].
      split; [exact H20|].
      split; [apply Hcount; intros name f H; discriminate H|].
      intros Hin.
      match type of Hin with
      | In _ (rec_areas (_generate_email_recommendations ?r4)) =>
          apply (Permutation_in _ (Permutation_sym (rec_areas_of r4)))
            in Hin;
          assert (E : (20 <? List.length (folders r4))%nat = false)
            by (apply Nat.ltb_ge; exact H20);
          rewrite E in Hin
      end.
      apply in_app_or in Hin. destruct Hin as [Hin | Hin].
      * destruct (negb _); cbn in Hin; [destruct Hin as [H|[]]|];
          [discriminate H | contradiction].
      * apply in_app_or in Hin. destruct Hin as [Hin | Hin];
          [|contradiction].
        destruct (Py.gt _ _); cbn in Hin; [destruct Hin as [H|[]]|];
          [discriminate H | contradiction].
    + rewrite (scan_without_labels g p Hp Hl). cbn.
      split; [split; [discriminate | intros [_ H]; now contradiction H]|].
      split; [discriminate|].
      split; [intros _; repeat split|].
      repeat split; try lia; try discriminate.
  - rewrite (scan_without_profile g Hp). cbn.
    split; [split; [discriminate | intros [H _]; now contradiction H]|].
    split; [discriminate|].
    split; [intros _; repeat split|].
    repeat split; try lia; try discriminate.
Qed.

Lemma gmail_scan_outcome_witness :
  scan_complete (scan_gmail PipelineExamples.mailbox) = Some true
  /\ error (scan_gmail PipelineExamples.mailbox) = None.
Proof.
  assert (H : scan_complete (scan_gmail PipelineExamples.mailbox)
              = Some true) by (vm_compute; reflexivity).
  split; [exact H|].
  destruct (gmail_scan_outcome PipelineExamples.mailbox)
    as (_ & Himp & _).
  exact (proj1 (Himp H)).
Defined.

(** *** Template candidates and the recommendations *)

Lemma high_candidates_bound (l : list (string * nat)) :
  4 * List.length (filter is_high (flat_map candidate_of l))
  <= list_sum (map snd l).
Proof.
  unfold list_sum.
  induction l as [|[k c] l IH]; cbn [flat_map map snd fold_right];
    [cbn; lia|].
  rewrite filter_app, length_app. unfold candidate_of at 1. cbn [fst snd].
  destruct (3 <? c)%nat eqn:E3.
  - apply Nat.ltb_lt in E3. cbn. lia.
  - destruct (1 <? c)%nat; cbn; lia.
Qed.

Lemma sum_firstn (n : nat) (l : list (string * nat)) :
  list_sum (map snd (firstn n l)) <= list_sum (map snd l).
Proof.
  unfold list_sum. revert n.
  induction l as [|x l IH]; intros [|n]; cbn [firstn map fold_right];
    try lia.
  specialize (IH n). lia.
Qed.

Lemma perm_sum_nat (l l' : list (string * nat)) :
  Permutation l l' -> list_sum (map snd l) = list_sum (map snd l').
Proof.
  unfold list_sum.
  induction 1; cbn [map fold_right]; lia.
Qed.

Lemma subjects_sum (ms : list Message) (p : Patterns) :
  list_sum (map snd (common_subjects (fold_left analyze_message ms p)))
  <= list_sum (map snd (common_subjects p)) + List.length ms.
Proof.
  revert p. induction ms as [|m ms IH]; intros p;
    cbn [fold_left List.length]; [lia|].
  specialize (IH (analyze_message p m)).
  assert (H : list_sum (map snd (common_subjects (analyze_message p m)))
              <= S (list_sum (map snd (common_subjects p)))).
  { destruct m as [hs|]; cbn [analyze_message common_subjects]; [|lia].
    rewrite dict_add_sum. lia. }
  lia.
Qed.

(** The template candidates of the patterns, whether or not the workflow
    step raises. *)
Lemma patterns_templates (g : Gmail) :
  exists subjects,
    template_candidates (_analyze_gmail_emails g)
    = _identify_template_candidates subjects
    /\ list_sum (map snd subjects) <= 100.
Proof.
  unfold _analyze_gmail_emails.
  destruct (messages g) as [ms|].
  - unfold patterns_steps. cbn [Py.run_steps Py.ret].
    set (p2 := fold_left analyze_message (firstn 100 ms) _).
    exists (common_subjects p2). split.
    + destruct (_identify_workflows _) as [e|w]; reflexivity.
    + pose proof (subjects_sum (firstn 100 ms)
                    (set_total_analyzed (List.length ms) initial_patterns))
        as H.
      pose proof (firstn_le_length 100 ms) as Hn. fold p2 in H.
      change (list_sum
                (map snd
                   (common_subjects
                      (set_total_analyzed (List.length ms)
                         initial_patterns)))) with 0 in H.
      lia.
  - exists []. split; [reflexivity | cbn; lia].
Qed.

Lemma candidates_sorted (l : list (string * nat)) :
  StronglySorted (fun a b => snd b <= snd a) l ->
  StronglySorted counts_no_less (flat_map candidate_of l).
Proof.
  induction 1 as [|x l Hs IH Hx]; cbn [flat_map]; [constructor|].
  assert (Hall : Forall (fun t => Candidate.count t <= snd x)
                   (flat_map candidate_of l)).
  { apply Forall_forall. intros t Ht. apply in_flat_map in Ht.
    destruct Ht as [y [Hy Ht]]. rewrite Forall_forall in Hx.
    specialize (Hx y Hy). unfold candidate_of in Ht.
    destruct (3 <? snd y)%nat; [destruct Ht as [<- | []]; exact Hx|].
    destruct (1 <? snd y)%nat; [destruct Ht as [<- | []]; exact Hx|].
    contradiction. }
  unfold candidate_of at 1.
  destruct (3 <? snd x)%nat; [|destruct (1 <? snd x)%nat]; cbn [app];
    try exact IH; constructor; try exact IH; exact Hall.
Qed.

Lemma firstn_sorted {A} (R : A -> A -> Prop) (n : nat) (l : list A) :
  StronglySorted R l -> StronglySorted R (firstn n l).
Proof.
  intros H. revert n. induction H as [|x l Hs IH Hx]; intros [|n];
    cbn [firstn]; try constructor; [apply IH|].
  apply Forall_forall. intros y Hy. rewrite Forall_forall in Hx.
  apply Hx. now apply PyFacts.In_firstn in Hy.
Qed.

Lemma candidates_length (l : list (string * nat)) :
  List.length (flat_map candidate_of l) <= List.length l.
Proof.
  induction l as [|x l IH]; cbn [flat_map List.length]; [lia|].
  rewrite length_app. unfold candidate_of at 1.
  destruct (3 <? snd x)%nat; [|destruct (1 <? snd x)%nat]; cbn [List.length]; lia.
Qed.

(** The template candidates of any counter of subjects. *)
Lemma template_candidates_spec (subjects : Py.dict nat) :
  List.length (_identify_template_candidates subjects) <= 50
  /\ StronglySorted counts_no_less (_identify_template_candidates subjects)
  /\ Forall (fun t => 1 < Candidate.count t
                      /\ (Candidate.confidence t = "high"
                          <-> 3 < Candidate.count t))
       (_identify_template_candidates subjects)
  /\ 4 * List.length (filter is_high
                        (_identify_template_candidates subjects))
     <= list_sum (map snd subjects).
Proof.
  unfold _identify_template_candidates, most_common.
  split; [|split; [|split]].
  - eapply Nat.le_trans; [apply candidates_length|].
    rewrite length_firstn. lia.
  - apply candidates_sorted, firstn_sorted.
    eapply CoordinatorOrder.StronglySorted_weaken;
      [|apply (PyFacts.sorted_reverse_sorted Nat.ltb snd
                 nat_ltb_asym nat_nlt_trans)].
    intros a b H. unfold Py.not_below in H. now apply Nat.ltb_ge.
  - apply Forall_forall. intros t Ht. apply in_flat_map in Ht.
    destruct Ht as [x [_ Ht]]. unfold candidate_of in Ht.
    destruct (3 <? snd x)%nat eqn:E3.
    + destruct Ht as [<- | []]. apply Nat.ltb_lt in E3.
      cbn [Candidate.count Candidate.confidence].
      split; [lia|]. split; [intros _; exact E3 | reflexivity].
    + apply Nat.ltb_ge in E3. destruct (1 <? snd x)%nat eqn:E1;
        [|contradiction].
      destruct Ht as [<- | []]. apply Nat.ltb_lt in E1.
      cbn [Candidate.count Candidate.confidence].
      split; [exact E1|]. split; [discriminate | lia].
  - eapply Nat.le_trans; [apply high_candidates_bound|].
    eapply Nat.le_trans; [apply sum_firstn|].
    rewrite <- (perm_sum_nat _ _
                  (PyFacts.sorted_reverse_perm Nat.ltb snd subjects)).
    lia.
Qed.

Lemma headlines_of (r : Results) :
  (20 <? List.length (folders r))%nat = false ->
  map headline (_generate_email_recommendations r)
  = (when (Py.gt (response_time_of r) 24)
       ("medium", "response_time", 1.0%Q)
     ++ when (negb (Nat.eqb (List.length (high_confidence_of r)) 0))
          ("high", "email_templates",
           (Py.of_nat (List.length (high_confidence_of r)) * 0.5)%Q))%list.
Proof.
  intros E. unfold _generate_email_recommendations. rewrite E.
  destruct (negb _), (Py.gt _ _); reflexivity.
Qed.

(** The recommendations of a Gmail scan are at most two, and in this
    order: the response workflow (medium, 1 hour) when the average
    response time is above 24 hours, then the email templates (high) when
    there is a high confidence candidate, with half an hour of savings
    per such candidate.  Candidates are subjects seen more than once
    among the hundred messages read, at most fifty of them, in descending
    order of count and of high confidence exactly when seen more than
    three times; so there are at most 25 high confidence ones. *)
Theorem gmail_recommendations (g : Gmail) :
  let r := scan_gmail g in
  let n := List.length (high_confidence_of r) in
  map headline (recommendations r)
  = (when (Py.gt (response_time_of r) 24)
       ("medium", "response_time", 1.0%Q)
     ++ when (negb (Nat.eqb n 0))
          ("high", "email_templates", (Py.of_nat n * 0.5)%Q))%list
  /\ n <= 25
  /\ List.length (templates_of r) <= 50
  /\ StronglySorted counts_no_less (templates_of r)
  /\ Forall (fun t => 1 < Candidate.count t
                      /\ (Candidate.confidence t = "high"
                          <-> 3 < Candidate.count t))
       (templates_of r).
Proof.
  cbn zeta. destruct (profile g) as [p|] eqn:Hp.
  - destruct (labels g) as [ls|] eqn:Hl.
    + rewrite (gmail_scan_reached g p ls Hp Hl).
      set (r4 := set_response_analysis _ _).
      change (high_confidence_of
                (seal true None
                   (set_recommendations
                      (_generate_email_recommendations r4) r4)))
        with (high_confidence_of r4).
      change (response_time_of
                (seal true None
                   (set_recommendations
                      (_generate_email_recommendations r4) r4)))
        with (response_time_of r4).
      change (templates_of
                (seal true None
                   (set_recommendations
                      (_generate_email_recommendations r4) r4)))
        with (template_candidates (_analyze_gmail_emails g)).
      cbn [seal set_recommendations recommendations].
      destruct (analyze_labels_spec (firstn 20 ls) []) as [Hlen _].
      assert (E : (20 <? List.length (folders r4))%nat = false).
      { apply Nat.ltb_ge. pose proof (firstn_le_length 20 ls) as Hn.
        change (folders r4)
          with (fold_left analyze_label (firstn 20 ls) []).
        cbn [List.length] in Hlen. lia. }
      split; [exact (headlines_of r4 E)|].
      destruct (patterns_templates g) as (subjects & Et & Hs).
      change (high_confidence_of r4)
        with (filter is_high (template_candidates (_analyze_gmail_emails g))).
      rewrite Et.
      destruct (template_candidates_spec subjects) as (T1 & T2 & T3 & T4).
      split; [lia|]. now repeat split.
    + rewrite (scan_without_labels g p Hp Hl). cbn.
      repeat split; try lia; constructor.
  - rewrite (scan_without_profile g Hp). cbn.
    repeat split; try lia; constructor.
Qed.

(** The example mailbox: one label recorded, the subject seen four times
    is a high confidence candidate, the one answer took 30 hours; the
    medium recommendation comes first. *)
Example mailbox_scan :
  let r := scan_gmail PipelineExamples.mailbox in
  Py.keys (folders r) = ["Clients"]
  /\ map Candidate.subject (templates_of r) = ["Re: status of my case"]
  /\ option_map common_senders (email_patterns r)
     = Some [("c@example.org", 2); ("d@example.org", 2); ("", 1)]
  /\ option_map (fun p => map Workflow.type (workflows p))
       (email_patterns r)
     = Some ["client_communication"; "court_deadline"]
  /\ map (fun rec => (Rec.priority rec, Rec.area rec)) (recommendations r)
     = [("medium", "response_time"); ("high", "email_templates")].
Proof. vm_compute. repeat split. Qed.

End EmailProps.

(** ** The coordinator on the reports of the file and drive scanners *)

Module PipelineProps.
Import Coordinator CoordinatorSpec Pipeline.

Lemma fs_issue_severities (r : FsAnalyzer.Results) (i : Issue.t) :
  In i (FsAnalyzer._detect_organization_issues r) ->
  In (Issue.severity i) ["high"; "medium"; "low"].
Proof.
  unfold FsAnalyzer._detect_organization_issues. intros H.
  repeat (apply in_app_or in H; destruct H as [H|H]);
    unfold FsAnalyzer.when in H;
    match type of H with
    | In _ (if ?b then _ else _) => destruct b
    end;
    cbn [In] in H; try contradiction; destruct H as [<- | []]; cbn; auto.
Qed.

Lemma file_report_shape (md5 : string -> string) (s : Sources) :
  exists issues recs,
    file_report md5 s = Report.mk None true None (Some issues) recs
    /\ recs = FsAnalyzer.recommendations
                (FsAnalyzer.scan_filesystem md5 (scan_path s) (max_files s)
                   (tree s))
    /\ forall i, In i issues ->
                 In (Issue.severity i) ["high"; "medium"; "low"].
Proof.
  unfold file_report, FsAnalyzer.report_of.
  destruct (FsTotality.scan_filesystem_completes md5 (scan_path s)
              (max_files s) (tree s)) as (Hc & He & _).
  destruct (FsMore.scan_filesystem_shape md5 (scan_path s) (max_files s)
              (tree s)) as (dp & n & _ & _ & _ & _ & Hi & _).
  cbn zeta in Hc, He, Hi. rewrite Hc, He.
  eexists. eexists. split; [reflexivity|]. split; [reflexivity|].
  rewrite Hi. apply fs_issue_severities.
Qed.

Lemma drive_report_shape (s : Sources) :
  exists complete err issues recs,
    drive_report s
    = Report.mk (Some "google_drive") complete err (Some issues) recs
    /\ recs = CloudScanner.recommendations
                (CloudScanner.scan_google_drive (max_drive_files s)
                   (drive s))
    /\ forall i, In i issues -> In (Issue.severity i) ["high"; "medium"].
Proof.
  unfold drive_report, CloudScanner.report_of.
  destruct (drive s) as [[a|] l].
  - destruct (Z.eq_dec
                (CloudScanner.opt
                   (CloudScanner.limit (CloudSpec.quota_of a)) 1%Z) 0%Z)
      as [Hz|Hnz].
    + rewrite (CloudMore.scan_zero_divisor _ a l Hz). cbn.
      do 4 eexists. split; [reflexivity|]. split; [reflexivity|].
      intros i [].
    + destruct (CloudMore.scan_reached (max_drive_files s) a l Hnz)
        as (q & unc & b & _ & Hk & Hs & Hb & ->).
      cbn [CloudScanner.seal CloudScanner.set_recommendations
           CloudScanner.set_organization_issues CloudScanner.provider
           CloudScanner.scan_complete CloudScanner.error
           CloudScanner.organization_issues CloudScanner.recommendations].
      assert (Hp : forall xs r,
                 CloudScanner.provider
                   (fold_left CloudScanner.analyze_file xs r)
                 = CloudScanner.provider r).
      { induction xs as [|x xs IH]; intros r; cbn [fold_left];
          [reflexivity|]. rewrite IH. unfold CloudScanner.analyze_file.
        destruct (String.eqb _ _); reflexivity. }
      rewrite Hp. cbn.
      do 4 eexists. split; [reflexivity|]. split; [reflexivity|].
      intros i Hi.
      destruct (CloudMore.drive_rules_agree _ unc b Hk Hs Hb)
        as (_ & _ & Hsev & _).
      destruct (Hsev i Hi) as [-> | ->]; cbn; auto.
  - rewrite CloudMore.scan_unreachable. cbn.
    do 4 eexists. split; [reflexivity|]. split; [reflexivity|].
    intros i [].
Qed.

Lemma filter_nil_of {A} (p : A -> bool) (l : list A) :
  (forall x, In x l -> p x = false) -> filter p l = [].
Proof.
  induction l as [|x l IH]; intros H; cbn [filter]; [reflexivity|].
  rewrite (H x (or_introl eq_refl)). apply IH. intros y Hy. apply H.
  now right.
Qed.

(** A run on the three modelled scanners.  The mail scan contributes no
    finding.  No finding is critical; every finding comes from the file
    scan, under the module name [unknown] since its report names no
    provider, or from the drive scan under [google_drive]; the low bucket
    holds findings of the file scan only.  The merged recommendations
    are, up to their order, those of the mail scan with the source
    [gmail] when it completed, of the file scan with the source [unknown]
    and, when the drive scan completed, of the drive scan with the source
    [google_drive]. *)
Theorem pipeline_findings_by_source (md5 : string -> string) (s : Sources)
  (ln le : string) (f g d : bool) :
  let r := run_full_analysis (env md5 s) ln le f g d in
  let file_scan :=
    FsAnalyzer.scan_filesystem md5 (scan_path s) (max_files s) (tree s) in
  let drive_scan :=
    CloudScanner.scan_google_drive (max_drive_files s) (drive s) in
  let mail_scan := EmailScanner.scan_gmail (mail s) in
  exists c recs,
    consolidated_findings r = Some c
    /\ prioritized_recommendations r = Some recs
    /\ critical_issues c = []
    /\ Forall (fun ci => from_file_scan ci \/ from_drive_scan ci)
         (high_priority_issues c ++ medium_priority_issues c)
    /\ Forall (fun ci => from_file_scan ci
                         /\ CombinedIssue.severity ci = "low")
         (low_priority_issues c)
    /\ Permutation recs
         ((if g && mail_authenticated s
           then match EmailScanner.scan_complete mail_scan with
                | Some true =>
                    map (Rec.set_source "gmail")
                      (EmailScanner.recommendations mail_scan)
                | _ => []
                end
           else [])
          ++ (if f && documents_exist s
              then map (Rec.set_source "unknown")
                     (FsAnalyzer.recommendations file_scan)
              else [])
          ++ (if d && drive_authenticated s
              then match CloudScanner.scan_complete drive_scan with
                   | Some true =>
                       map (Rec.set_source "google_drive")
                         (CloudScanner.recommendations drive_scan)
                   | _ => []
                   end
              else [])).
Proof.
  cbn zeta.
  assert (Hmail : Report.organization_issues (mail_report s) = None)
    by reflexivity.
  destruct (file_report_shape md5 s) as (fi & fr & Ef & Efr & Hfs).
  destruct (drive_report_shape s) as (dc & de & di & dr & Ed & Edr & Hds).
  assert (Hall : forall ci,
             In ci (all_combined [email_slot (env md5 s) g;
                                  filesystem_slot (env md5 s) f;
                                  cloud_slot (env md5 s) d]) ->
             from_file_scan ci \/ from_drive_scan ci).
  { intros ci Hci. unfold all_combined in Hci. cbn [flat_map] in Hci.
    rewrite app_nil_r in Hci.
    apply in_app_or in Hci. destruct Hci as [Hci | Hci].
    - unfold email_slot in Hci. cbn [env gmail_auth scan_gmail_result] in Hci.
      destruct (g && mail_authenticated s); [|contradiction].
      cbn [combined_of] in Hci. unfold issues_of in Hci.
      rewrite Hmail in Hci.
      destruct (Report.scan_complete (mail_report s)); contradiction.
    - apply in_app_or in Hci. destruct Hci as [Hci | Hci].
      + left. unfold filesystem_slot in Hci.
        cbn [env docs_path_exists scan_filesystem_result] in Hci.
        destruct (f && documents_exist s); [|contradiction].
        rewrite Ef in Hci. cbn in Hci. apply in_map_iff in Hci.
        destruct Hci as [i [<- Hi]]. split; [reflexivity|].
        exact (Hfs i Hi).
      + right. unfold cloud_slot in Hci.
        cbn [env drive_auth scan_google_drive_result] in Hci.
        destruct (d && drive_authenticated s); [|contradiction].
        rewrite Ed in Hci. cbn in Hci.
        destruct dc; [|contradiction].
        apply in_map_iff in Hci.
        destruct Hci as [i [<- Hi]]. split; [reflexivity|].
        exact (Hds i Hi). }
  eexists. eexists.
  split; [apply CoordinatorFacts.run_consolidated|].
  split; [apply CoordinatorFacts.run_prioritized|].
  rewrite CoordinatorMore.consolidated_buckets.
  cbn [critical_issues high_priority_issues medium_priority_issues
       low_priority_issues].
  split.
  { apply filter_nil_of. intros ci Hci. unfold is_critical.
    apply String.eqb_neq. intros Hsev.
    destruct (Hall ci Hci) as [[_ H] | [_ H]]; rewrite Hsev in H;
      cbn [In] in H; repeat (destruct H as [H|H]; [discriminate H|]);
      contradiction. }
  split.
  { apply Forall_forall. intros ci Hci. apply Hall.
    apply in_app_or in Hci.
    destruct Hci as [Hci | Hci]; apply filter_In in Hci; apply Hci. }
  split.
  { apply Forall_forall. intros ci Hci. apply filter_In in Hci.
    destruct Hci as [Hci Hlow].
    unfold is_low, is_critical, is_high, is_medium in Hlow.
    apply negb_true_iff, orb_false_iff in Hlow. destruct Hlow as [Hlow Hm].
    apply orb_false_iff in Hlow. destruct Hlow as [_ Hh].
    apply String.eqb_neq in Hm. apply String.eqb_neq in Hh.
    destruct (Hall ci Hci) as [[Hmod H] | [Hmod H]]; cbn [In] in H.
    - destruct H as [H | [H | [H | []]]]; try congruence.
      split; [split; [exact Hmod|]|]; [|now symmetry].
      rewrite <- H. cbn. auto.
    - destruct H as [H | [H | []]]; congruence. }
  eapply Permutation_trans;
    [apply Permutation_sym, PyFacts.sorted_reverse_perm|].
  cbn [flat_map]. rewrite app_nil_r.
  replace (tagged_recs (email_slot (env md5 s) g))
    with (if g && mail_authenticated s
          then match EmailScanner.scan_complete
                       (EmailScanner.scan_gmail (mail s)) with
               | Some true =>
                   map (Rec.set_source "gmail")
                     (EmailScanner.recommendations
                        (EmailScanner.scan_gmail (mail s)))
               | _ => []
               end
          else []).
  2:{ unfold email_slot. cbn [env gmail_auth scan_gmail_result].
      destruct (g && mail_authenticated s); [|reflexivity].
      cbn [tagged_recs]. unfold mail_report, EmailScanner.report_of.
      cbn [Report.scan_complete Report.recommendations].
      destruct (EmailProps.gmail_provider (mail s)) as [Hprov _].
      destruct (EmailScanner.scan_complete
                  (EmailScanner.scan_gmail (mail s))) as [[|]|];
        try reflexivity.
      unfold provider_of. cbn [Report.provider]. now rewrite Hprov. }
  apply Permutation_app_head.
  unfold filesystem_slot, cloud_slot.
  cbn [env docs_path_exists scan_filesystem_result drive_auth
       scan_google_drive_result].
  replace (tagged_recs
             (if f && documents_exist s then Some (file_report md5 s)
              else None))
    with (if f && documents_exist s
          then map (Rec.set_source "unknown") fr else [])
    by (destruct (f && documents_exist s); [now rewrite Ef|reflexivity]).
  rewrite <- Efr. apply Permutation_app_head.
  destruct (d && drive_authenticated s); [|apply Permutation_refl].
  clear Ed. cbn [tagged_recs]. unfold drive_report, CloudScanner.report_of.
  cbn [Report.scan_complete Report.recommendations].
  destruct (CloudScanner.scan_complete
              (CloudScanner.scan_google_drive (max_drive_files s) (drive s)))
    as [[|]|]; try apply Permutation_refl.
  unfold provider_of. cbn [Report.provider].
  replace (CloudScanner.provider
             (CloudScanner.scan_google_drive (max_drive_files s) (drive s)))
    with "google_drive"; [apply Permutation_refl|].
  pose proof Edr as _.
  destruct (drive_report_shape s) as (c' & e' & i' & r' & E' & _).
  unfold drive_report, CloudScanner.report_of in E'.
  now injection E' as <- _ _ _ _.
Qed.

End PipelineProps.
